(** * SlotSwapper: the event / swap-request state machine

    A shallow embedding of the storage schema with its row-level
    security policies (the SQL migration) and of the three page
    components that drive it (Dashboard, Marketplace, Requests),
    followed by the properties of the swap state machine.

    The store is the three tables of the migration.  Every handler of
    the pages issues its statements one at a time through the client;
    each statement is evaluated against the policies of the session's
    user ([auth.uid()]) and is committed on its own. *)

From Stdlib Require Import List String ZArith NArith Bool Lia Permutation.
Import ListNotations.

Local Open Scope list_scope.

(** ** Identifiers, text and instants *)

(** [uuid] columns; the client sees them as strings. *)
Definition uuid := string.
Bind Scope string_scope with uuid.

(** [text] columns and JavaScript strings: sequences of UTF-16 code
    units, so that [length] is the [.length] zod's [min]/[max] read. *)
Definition jsstring := list N.

(** [timestamptz]: an instant, in milliseconds since the epoch. *)
Definition instant := Z.
Bind Scope Z_scope with instant.

Definition uuid_eqb (a b : uuid) : bool := String.eqb a b.
Infix "=?u" := uuid_eqb (at level 70, no associativity).

(** ** The schema (SQL migration) *)

(** [CREATE TYPE public.event_status AS ENUM ('BUSY', 'SWAPPABLE', 'SWAP_PENDING')] *)
Inductive event_status := BUSY | SWAPPABLE | SWAP_PENDING.

(** [CREATE TYPE public.swap_status AS ENUM ('PENDING', 'ACCEPTED', 'REJECTED')] *)
Inductive swap_status := PENDING | ACCEPTED | REJECTED.

Definition event_status_eqb (a b : event_status) : bool :=
  match a, b with
  | BUSY, BUSY | SWAPPABLE, SWAPPABLE | SWAP_PENDING, SWAP_PENDING => true
  | _, _ => false
  end.

Definition swap_status_eqb (a b : swap_status) : bool :=
  match a, b with
  | PENDING, PENDING | ACCEPTED, ACCEPTED | REJECTED, REJECTED => true
  | _, _ => false
  end.

Module Profile.
(** [public.profiles] *)
Record t := mk {
  id : uuid;
  name : jsstring;
  email : jsstring;
  created_at : instant
}.
End Profile.

Module Event.
(** [public.events] *)
Record t := mk {
  id : uuid;
  user_id : uuid;
  title : jsstring;
  start_time : instant;
  end_time : instant;
  status : event_status;
  created_at : instant;
  updated_at : instant
}.

(** The columns an [update] of the pages can carry. *)
Record patch := mk_patch {
  set_user_id : option uuid;
  set_status : option event_status
}.

Definition apply (p : patch) (e : t) : t :=
  mk (id e)
     (match set_user_id p with Some u => u | None => user_id e end)
     (title e) (start_time e) (end_time e)
     (match set_status p with Some s => s | None => status e end)
     (created_at e) (updated_at e).

(** Trigger [events_updated_at]: [new.updated_at = now()]. *)
Definition handle_updated_at (now : instant) (e : t) : t :=
  mk (id e) (user_id e) (title e) (start_time e) (end_time e) (status e)
     (created_at e) now.
End Event.

Module SwapRequest.
(** [public.swap_requests] *)
Record t := mk {
  id : uuid;
  requester_id : uuid;
  requester_event_id : uuid;
  owner_id : uuid;
  owner_event_id : uuid;
  status : swap_status;
  created_at : instant;
  updated_at : instant
}.

Definition with_status (s : swap_status) (r : t) : t :=
  mk (id r) (requester_id r) (requester_event_id r) (owner_id r)
     (owner_event_id r) s (created_at r) (updated_at r).

(** Trigger [swap_requests_updated_at]. *)
Definition handle_updated_at (now : instant) (r : t) : t :=
  mk (id r) (requester_id r) (requester_event_id r) (owner_id r)
     (owner_event_id r) (status r) (created_at r) now.

(** The request names the event on either side. *)
Definition references (eid : uuid) (r : t) : bool :=
  (requester_event_id r =?u eid) || (owner_event_id r =?u eid).
End SwapRequest.

(** The store: one list of rows per table. *)
Record DB := mkDB {
  profiles : list Profile.t;
  events : list Event.t;
  swap_requests : list SwapRequest.t
}.

Definition with_events (evs : list Event.t) (db : DB) : DB :=
  mkDB (profiles db) evs (swap_requests db).

Definition with_swap_requests (rs : list SwapRequest.t) (db : DB) : DB :=
  mkDB (profiles db) (events db) rs.

(** What a statement can come back with in its [error] field. *)
Inductive error :=
| RlsViolation      (* new row violates row-level security policy *)
| ForeignKeyViolation
| CheckViolation    (* valid_time_range *)
| UniqueViolation   (* primary key *)
| FetchFailed       (* the request did not reach the store *)
| InvalidTime.      (* RangeError of toISOString *)

Inductive result (A : Type) :=
| Ok (a : A)
| Err (e : error).
Arguments Ok {A} a.
Arguments Err {A} e.

(** What the surroundings supply to one statement: whether the request
    reaches the store, the value of [now()], and the value
    [gen_random_uuid()] returns if the statement inserts a row. *)
Record ambient := mkAmbient {
  net_ok : bool;
  now : instant;
  gen_random_uuid : uuid
}.

Module Policy.
(** Row-level security, enabled on the three tables.  [uid] is
    [auth.uid()]. *)

(** "Users can view own events" *)
Definition view_own_events (uid : uuid) (e : Event.t) : bool :=
  uid =?u Event.user_id e.

(** "Users can view swappable events from others" *)
Definition view_swappable_events_from_others (uid : uuid) (e : Event.t) : bool :=
  event_status_eqb (Event.status e) SWAPPABLE && negb (uid =?u Event.user_id e).

(** The SELECT policies of a table are permissive: a row is visible
    when one of them lets it through. *)
Definition events_select (uid : uuid) (e : Event.t) : bool :=
  view_own_events uid e || view_swappable_events_from_others uid e.

(** "Users can insert own events" (WITH CHECK) *)
Definition events_insert (uid : uuid) (e : Event.t) : bool :=
  uid =?u Event.user_id e.

(** "Users can update own events" (USING; with no WITH CHECK of its
    own the same expression is checked on the new row) *)
Definition events_update (uid : uuid) (e : Event.t) : bool :=
  uid =?u Event.user_id e.

(** "Users can delete own events" *)
Definition events_delete (uid : uuid) (e : Event.t) : bool :=
  uid =?u Event.user_id e.

(** "Users can view their swap requests" *)
Definition swap_requests_select (uid : uuid) (r : SwapRequest.t) : bool :=
  (uid =?u SwapRequest.requester_id r) || (uid =?u SwapRequest.owner_id r).

(** "Users can create swap requests" (WITH CHECK) *)
Definition swap_requests_insert (uid : uuid) (r : SwapRequest.t) : bool :=
  uid =?u SwapRequest.requester_id r.

(** "Owners can update swap requests" *)
Definition swap_requests_update (uid : uuid) (r : SwapRequest.t) : bool :=
  uid =?u SwapRequest.owner_id r.
End Policy.

Module Store.
(** The statements the pages send, as the store evaluates them for
    the session user [uid]. *)

Definition has_profile (db : DB) (u : uuid) : bool :=
  existsb (fun p => Profile.id p =?u u) (profiles db).

Definition has_event (db : DB) (i : uuid) : bool :=
  existsb (fun e => Event.id e =?u i) (events db).

Definition has_swap_request (db : DB) (i : uuid) : bool :=
  existsb (fun r => SwapRequest.id r =?u i) (swap_requests db).

(** [from('events').insert({user_id, title, start_time, end_time, status})] *)
Definition events_insert (uid : uuid) (a : ambient)
    (user_id : uuid) (title : jsstring) (start_time end_time : instant)
    (status : event_status) (db : DB) : result DB :=
  let row := Event.mk (gen_random_uuid a) user_id title start_time end_time
                       status (now a) (now a) in
  if negb (Policy.events_insert uid row) then Err RlsViolation
  else if negb (start_time <? end_time)%Z then Err CheckViolation
  else if has_event db (Event.id row) then Err UniqueViolation
  else if negb (has_profile db user_id) then Err ForeignKeyViolation
  else Ok (with_events (events db ++ [row]) db).

(** The rows an [update(...).eq('id', target)] on [events] reaches:
    those the UPDATE policy lets the user see. *)
Definition events_update_target (uid target : uuid) (e : Event.t) : bool :=
  (Event.id e =?u target) && Policy.events_update uid e.

Definition events_update_row (a : ambient) (p : Event.patch) (e : Event.t) : Event.t :=
  Event.handle_updated_at (now a) (Event.apply p e).

(** [from('events').update(p).eq('id', target)].  Rows the policy
    hides are skipped without an error; a new row the policy turns
    down, or whose [user_id] names no profile, aborts the statement.
    Neither patch of the pages touches the time columns, so
    [valid_time_range] cannot newly fail. *)
Definition events_update (uid : uuid) (a : ambient) (p : Event.patch)
    (target : uuid) (db : DB) : result DB :=
  let hit := filter (events_update_target uid target) (events db) in
  let new_rows := map (events_update_row a p) hit in
  if negb (forallb (Policy.events_update uid) new_rows) then Err RlsViolation
  else if negb (match Event.set_user_id p with
                | Some u => has_profile db u || match hit with [] => true | _ => false end
                | None => true
                end) then Err ForeignKeyViolation
  else Ok (with_events
             (map (fun e => if events_update_target uid target e
                            then events_update_row a p e else e) (events db))
             db).

Definition events_delete_target (uid target : uuid) (e : Event.t) : bool :=
  (Event.id e =?u target) && Policy.events_delete uid e.

(** [from('events').delete().eq('id', target)].  Both event columns
    of [swap_requests] are declared [ON DELETE CASCADE]. *)
Definition events_delete (uid : uuid) (target : uuid) (db : DB) : result DB :=
  if existsb (events_delete_target uid target) (events db) then
    Ok (mkDB (profiles db)
             (filter (fun e => negb (events_delete_target uid target e)) (events db))
             (filter (fun r => negb (SwapRequest.references target r)) (swap_requests db)))
  else Ok db.

(** [from('swap_requests').insert({...})] *)
Definition swap_requests_insert (uid : uuid) (a : ambient)
    (requester_id requester_event_id owner_id owner_event_id : uuid)
    (status : swap_status) (db : DB) : result DB :=
  let row := SwapRequest.mk (gen_random_uuid a) requester_id requester_event_id
                             owner_id owner_event_id status (now a) (now a) in
  if negb (Policy.swap_requests_insert uid row) then Err RlsViolation
  else if has_swap_request db (SwapRequest.id row) then Err UniqueViolation
  else if negb (has_profile db requester_id && has_event db requester_event_id
                && has_profile db owner_id && has_event db owner_event_id)
       then Err ForeignKeyViolation
  else Ok (with_swap_requests (swap_requests db ++ [row]) db).

Definition swap_requests_update_target (uid target : uuid) (r : SwapRequest.t) : bool :=
  (SwapRequest.id r =?u target) && Policy.swap_requests_update uid r.

(** [from('swap_requests').update({ status }).eq('id', target)].  The
    patch leaves [owner_id] alone, so the new row passes the policy
    whenever the old one did. *)
Definition swap_requests_update (uid : uuid) (a : ambient) (s : swap_status)
    (target : uuid) (db : DB) : result DB :=
  Ok (with_swap_requests
        (map (fun r => if swap_requests_update_target uid target r
                       then SwapRequest.handle_updated_at (now a)
                              (SwapRequest.with_status s r)
                       else r) (swap_requests db))
        db).

(** What [from('events').select(...)] can see. *)
Definition events_visible (uid : uuid) (db : DB) : list Event.t :=
  filter (Policy.events_select uid) (events db).

Definition find_event (i : uuid) (db : DB) : option Event.t :=
  find (fun e => Event.id e =?u i) (events db).

Definition find_swap_request (i : uuid) (db : DB) : option SwapRequest.t :=
  find (fun r => SwapRequest.id r =?u i) (swap_requests db).

Definition find_profile (i : uuid) (db : DB) : option Profile.t :=
  find (fun p => Profile.id p =?u i) (profiles db).
End Store.

(** ** What a handler is: statements in sequence, inside [try]/[catch] *)

(** A handler threads the store through its statements.  A statement
    that reports an error throws: the statements after it are not
    issued, and what the earlier ones wrote stays written. *)
Definition task (A : Type) : Type := DB -> DB * result A.

Definition ret {A : Type} (a : A) : task A := fun db => (db, Ok a).

Definition bind {A B : Type} (m : task A) (k : A -> task B) : task B :=
  fun db =>
    match m db with
    | (db', Ok a) => k a db'
    | (db', Err e) => (db', Err e)
    end.

Definition throw {A : Type} (e : error) : task A := fun db => (db, Err e).

Notation "m ;; k" := (bind m (fun _ => k))
  (at level 61, right associativity).

(** [const { error } = await supabase...; if (error) throw error;] *)
Definition await (a : ambient) (stmt : DB -> result DB) : task unit :=
  fun db =>
    if net_ok a then
      match stmt db with
      | Ok db' => (db', Ok tt)
      | Err e => (db, Err e)
      end
    else (db, Err FetchFailed).

(** [try { ... } catch (error) { ... }] *)
Definition try_catch {A : Type} (m : task A) (handler : error -> A) : DB -> DB * A :=
  fun db =>
    match m db with
    | (db', Ok a) => (db', a)
    | (db', Err e) => (db', handler e)
    end.

(** The notifications of [sonner].  [toast_error_message e fallback]
    is [toast.error(error.message || fallback)]. *)
Inductive toast :=
| toast_success (msg : string)
| toast_info (msg : string)
| toast_error (msg : string)
| toast_error_message (e : error) (fallback : string).

Definition is_error_toast (t : toast) : bool :=
  match t with
  | toast_error _ | toast_error_message _ _ => true
  | _ => false
  end.

(** ** Dashboard: the user's own events *)

Module Dashboard.

(** ECMAScript white space and line terminators, as [trim] strips them. *)
Definition is_white_space (c : N) : bool :=
  ((9 <=? c) && (c <=? 13) || (c =? 32) || (c =? 160) || (c =? 5760)
   || (8192 <=? c) && (c <=? 8202) || (c =? 8232) || (c =? 8233)
   || (c =? 8239) || (c =? 8287) || (c =? 12288) || (c =? 65279))%N.

Fixpoint trimStart (s : jsstring) : jsstring :=
  match s with
  | c :: s' => if is_white_space c then trimStart s' else s
  | [] => []
  end.

Definition trimEnd (s : jsstring) : jsstring := rev (trimStart (rev s)).

Definition trim (s : jsstring) : jsstring := trimEnd (trimStart s).

Record EventFormData := mkForm {
  title : jsstring;
  startTime : jsstring;
  endTime : jsstring
}.

Section WithDate.
(** [new Date(s)]: the time value of the date the runtime reads in
    [s], [None] for an invalid date. *)
Variable Date : jsstring -> option instant.

(** [new Date(a) > new Date(b)]: false as soon as one side is invalid. *)
Definition date_gt (a b : jsstring) : bool :=
  match Date a, Date b with
  | Some x, Some y => (y <? x)%Z
  | _, _ => false
  end.

(** [eventSchema]: the parsed data (title trimmed) when every check
    passes, [None] when the form is left with validation errors. *)
Definition eventSchema (data : EventFormData) : option EventFormData :=
  let t := trim (title data) in
  if (1 <=? List.length t) && (List.length t <=? 100)
     && (1 <=? List.length (startTime data))
     && (1 <=? List.length (endTime data))
     && date_gt (endTime data) (startTime data)
  then Some (mkForm t (startTime data) (endTime data))
  else None.

(** [new Date(s).toISOString()] *)
Definition toISOString (s : jsstring) : task instant :=
  match Date s with
  | Some t => ret t
  | None => throw InvalidTime
  end.

Definition onSubmit (uid : uuid) (a : ambient) (data : EventFormData)
  : DB -> DB * toast :=
  try_catch
    (bind (toISOString (startTime data)) (fun start_time =>
     bind (toISOString (endTime data)) (fun end_time =>
     await a (Store.events_insert uid a uid (title data) start_time end_time BUSY) ;;
     ret (toast_success "Event created successfully"))))
    (fun e => toast_error_message e "Failed to create event").

(** [form.handleSubmit(onSubmit)] behind the zod resolver: [onSubmit]
    runs on the parsed data, and only when the schema accepts. *)
Inductive submitted :=
| ValidationError
| Submitted (t : toast).

Definition handleSubmit (uid : uuid) (a : ambient) (data : EventFormData)
  : DB -> DB * submitted :=
  fun db =>
    match eventSchema data with
    | Some parsed =>
        let (db', t) := onSubmit uid a parsed db in (db', Submitted t)
    | None => (db, ValidationError)
    end.
End WithDate.

(** [newStatus.toLowerCase()] *)
Definition toLowerCase (s : event_status) : string :=
  match s with
  | BUSY => "busy"
  | SWAPPABLE => "swappable"
  | SWAP_PENDING => "swap_pending"
  end.

(** [event] is the row as the page last fetched it. *)
Definition toggleSwappable (uid : uuid) (a : ambient) (event : Event.t)
  : DB -> DB * toast :=
  if event_status_eqb (Event.status event) SWAP_PENDING then
    fun db => (db, toast_error "Cannot modify event during pending swap")
  else
    let newStatus :=
      if event_status_eqb (Event.status event) BUSY then SWAPPABLE else BUSY in
    try_catch
      (await a (Store.events_update uid a (Event.mk_patch None (Some newStatus))
                  (Event.id event)) ;;
       ret (toast_success (String.append "Event marked as " (toLowerCase newStatus))))
      (fun _ => toast_error "Failed to update event").

Definition deleteEvent (uid : uuid) (a : ambient) (eventId : uuid)
  : DB -> DB * toast :=
  try_catch
    (await a (Store.events_delete uid eventId) ;;
     ret (toast_success "Event deleted"))
    (fun _ => toast_error "Failed to delete event").

(** The two buttons of an event card, both
    [disabled={event.status === 'SWAP_PENDING'}]: a disabled button
    runs nothing. *)
Definition disabled (event : Event.t) : bool :=
  event_status_eqb (Event.status event) SWAP_PENDING.

Definition toggle_button (uid : uuid) (a : ambient) (event : Event.t)
  : DB -> DB * option toast :=
  fun db =>
    if disabled event then (db, None)
    else let (db', t) := toggleSwappable uid a event db in (db', Some t).

Definition delete_button (uid : uuid) (a : ambient) (event : Event.t)
  : DB -> DB * option toast :=
  fun db =>
    if disabled event then (db, None)
    else let (db', t) := deleteEvent uid a (Event.id event) db in (db', Some t).

End Dashboard.

(** ** Marketplace: other users' swappable slots, and the swap request *)

Module MarketplaceEvent.
(** A row of [events] with the embedded [profiles:user_id (name, email)]. *)
Record t := mk {
  id : uuid;
  title : jsstring;
  start_time : instant;
  end_time : instant;
  status : event_status;
  user_id : uuid;
  profiles : option (jsstring * jsstring)
}.
End MarketplaceEvent.

Module MyEvent.
(** [select('id, title, start_time, end_time')] *)
Record t := mk {
  id : uuid;
  title : jsstring;
  start_time : instant;
  end_time : instant
}.
End MyEvent.

Module Marketplace.

(** [.order('start_time', { ascending: true })] *)
Fixpoint insert_by_start_time (e : Event.t) (l : list Event.t) : list Event.t :=
  match l with
  | [] => [e]
  | x :: l' =>
      if (Event.start_time e <=? Event.start_time x)%Z then e :: l
      else x :: insert_by_start_time e l'
  end.

Fixpoint order_by_start_time (l : list Event.t) : list Event.t :=
  match l with
  | [] => []
  | e :: l' => insert_by_start_time e (order_by_start_time l')
  end.

Definition embed_profile (db : DB) (e : Event.t) : MarketplaceEvent.t :=
  MarketplaceEvent.mk (Event.id e) (Event.title e) (Event.start_time e)
    (Event.end_time e) (Event.status e) (Event.user_id e)
    (match Store.find_profile (Event.user_id e) db with
     | Some p => Some (Profile.name p, Profile.email p)
     | None => None
     end).

(** The rows [fetchAvailableSlots] asks for:
    [.eq('status', 'SWAPPABLE').neq('user_id', user.id)] over what the
    SELECT policies show, ordered. *)
Definition available_slots (uid : uuid) (db : DB) : list Event.t :=
  order_by_start_time
    (filter (fun e => event_status_eqb (Event.status e) SWAPPABLE
                      && negb (Event.user_id e =?u uid))
            (Store.events_visible uid db)).

(** [data] and [error] of the query; on an error the page shows a
    toast and keeps its list. *)
Definition fetchAvailableSlots (uid : uuid) (a : ambient) (db : DB)
  : result (list MarketplaceEvent.t) :=
  if net_ok a then Ok (map (embed_profile db) (available_slots uid db))
  else Err FetchFailed.

Definition my_swappable_slots (uid : uuid) (db : DB) : list Event.t :=
  order_by_start_time
    (filter (fun e => (Event.user_id e =?u uid)
                      && event_status_eqb (Event.status e) SWAPPABLE)
            (Store.events_visible uid db)).

Definition project (e : Event.t) : MyEvent.t :=
  MyEvent.mk (Event.id e) (Event.title e) (Event.start_time e) (Event.end_time e).

Definition fetchMySwappableSlots (uid : uuid) (a : ambient) (db : DB)
  : result (list MyEvent.t) :=
  if net_ok a then Ok (map project (my_swappable_slots uid db))
  else Err FetchFailed.

(** [openSwapDialog]: the slot becomes the selected one unless the
    user has nothing to offer. *)
Definition openSwapDialog (mySwappableSlots : list MyEvent.t)
    (slot : MarketplaceEvent.t) : option MarketplaceEvent.t * option toast :=
  match mySwappableSlots with
  | [] => (None, Some (toast_error "You need at least one swappable slot to request a swap"))
  | _ => (Some slot, None)
  end.

(** [requestSwap(myEventId)] with the page's [selectedSlot].  [w n] is
    what surrounds its [n]-th statement.  What follows the success
    toast (closing the dialog, re-fetching the lists) writes nothing
    to the store. *)
Definition requestSwap (uid : uuid) (w : nat -> ambient)
    (selectedSlot : option MarketplaceEvent.t) (myEventId : uuid)
  : DB -> DB * option toast :=
  match selectedSlot with
  | None => fun db => (db, None)
  | Some slot =>
      try_catch
        ((* Create swap request *)
         await (w 0)
           (Store.swap_requests_insert uid (w 0) uid myEventId
              (MarketplaceEvent.user_id slot) (MarketplaceEvent.id slot) PENDING) ;;
         (* Update both events to SWAP_PENDING *)
         await (w 1)
           (Store.events_update uid (w 1)
              (Event.mk_patch None (Some SWAP_PENDING)) myEventId) ;;
         await (w 2)
           (Store.events_update uid (w 2)
              (Event.mk_patch None (Some SWAP_PENDING)) (MarketplaceEvent.id slot)) ;;
         ret (Some (toast_success "Swap request sent!")))
        (fun e => Some (toast_error_message e "Failed to send swap request"))
  end.

End Marketplace.

(** ** Requests: answering an incoming request *)

Module Requests.

Module EventRef.
(** The embedded [requester_event] / [owner_event]. *)
Record t := mk {
  id : uuid;
  title : jsstring;
  start_time : instant;
  end_time : instant
}.
End EventRef.

Module SwapRequest.
(** The page's [SwapRequest]: a request row with its embedded
    events and profile names. *)
Record t := mk {
  id : uuid;
  status : swap_status;
  created_at : instant;
  requester_event : EventRef.t;
  owner_event : EventRef.t;
  requester : jsstring;
  owner : jsstring
}.
End SwapRequest.

Definition handleResponse (uid : uuid) (w : nat -> ambient)
    (request : SwapRequest.t) (accept : bool) : DB -> DB * toast :=
  try_catch
    (if accept then
       (* Accept the swap - exchange event ownership *)
       await (w 0)
         (Store.events_update uid (w 0)
            (Event.mk_patch
               (Some (EventRef.id (SwapRequest.requester_event request)))
               (Some BUSY))
            (EventRef.id (SwapRequest.owner_event request))) ;;
       await (w 1)
         (Store.events_update uid (w 1)
            (Event.mk_patch
               (Some (EventRef.id (SwapRequest.owner_event request)))
               (Some BUSY))
            (EventRef.id (SwapRequest.requester_event request))) ;;
       (* Update swap request status *)
       await (w 2)
         (Store.swap_requests_update uid (w 2) ACCEPTED (SwapRequest.id request)) ;;
       ret (toast_success "Swap accepted! Events have been exchanged.")
     else
       (* Reject the swap - set events back to SWAPPABLE *)
       await (w 0)
         (Store.events_update uid (w 0)
            (Event.mk_patch None (Some SWAPPABLE))
            (EventRef.id (SwapRequest.owner_event request))) ;;
       await (w 1)
         (Store.events_update uid (w 1)
            (Event.mk_patch None (Some SWAPPABLE))
            (EventRef.id (SwapRequest.requester_event request))) ;;
       (* Update swap request status *)
       await (w 2)
         (Store.swap_requests_update uid (w 2) REJECTED (SwapRequest.id request)) ;;
       ret (toast_info "Swap request rejected."))
    (fun e => toast_error_message e "Failed to process swap request").

(** The Accept / Reject buttons are rendered when
    [isIncoming && request.status === 'PENDING']. *)
Definition can_respond (isIncoming : bool) (request : SwapRequest.t) : bool :=
  isIncoming && swap_status_eqb (SwapRequest.status request) PENDING.

End Requests.

(** The page's view of a stored request (the fields the handler reads). *)
Definition views (request : Requests.SwapRequest.t) (r : SwapRequest.t) : Prop :=
  Requests.SwapRequest.id request = SwapRequest.id r
  /\ Requests.SwapRequest.status request = SwapRequest.status r
  /\ Requests.EventRef.id (Requests.SwapRequest.requester_event request)
     = SwapRequest.requester_event_id r
  /\ Requests.EventRef.id (Requests.SwapRequest.owner_event request)
     = SwapRequest.owner_event_id r.

(** ** Dashboard: loading the user's events *)

Module DashboardList.

(** The rows [fetchEvents] asks for: [.eq('user_id', user.id)] over
    what the SELECT policies show, ordered by start time. *)
Definition own_events (uid : uuid) (db : DB) : list Event.t :=
  Marketplace.order_by_start_time
    (filter (fun e => Event.user_id e =?u uid) (Store.events_visible uid db)).

(** [data] and [error] of the query; on an error the page shows
    'Failed to load events' and keeps its list. *)
Definition fetchEvents (uid : uuid) (a : ambient) (db : DB) : result (list Event.t) :=
  if net_ok a then Ok (own_events uid db) else Err FetchFailed.

(** What the page shows below its heading. *)
Inductive body :=
| Loading
| NoEventsYet
| Cards (events : list Event.t).

Definition render (loading : bool) (events : list Event.t) : body :=
  if loading then Loading
  else match events with
       | [] => NoEventsYet
       | _ => Cards events
       end.

End DashboardList.

(** ** Requests: loading the two lists, and showing a request *)

Module Fetched.
(** A row of [swap_requests] ([*]) with its four embedded resources.
    An embedded row the user's SELECT policies hide, or that does not
    exist, comes back as [null]. *)
Record t := mk {
  row : SwapRequest.t;
  requester_event : option Requests.EventRef.t;
  owner_event : option Requests.EventRef.t;
  requester : option jsstring;
  owner : option jsstring
}.
End Fetched.

Module RequestsList.

(** [.order('created_at', { ascending: false })] *)
Fixpoint insert_by_created_at (r : SwapRequest.t) (l : list SwapRequest.t)
  : list SwapRequest.t :=
  match l with
  | [] => [r]
  | x :: l' =>
      if (SwapRequest.created_at x <=? SwapRequest.created_at r)%Z then r :: l
      else x :: insert_by_created_at r l'
  end.

Fixpoint order_by_created_at (l : list SwapRequest.t) : list SwapRequest.t :=
  match l with
  | [] => []
  | r :: l' => insert_by_created_at r (order_by_created_at l')
  end.

(** [events!..._fkey (id, title, start_time, end_time)] *)
Definition embed_event (uid : uuid) (db : DB) (i : uuid) : option Requests.EventRef.t :=
  match find (fun e => Event.id e =?u i) (Store.events_visible uid db) with
  | Some e => Some (Requests.EventRef.mk (Event.id e) (Event.title e)
                      (Event.start_time e) (Event.end_time e))
  | None => None
  end.

(** [profiles!..._fkey (name)]; every profile is visible to everyone. *)
Definition embed_name (db : DB) (i : uuid) : option jsstring :=
  option_map Profile.name (Store.find_profile i db).

Definition embed (uid : uuid) (db : DB) (r : SwapRequest.t) : Fetched.t :=
  Fetched.mk r
    (embed_event uid db (SwapRequest.requester_event_id r))
    (embed_event uid db (SwapRequest.owner_event_id r))
    (embed_name db (SwapRequest.requester_id r))
    (embed_name db (SwapRequest.owner_id r)).

Definition swap_requests_visible (uid : uuid) (db : DB) : list SwapRequest.t :=
  filter (Policy.swap_requests_select uid) (swap_requests db).

(** Incoming requests (where user is the owner) *)
Definition incoming (uid : uuid) (db : DB) : list SwapRequest.t :=
  order_by_created_at
    (filter (fun r => SwapRequest.owner_id r =?u uid) (swap_requests_visible uid db)).

(** Outgoing requests (where user is the requester) *)
Definition outgoing (uid : uuid) (db : DB) : list SwapRequest.t :=
  order_by_created_at
    (filter (fun r => SwapRequest.requester_id r =?u uid) (swap_requests_visible uid db)).

(** [fetchRequests]: two queries; the page takes the new lists only
    when both came back, and shows 'Failed to load swap requests'
    otherwise.  [w n] surrounds the [n]-th query. *)
Definition fetchRequests (uid : uuid) (w : nat -> ambient) (db : DB)
  : result (list Fetched.t * list Fetched.t) :=
  if net_ok (w 0) then
    if net_ok (w 1) then
      Ok (map (embed uid db) (incoming uid db), map (embed uid db) (outgoing uid db))
    else Err FetchFailed
  else Err FetchFailed.

(** The number shown on a tab:
    [requests.filter(r => r.status === 'PENDING').length]. *)
Definition pending_count (requests : list Fetched.t) : nat :=
  List.length
    (filter (fun r => swap_status_eqb (SwapRequest.status (Fetched.row r)) PENDING)
       requests).

(** What [renderRequest] puts on a card. *)
Record card := mkCard {
  heading : jsstring;
  badge : swap_status;
  offered_title : jsstring;
  offered_start : instant;
  wanted_title : jsstring;
  wanted_start : instant;
  buttons : bool
}.

(** [renderRequest(request, isIncoming)].  It reads [.name], [.title]
    and [.start_time] of the embedded resources; reading a property of
    [null] throws, which is [None] here. *)
Definition renderRequest (request : Fetched.t) (isIncoming : bool) : option card :=
  match (if isIncoming then Fetched.requester request else Fetched.owner request),
        Fetched.requester_event request, Fetched.owner_event request with
  | Some name, Some offered, Some wanted =>
      Some (mkCard name (SwapRequest.status (Fetched.row request))
              (Requests.EventRef.title offered) (Requests.EventRef.start_time offered)
              (Requests.EventRef.title wanted) (Requests.EventRef.start_time wanted)
              (isIncoming
               && swap_status_eqb (SwapRequest.status (Fetched.row request)) PENDING))
  | _, _, _ => None
  end.

(** The request handed to [handleResponse] by the buttons of a card. *)
Definition as_request (request : Fetched.t) : option Requests.SwapRequest.t :=
  match Fetched.requester_event request, Fetched.owner_event request,
        Fetched.requester request, Fetched.owner request with
  | Some re, Some oe, Some rn, Some on =>
      Some (Requests.SwapRequest.mk (SwapRequest.id (Fetched.row request))
              (SwapRequest.status (Fetched.row request))
              (SwapRequest.created_at (Fetched.row request)) re oe rn on)
  | _, _, _, _ => None
  end.

End RequestsList.

(** ** Sign up: the form and the profile trigger *)

Module AuthUser.
(** The columns of a new [auth.users] row the trigger reads;
    [name] is [raw_user_meta_data->>'name']. *)
Record t := mk {
  id : uuid;
  email : jsstring;
  name : option jsstring
}.
End AuthUser.

Module Signup.

Definition jsstring_eqb (a b : jsstring) : bool :=
  if list_eq_dec N.eq_dec a b then true else false.

(** ['User'] *)
Definition User : jsstring := [85; 115; 101; 114]%N.

(** Trigger [on_auth_user_created]: [handle_new_user] inserts the
    profile of the new user.  It runs as its definer, past the policies
    of [profiles]; [id] is the primary key and [email] is [UNIQUE]. *)
Definition handle_new_user (a : ambient) (new : AuthUser.t) (db : DB) : result DB :=
  let row := Profile.mk (AuthUser.id new)
               (match AuthUser.name new with Some n => n | None => User end)
               (AuthUser.email new) (now a) in
  if Store.has_profile db (Profile.id row) then Err UniqueViolation
  else if existsb (fun p => jsstring_eqb (Profile.email p) (Profile.email row))
            (profiles db)
  then Err UniqueViolation
  else Ok (mkDB (profiles db ++ [row]) (events db) (swap_requests db)).

Record AuthFormData := mkForm {
  name : option jsstring;
  email : jsstring;
  password : jsstring
}.

Section WithEmail.
(** zod's test of an e-mail address. *)
Variable is_email : jsstring -> bool.

(** The [z.preprocess] in front of [name]: a blank string is taken as
    no value. *)
Definition preprocess_name (val : option jsstring) : option jsstring :=
  match val with
  | Some s => match Dashboard.trim s with
              | [] => None
              | _ => Some s
              end
  | None => None
  end.

(** [authSchema]: the parsed data, [None] when a check fails. *)
Definition authSchema (data : AuthFormData) : option AuthFormData :=
  let parsed_name :=
    match preprocess_name (name data) with
    | None => Some None
    | Some s =>
        let t := Dashboard.trim s in
        if (2 <=? List.length t) && (List.length t <=? 100) then Some (Some t)
        else None
    end in
  let e := Dashboard.trim (email data) in
  match parsed_name with
  | Some n =>
      if is_email e && (List.length e <=? 255)
         && (8 <=? List.length (password data))
         && (List.length (password data) <=? 100)
      then Some (mkForm n e (password data))
      else None
  | None => None
  end.
End WithEmail.

(** [data.name || 'User'], the name put in the new user's metadata. *)
Definition metadata_name (parsed : AuthFormData) : jsstring :=
  match name parsed with
  | Some (c :: s) => c :: s
  | _ => User
  end.

End Signup.

(** ** The coupling between event status and pending requests *)

(** The number of [PENDING] requests that name the event [eid] on
    either side. *)
Definition pending_on (eid : uuid) (r : SwapRequest.t) : bool :=
  swap_status_eqb (SwapRequest.status r) PENDING && SwapRequest.references eid r.

Definition pending_refs (db : DB) (eid : uuid) : nat :=
  List.length (filter (pending_on eid) (swap_requests db)).

(** An event is [SWAP_PENDING] exactly when one pending request names it. *)
Definition swap_pending_iff_one_request (db : DB) : Prop :=
  forall e, In e (events db) ->
    (Event.status e = SWAP_PENDING <-> pending_refs db (Event.id e) = 1).

(** No event is named by two pending requests. *)
Definition at_most_one_request (db : DB) : Prop :=
  forall e, In e (events db) -> pending_refs db (Event.id e) <= 1.

(** [id] is the primary key of [events]. *)
Definition events_pk (db : DB) : Prop := NoDup (map Event.id (events db)).

(** [id] is the primary key of [swap_requests]. *)
Definition swap_requests_pk (db : DB) : Prop :=
  NoDup (map SwapRequest.id (swap_requests db)).

(** A query result in the order [.order('start_time')] asks for. *)
Inductive ascending : list Event.t -> Prop :=
| ascending_nil : ascending []
| ascending_cons e l :
    (forall x, In x l -> (Event.start_time e <= Event.start_time x)%Z) ->
    ascending l -> ascending (e :: l).

(** ** The constraints the schema declares *)

(** [CONSTRAINT valid_time_range CHECK (end_time > start_time)] *)
Definition valid_time_range (db : DB) : Prop :=
  forall e, In e (events db) -> (Event.start_time e < Event.end_time e)%Z.

(** [id uuid PRIMARY KEY] and [email text NOT NULL UNIQUE] of [profiles]. *)
Definition profiles_pk (db : DB) : Prop := NoDup (map Profile.id (profiles db)).

Definition profiles_email_unique (db : DB) : Prop :=
  NoDup (map Profile.email (profiles db)).

(** [user_id uuid NOT NULL REFERENCES public.profiles(id)] *)
Definition events_fk (db : DB) : Prop :=
  forall e, In e (events db) -> Store.has_profile db (Event.user_id e) = true.

(** The four references of [swap_requests]. *)
Definition swap_requests_fk (db : DB) : Prop :=
  forall r, In r (swap_requests db) ->
    Store.has_profile db (SwapRequest.requester_id r) = true
    /\ Store.has_event db (SwapRequest.requester_event_id r) = true
    /\ Store.has_profile db (SwapRequest.owner_id r) = true
    /\ Store.has_event db (SwapRequest.owner_event_id r) = true.

Definition constraints (db : DB) : Prop :=
  profiles_pk db /\ profiles_email_unique db
  /\ events_pk db /\ valid_time_range db /\ events_fk db
  /\ swap_requests_pk db /\ swap_requests_fk db.

(** ** Relating the store before and after a handler *)

(** Whatever [m] returns, the store it leaves is [R]-related to the
    store it found. *)
Definition relates {A : Type} (R : DB -> DB -> Prop) (m : task A) : Prop :=
  forall db db' r, m db = (db', r) -> R db db'.

(** The same for a statement, when the store accepts it. *)
Definition stmt_relates (R : DB -> DB -> Prop) (stmt : DB -> result DB) : Prop :=
  forall db db', stmt db = Ok db' -> R db db'.

(** The events of the other profiles, in table order. *)
Definition others_events (uid : uuid) (db : DB) : list Event.t :=
  filter (fun e => negb (Event.user_id e =?u uid)) (events db).

(** What is entered when an event is created and is not its status,
    its owner or its update stamp. *)
Definition details (e : Event.t) : uuid * jsstring * instant * instant * instant :=
  (Event.id e, Event.title e, Event.start_time e, Event.end_time e,
   Event.created_at e).

(** What is entered when a request is created and is not its status
    or its update stamp. *)
Definition parties (r : SwapRequest.t) : uuid * uuid * uuid * uuid * uuid * instant :=
  (SwapRequest.id r, SwapRequest.requester_id r, SwapRequest.requester_event_id r,
   SwapRequest.owner_id r, SwapRequest.owner_event_id r, SwapRequest.created_at r).

(** The requests another profile is the owner of. *)
Definition others_requests (uid : uuid) (db : DB) : list SwapRequest.t :=
  filter (fun r => negb (SwapRequest.owner_id r =?u uid)) (swap_requests db).

(** A query result in the order [.order('created_at', { ascending: false })]
    asks for. *)
Inductive descending : list SwapRequest.t -> Prop :=
| descending_nil : descending []
| descending_cons r l :
    (forall x, In x l -> (SwapRequest.created_at x <= SwapRequest.created_at r)%Z) ->
    descending l -> descending (r :: l).

(** No white space at either end. *)
Definition trimmed (s : jsstring) : Prop :=
  (forall c s', s = c :: s' -> Dashboard.is_white_space c = false)
  /\ (forall c s', s = s' ++ [c] -> Dashboard.is_white_space c = false).

(** ** What the design expects of the operations *)

(** A swap request on a pair with an event that is not [SWAPPABLE] is
    turned down and writes nothing. *)
Definition create_refused_unless_swappable : Prop :=
  forall uid w slot myEventId db e,
    In e (events db) ->
    Event.id e = MarketplaceEvent.id slot \/ Event.id e = myEventId ->
    Event.status e <> SWAPPABLE ->
    exists t,
      Marketplace.requestSwap uid w (Some slot) myEventId db = (db, Some t)
      /\ is_error_toast t = true.

(** A swap request of a profile to itself is turned down and writes
    nothing. *)
Definition create_refused_on_self_swap : Prop :=
  forall uid w slot myEventId db,
    MarketplaceEvent.user_id slot = uid ->
    exists t,
      Marketplace.requestSwap uid w (Some slot) myEventId db = (db, Some t)
      /\ is_error_toast t = true.

(** A failed swap request has written nothing. *)
Definition create_all_or_nothing : Prop :=
  forall uid w slot myEventId db db' t,
    Marketplace.requestSwap uid w (Some slot) myEventId db = (db', Some t) ->
    is_error_toast t = true -> db' = db.

(** A failed answer to a request has written nothing. *)
Definition respond_all_or_nothing : Prop :=
  forall uid w request accept db db' t,
    Requests.handleResponse uid w request accept db = (db', t) ->
    is_error_toast t = true -> db' = db.

(** Deleting an event that is [SWAP_PENDING] is turned down and removes
    nothing. *)
Definition delete_refused_while_pending : Prop :=
  forall uid a ev db,
    In ev (events db) -> Event.status ev = SWAP_PENDING ->
    exists t,
      Dashboard.deleteEvent uid a (Event.id ev) db = (db, t)
      /\ is_error_toast t = true.

(** Marking an event the user owns whose stored status is
    [SWAP_PENDING] is turned down and writes nothing. *)
Definition toggle_refused_while_pending : Prop :=
  forall uid a ev db stored,
    In stored (events db) -> Event.id stored = Event.id ev ->
    Event.user_id stored = uid -> Event.status stored = SWAP_PENDING ->
    exists t,
      Dashboard.toggleSwappable uid a ev db = (db, t)
      /\ is_error_toast t = true.

(** Each operation keeps the coupling between [SWAP_PENDING] events and
    pending requests. *)
Definition create_keeps_coupling : Prop :=
  forall uid w slot myEventId db db' t,
    swap_pending_iff_one_request db ->
    Marketplace.requestSwap uid w (Some slot) myEventId db = (db', t) ->
    swap_pending_iff_one_request db'.

Definition respond_keeps_coupling : Prop :=
  forall uid w request accept db db' t,
    swap_pending_iff_one_request db ->
    Requests.handleResponse uid w request accept db = (db', t) ->
    swap_pending_iff_one_request db'.

Definition toggle_keeps_coupling : Prop :=
  forall uid a ev db db' t,
    swap_pending_iff_one_request db ->
    Dashboard.toggleSwappable uid a ev db = (db', t) ->
    swap_pending_iff_one_request db'.

Definition delete_keeps_coupling : Prop :=
  forall uid a eventId db db' t,
    swap_pending_iff_one_request db ->
    Dashboard.deleteEvent uid a eventId db = (db', t) ->
    swap_pending_iff_one_request db'.

(** ** Three statements without a transaction *)

(** The statement is not accepted: its request is lost, or the store
    answers with an error. *)
Definition refused (a : ambient) (stmt : DB -> result DB) (db : DB) : Prop :=
  net_ok a = false \/ exists e, stmt db = Err e.

(** The statement is accepted and turns [db] into [db']. *)
Definition accepted (a : ambient) (stmt : DB -> result DB) (db db' : DB) : Prop :=
  net_ok a = true /\ stmt db = Ok db'.

(** Where a handler of three statements can leave the store: after the
    statements accepted before the first refused one, with a failure
    reported, or after all three, with success. *)
Definition committed_stepwise (a0 a1 a2 : ambient) (s0 s1 s2 : DB -> result DB)
    (db db' : DB) (failed : bool) : Prop :=
  (refused a0 s0 db /\ db' = db /\ failed = true)
  \/ (exists db1,
        accepted a0 s0 db db1 /\ refused a1 s1 db1 /\ db' = db1 /\ failed = true)
  \/ (exists db1 db2,
        accepted a0 s0 db db1 /\ accepted a1 s1 db1 db2 /\ refused a2 s2 db2
        /\ db' = db2 /\ failed = true)
  \/ (exists db1 db2,
        accepted a0 s0 db db1 /\ accepted a1 s1 db1 db2 /\ accepted a2 s2 db2 db'
        /\ failed = false).

(** ** Sample data *)

Module Sample.
Local Open Scope string_scope.
Local Open Scope Z_scope.

Definition alice : Profile.t := Profile.mk "u1" [65%N] [97%N] 0.
Definition bob : Profile.t := Profile.mk "u2" [66%N] [98%N] 0.

Definition slot (i u : uuid) (s : event_status) : Event.t :=
  Event.mk i u [83%N] 1000 2000 s 10 10.

Definition request (s : swap_status) : SwapRequest.t :=
  SwapRequest.mk "r1" "u1" "e1" "u2" "e2" s 20 20.

(** The page's view of [request]. *)
Definition request_view (s : swap_status) : Requests.SwapRequest.t :=
  Requests.SwapRequest.mk "r1" s 20
    (Requests.EventRef.mk "e1" [83%N] 1000 2000)
    (Requests.EventRef.mk "e2" [83%N] 1000 2000)
    [65%N] [66%N].

(** Both offer a slot; nothing is requested yet. *)
Definition db_offered : DB :=
  mkDB [alice; bob] [slot "e1" "u1" SWAPPABLE; slot "e2" "u2" SWAPPABLE] [].

(** Alice has asked for Bob's slot and both slots are held. *)
Definition db_pending : DB :=
  mkDB [alice; bob] [slot "e1" "u1" SWAP_PENDING; slot "e2" "u2" SWAP_PENDING]
       [request PENDING].

(** The same, with a third slot of Alice's that is busy. *)
Definition db_three : DB :=
  mkDB [alice; bob]
       [slot "e1" "u1" SWAP_PENDING; slot "e2" "u2" SWAP_PENDING;
        slot "e3" "u1" BUSY]
       [request PENDING].

(** Bob has meanwhile marked his slot busy. *)
Definition db_withdrawn : DB :=
  mkDB [alice; bob] [slot "e1" "u1" SWAPPABLE; slot "e2" "u2" BUSY] [].

(** Bob's slot as Alice's marketplace page fetched it from [db_offered]. *)
Definition bobs_slot : MarketplaceEvent.t :=
  MarketplaceEvent.mk "e2" [83%N] 1000 2000 SWAPPABLE "u2" (Some ([66%N], [98%N])).

(** Every request reaches the store, at instant 30; the next
    generated id is ["r1"]. *)
Definition calm (n : nat) : ambient := mkAmbient true 30 "r1".

(** The request carrying the [n]-th statement is lost. *)
Definition lost (n : nat) (k : nat) : ambient :=
  mkAmbient (negb (Nat.eqb k n)) 30 "r1".

(** A stand-in for the runtime's date reading, enough to run the form
    on examples: a single code unit is read as that many milliseconds. *)
Definition Date (s : jsstring) : option instant :=
  match s with
  | [c] => Some (Z.of_N c)
  | _ => None
  end.

(** A whole session from a store with no event: Alice and Bob each
    create a slot and mark it swappable, then Alice, on a freshly
    fetched marketplace, asks for Bob's slot in exchange for hers. *)
Definition db_start : DB := mkDB [alice; bob] [] [].

Definition session : DB :=
  let form := Dashboard.mkForm [83%N] [5%N] [9%N] in
  let db1 := fst (Dashboard.handleSubmit Date "u1" (mkAmbient true 10 "e1") form db_start) in
  let db2 := fst (Dashboard.handleSubmit Date "u2" (mkAmbient true 10 "e2") form db1) in
  let db3 := match Store.find_event "e1" db2 with
             | Some e => fst (Dashboard.toggle_button "u1" (mkAmbient true 11 "") e db2)
             | None => db2
             end in
  let db4 := match Store.find_event "e2" db3 with
             | Some e => fst (Dashboard.toggle_button "u2" (mkAmbient true 12 "") e db3)
             | None => db3
             end in
  match Marketplace.fetchAvailableSlots "u1" (calm 0) db4 with
  | Ok (slot :: _) => fst (Marketplace.requestSwap "u1" calm (Some slot) "e1" db4)
  | _ => db4
  end.
End Sample.

(** * Properties *)

(** ** Basic facts *)

Lemma uuid_eqb_eq (a b : uuid) : (a =?u b) = true <-> a = b.
Proof. apply String.eqb_eq. Qed.

Lemma uuid_eqb_neq (a b : uuid) : (a =?u b) = false <-> a <> b.
Proof. apply String.eqb_neq. Qed.

Lemma uuid_eqb_refl (a : uuid) : (a =?u a) = true.
Proof. apply String.eqb_refl. Qed.

Lemma uuid_eqb_sym (a b : uuid) : (a =?u b) = (b =?u a).
Proof. apply String.eqb_sym. Qed.

Lemma event_status_eqb_eq (a b : event_status) :
  event_status_eqb a b = true <-> a = b.
Proof. destruct a, b; simpl; split; congruence. Qed.

Lemma swap_status_eqb_eq (a b : swap_status) :
  swap_status_eqb a b = true <-> a = b.
Proof. destruct a, b; simpl; split; congruence. Qed.

(** Whatever the UPDATE and DELETE policies let a user reach, the
    SELECT policies show. *)
Lemma events_update_visible uid e :
  Policy.events_update uid e = true -> Policy.events_select uid e = true.
Proof.
  unfold Policy.events_update, Policy.events_select, Policy.view_own_events.
  intros ->. reflexivity.
Qed.

Lemma swap_requests_update_visible uid r :
  Policy.swap_requests_update uid r = true -> Policy.swap_requests_select uid r = true.
Proof.
  unfold Policy.swap_requests_update, Policy.swap_requests_select.
  intros ->. apply orb_true_r.
Qed.

(** ** Ordering a query result keeps its rows *)

Lemma insert_by_start_time_perm e l :
  Permutation (Marketplace.insert_by_start_time e l) (e :: l).
Proof.
  induction l as [|x l IH]; simpl.
  - apply Permutation_refl.
  - destruct (Event.start_time e <=? Event.start_time x)%Z.
    + apply Permutation_refl.
    + eapply perm_trans; [apply perm_skip, IH | apply perm_swap].
Qed.

Lemma order_by_start_time_perm l :
  Permutation (Marketplace.order_by_start_time l) l.
Proof.
  induction l as [|e l IH]; simpl.
  - constructor.
  - eapply perm_trans; [apply insert_by_start_time_perm | now apply perm_skip].
Qed.

Lemma order_by_start_time_In e l :
  In e (Marketplace.order_by_start_time l) <-> In e l.
Proof.
  split; apply Permutation_in;
    [ | apply Permutation_sym ]; apply order_by_start_time_perm.
Qed.

Lemma insert_by_start_time_ascending e l :
  ascending l -> ascending (Marketplace.insert_by_start_time e l).
Proof.
  induction 1 as [|x l Hx Hl IH]; simpl.
  - constructor; [intros ? [] | constructor].
  - destruct (Event.start_time e <=? Event.start_time x)%Z eqn:E.
    + apply Z.leb_le in E. constructor.
      * intros y [<-|Hy]; [exact E|]. specialize (Hx y Hy). lia.
      * now constructor.
    + apply Z.leb_gt in E. constructor; [|exact IH].
      intros y Hy.
      apply (Permutation_in _ (insert_by_start_time_perm e l)) in Hy.
      destruct Hy as [<-|Hy]; [lia | now apply Hx].
Qed.

Lemma order_by_start_time_ascending l :
  ascending (Marketplace.order_by_start_time l).
Proof.
  induction l; simpl; [constructor | now apply insert_by_start_time_ascending].
Qed.

(** ** The marketplace query *)

Lemma available_slots_filter uid db :
  Permutation (Marketplace.available_slots uid db)
    (filter (fun e => event_status_eqb (Event.status e) SWAPPABLE
                      && negb (Event.user_id e =?u uid)) (events db)).
Proof.
  unfold Marketplace.available_slots, Store.events_visible.
  eapply perm_trans; [apply order_by_start_time_perm|].
  induction (events db) as [|e l IH]; simpl; [constructor|].
  unfold Policy.events_select, Policy.view_own_events,
    Policy.view_swappable_events_from_others.
  rewrite (uuid_eqb_sym uid (Event.user_id e)).
  destruct (event_status_eqb (Event.status e) SWAPPABLE) eqn:Es,
           (Event.user_id e =?u uid) eqn:Eu; simpl;
    rewrite ?Es, ?Eu; simpl; auto.
Qed.

Lemma available_slots_In uid db e :
  In e (Marketplace.available_slots uid db) <->
  In e (events db) /\ Event.status e = SWAPPABLE /\ Event.user_id e <> uid.
Proof.
  transitivity
    (In e (filter (fun e => event_status_eqb (Event.status e) SWAPPABLE
                            && negb (Event.user_id e =?u uid)) (events db))).
  - split; apply Permutation_in;
      [ | apply Permutation_sym ]; apply available_slots_filter.
  - rewrite filter_In, andb_true_iff, negb_true_iff,
      event_status_eqb_eq, uuid_eqb_neq.
    tauto.
Qed.

(** C9: for every profile and every store, the available-slots query of
    the marketplace returns exactly the events whose status is
    [SWAPPABLE] and whose owner is another profile, in ascending order
    of start time, each with its own id, title, times, status and
    owner and with the name and e-mail of the owner's profile; and the
    SELECT policies show a profile another profile's event exactly when
    it is [SWAPPABLE]. *)
Theorem available_slots_exact (uid : uuid) (a : ambient) (db : DB) :
  net_ok a = true ->
  exists rows,
    Marketplace.fetchAvailableSlots uid a db
      = Ok (map (Marketplace.embed_profile db) rows)
    /\ Marketplace.fetchAvailableSlots uid a db
       = Ok (map (fun e =>
                    MarketplaceEvent.mk (Event.id e) (Event.title e)
                      (Event.start_time e) (Event.end_time e) (Event.status e)
                      (Event.user_id e)
                      (option_map (fun p => (Profile.name p, Profile.email p))
                         (find (fun p => Profile.id p =?u Event.user_id e)
                            (profiles db))))
               rows)
    /\ Permutation rows
         (filter (fun e => event_status_eqb (Event.status e) SWAPPABLE
                           && negb (Event.user_id e =?u uid)) (events db))
    /\ ascending rows
    /\ (forall e, In e rows <->
          In e (events db) /\ Event.status e = SWAPPABLE /\ Event.user_id e <> uid)
    /\ (forall e, Event.user_id e <> uid ->
          (In e (Store.events_visible uid db) <->
           In e (events db) /\ Event.status e = SWAPPABLE))
    /\ (forall e,
          match MarketplaceEvent.profiles (Marketplace.embed_profile db e) with
          | Some (n, m) =>
              exists p, In p (profiles db) /\ Profile.id p = Event.user_id e
                        /\ Profile.name p = n /\ Profile.email p = m
          | None => forall p, In p (profiles db) -> Profile.id p <> Event.user_id e
          end).
Proof.
  intros Hnet. exists (Marketplace.available_slots uid db).
  split; [unfold Marketplace.fetchAvailableSlots; now rewrite Hnet|].
  split.
  { unfold Marketplace.fetchAvailableSlots. rewrite Hnet.
    apply f_equal, map_ext. intros e.
    unfold Marketplace.embed_profile, Store.find_profile.
    now destruct (find _ (profiles db)). }
  split; [apply available_slots_filter|].
  split; [apply order_by_start_time_ascending|].
  split; [intro e; apply available_slots_In|].
  split.
  { intros e Hne. unfold Store.events_visible.
    rewrite filter_In.
    unfold Policy.events_select, Policy.view_own_events,
      Policy.view_swappable_events_from_others.
    apply not_eq_sym in Hne. apply uuid_eqb_neq in Hne. rewrite Hne. simpl.
    rewrite andb_true_r, event_status_eqb_eq. tauto. }
  intros e. unfold Marketplace.embed_profile, Store.find_profile. simpl.
  destruct (find _ (profiles db)) as [p|] eqn:F; simpl.
  - apply find_some in F. destruct F as [Hp Hid]. apply uuid_eqb_eq in Hid.
    exists p. auto.
  - intros p Hp Hid. eapply find_none in F; [|exact Hp].
    simpl in F. apply uuid_eqb_neq in F. contradiction.
Qed.

(** Alice's marketplace holds Bob's slot, as stored and under Bob's
    name, and not her own. *)
Lemma available_slots_exact_witness :
  net_ok (Sample.calm 0) = true
  /\ Marketplace.fetchAvailableSlots "u1" (Sample.calm 0) Sample.db_offered
     = Ok [MarketplaceEvent.mk "e2" [83%N] 1000 2000 SWAPPABLE "u2"
             (Some ([66%N], [98%N]))]
  /\ exists rows,
       Marketplace.fetchAvailableSlots "u1" (Sample.calm 0) Sample.db_offered
         = Ok (map (Marketplace.embed_profile Sample.db_offered) rows)
       /\ In (Sample.slot "e2" "u2" SWAPPABLE) rows
       /\ ~ In (Sample.slot "e1" "u1" SWAPPABLE) rows.
Proof.
  split; [reflexivity|].
  destruct (available_slots_exact "u1" (Sample.calm 0) Sample.db_offered eq_refl)
    as (rows & Hfetch & Hrec & Hperm & _ & Hin & _).
  split.
  - rewrite Hrec. f_equal.
    assert (Hrows : rows = [Sample.slot "e2" "u2" SWAPPABLE]).
    { vm_compute in Hperm. now apply Permutation_length_1_inv, Permutation_sym. }
    rewrite Hrows. reflexivity.
  - exists rows. split; [exact Hfetch|]. split.
    + apply Hin. split; [simpl; auto|]. split; [reflexivity|discriminate].
    + intros H. apply Hin in H. destruct H as (_ & _ & H). now apply H.
Defined.

(** ** Creating an event *)

Ltac run_handler :=
  unfold try_catch, bind, await, ret, throw in *.

Lemma onSubmit_outcome Date uid a data db db' t :
  Dashboard.onSubmit Date uid a data db = (db', t) ->
  (t = toast_success "Event created successfully"
   /\ exists start_time end_time,
        Date (Dashboard.startTime data) = Some start_time
        /\ Date (Dashboard.endTime data) = Some end_time
        /\ db' = with_events
                   (events db ++
                    [Event.mk (gen_random_uuid a) uid (Dashboard.title data)
                       start_time end_time BUSY (now a) (now a)]) db)
  \/ (is_error_toast t = true /\ db' = db).
Proof.
  unfold Dashboard.onSubmit, Dashboard.toISOString. run_handler.
  destruct (Date (Dashboard.startTime data)) as [s|];
    [|intros [= <- <-]; right; split; reflexivity].
  destruct (Date (Dashboard.endTime data)) as [e|];
    [|intros [= <- <-]; right; split; reflexivity].
  destruct (net_ok a); [|intros [= <- <-]; right; split; reflexivity].
  unfold Store.events_insert.
  repeat match goal with
         | |- context [if ?c then _ else _] => destruct c
         end;
    intros [= <- <-];
    try (right; split; reflexivity).
  left. split; [reflexivity|]. exists s, e. auto.
Qed.

(** C10: every event created through the form is stored with status
    [BUSY]: a submission either appends exactly one row, owned by the
    user and [BUSY], and reports success, or stores nothing. *)
Theorem created_event_is_busy
    (Date : jsstring -> option instant) (uid : uuid) (a : ambient)
    (data : Dashboard.EventFormData) (db db' : DB) (out : Dashboard.submitted) :
  Dashboard.handleSubmit Date uid a data db = (db', out) ->
  (out = Dashboard.Submitted (toast_success "Event created successfully")
   /\ exists row,
        events db' = events db ++ [row]
        /\ Event.status row = BUSY
        /\ Event.user_id row = uid
        /\ Event.id row = gen_random_uuid a
        /\ Event.title row = Dashboard.trim (Dashboard.title data)
        /\ swap_requests db' = swap_requests db
        /\ profiles db' = profiles db)
  \/ (out <> Dashboard.Submitted (toast_success "Event created successfully")
      /\ db' = db).
Proof.
  unfold Dashboard.handleSubmit.
  destruct (Dashboard.eventSchema Date data) as [parsed|] eqn:Es;
    [|intros [= <- <-]; right; split; [discriminate|reflexivity]].
  destruct (Dashboard.onSubmit Date uid a parsed db) as [d t] eqn:Eo.
  intros [= <- <-].
  apply onSubmit_outcome in Eo.
  destruct Eo as [(-> & s & e & _ & _ & ->)|(Ht & ->)].
  - left. split; [reflexivity|]. eexists. split; [reflexivity|].
    simpl. repeat split.
    unfold Dashboard.eventSchema in Es.
    destruct (_ && _) in Es; [|discriminate].
    now injection Es as <-.
  - right. split; [|reflexivity]. intros [= ->]. discriminate.
Qed.

Lemma created_event_is_busy_witness :
  exists db' row,
    Dashboard.handleSubmit Sample.Date "u1" (mkAmbient true 30 "e3")
      (Dashboard.mkForm [32; 72; 105; 32]%N [5%N] [9%N]) Sample.db_offered
    = (db', Dashboard.Submitted (toast_success "Event created successfully"))
    /\ events db' = events Sample.db_offered ++ [row]
    /\ Event.status row = BUSY
    /\ Event.title row = [72; 105]%N.
Proof.
  eexists. 
  destruct (created_event_is_busy Sample.Date "u1" (mkAmbient true 30 "e3")
              (Dashboard.mkForm [32; 72; 105; 32]%N [5%N] [9%N])
              Sample.db_offered _ _ eq_refl)
    as [(_ & row & Hev & Hst & _ & _ & Ht & _)|(Hne & _)].
  - exists row. split; [reflexivity|]. split; [exact Hev|]. split; [exact Hst|].
    exact Ht.
  - exfalso. apply Hne. reflexivity.
Defined.

Lemma eventSchema_Some Date data parsed :
  Dashboard.eventSchema Date data = Some parsed ->
  (1 <= List.length (Dashboard.trim (Dashboard.title data)) <= 100)
  /\ exists s e,
       Date (Dashboard.startTime data) = Some s
       /\ Date (Dashboard.endTime data) = Some e
       /\ (s < e)%Z.
Proof.
  unfold Dashboard.eventSchema, Dashboard.date_gt.
  destruct (_ && _) eqn:E; [intros _|discriminate].
  rewrite !andb_true_iff, !Nat.leb_le in E.
  destruct E as ((((H1 & H100) & _) & _) & Hd).
  split; [lia|].
  destruct (Date (Dashboard.endTime data)) as [e|]; [|discriminate].
  destruct (Date (Dashboard.startTime data)) as [s|]; [|discriminate].
  exists s, e. apply Z.ltb_lt in Hd. auto.
Qed.

(** C8: a submission of the event form gets past validation only if the
    trimmed title has between 1 and 100 characters and the end time is
    strictly after the start time; an input that breaks either rule is
    turned down with a validation error and no event is created. *)
Theorem event_form_validation
    (Date : jsstring -> option instant) (uid : uuid) (a : ambient)
    (data : Dashboard.EventFormData) (db : DB) :
  (forall db' out,
      Dashboard.handleSubmit Date uid a data db = (db', out) ->
      out <> Dashboard.ValidationError \/ db' <> db ->
      (1 <= List.length (Dashboard.trim (Dashboard.title data)) <= 100)
      /\ exists s e,
           Date (Dashboard.startTime data) = Some s
           /\ Date (Dashboard.endTime data) = Some e
           /\ (s < e)%Z)
  /\ (~ ((1 <= List.length (Dashboard.trim (Dashboard.title data)) <= 100)
         /\ exists s e,
              Date (Dashboard.startTime data) = Some s
              /\ Date (Dashboard.endTime data) = Some e
              /\ (s < e)%Z) ->
      Dashboard.handleSubmit Date uid a data db = (db, Dashboard.ValidationError)).
Proof.
  split.
  - intros db' out. unfold Dashboard.handleSubmit.
    destruct (Dashboard.eventSchema Date data) as [parsed|] eqn:Es.
    + intros _ _. eapply eventSchema_Some; eassumption.
    + intros [= <- <-] [H|H]; now elim H.
  - intros Hbad. unfold Dashboard.handleSubmit.
    destruct (Dashboard.eventSchema Date data) as [parsed|] eqn:Es; [|reflexivity].
    elim Hbad. eapply eventSchema_Some; eassumption.
Qed.

(** A title of spaces only, and an end time before the start time, are
    both turned down; a proper input goes through. *)
Lemma event_form_validation_witness :
  Dashboard.handleSubmit Sample.Date "u1" (mkAmbient true 30 "e3")
    (Dashboard.mkForm [32; 32]%N [5%N] [9%N]) Sample.db_offered
  = (Sample.db_offered, Dashboard.ValidationError)
  /\ Dashboard.handleSubmit Sample.Date "u1" (mkAmbient true 30 "e3")
       (Dashboard.mkForm [72]%N [9%N] [5%N]) Sample.db_offered
     = (Sample.db_offered, Dashboard.ValidationError)
  /\ ((1 <= List.length (Dashboard.trim [72]%N) <= 100)
      /\ exists s e, Sample.Date [5%N] = Some s /\ Sample.Date [9%N] = Some e
                     /\ (s < e)%Z).
Proof.
  split; [|split].
  - apply (event_form_validation Sample.Date "u1" (mkAmbient true 30 "e3")
             (Dashboard.mkForm [32; 32]%N [5%N] [9%N]) Sample.db_offered).
    intros [H _]. vm_compute in H. lia.
  - apply (event_form_validation Sample.Date "u1" (mkAmbient true 30 "e3")
             (Dashboard.mkForm [72]%N [9%N] [5%N]) Sample.db_offered).
    intros (_ & s & e & Hs & He & Hlt). vm_compute in Hs, He.
    injection Hs as <-. injection He as <-. lia.
  - eapply (proj1 (event_form_validation Sample.Date "u1" (mkAmbient true 30 "e3")
             (Dashboard.mkForm [72]%N [5%N] [9%N]) Sample.db_offered)).
    + reflexivity.
    + left. discriminate.
Defined.

(** ** Updating events by id *)

Lemma find_map_same_key {A : Type} (key : A -> uuid) (g : A -> A) (i : uuid) (l : list A) :
  (forall x, key (g x) = key x) ->
  find (fun x => key x =?u i) (map g l) = option_map g (find (fun x => key x =?u i) l).
Proof.
  intros Hkey. induction l as [|x l IH]; simpl; [reflexivity|].
  rewrite Hkey. destruct (key x =?u i); [reflexivity|exact IH].
Qed.

Lemma find_key_In {A : Type} (key : A -> uuid) (x : A) (l : list A) :
  NoDup (map key l) -> In x l ->
  find (fun y => key y =?u key x) l = Some x.
Proof.
  induction l as [|y l IH]; simpl; [intros _ []|].
  intros Hnd [->|Hin].
  - now rewrite uuid_eqb_refl.
  - inversion Hnd as [|? ? Hy Hl]; subst.
    destruct (key y =?u key x) eqn:E; [|now apply IH].
    apply uuid_eqb_eq in E. elim Hy. rewrite E. now apply in_map.
Qed.

Lemma find_key_Some {A : Type} (key : A -> uuid) (i : uuid) (x : A) (l : list A) :
  find (fun y => key y =?u i) l = Some x -> In x l /\ key x = i.
Proof.
  intros H. apply find_some in H. now rewrite uuid_eqb_eq in H.
Qed.

Lemma find_event_In db ev :
  events_pk db -> In ev (events db) -> Store.find_event (Event.id ev) db = Some ev.
Proof. apply (find_key_In Event.id). Qed.

Lemma find_swap_request_In db r :
  swap_requests_pk db -> In r (swap_requests db) ->
  Store.find_swap_request (SwapRequest.id r) db = Some r.
Proof. apply (find_key_In SwapRequest.id). Qed.

(** The rewriting an [update] of [events] performs on the table. *)
Lemma events_update_row_id a p e :
  Event.id (Store.events_update_row a p e) = Event.id e.
Proof. reflexivity. Qed.

(** An update that only sets [status] is never refused: it rewrites the
    rows it reaches and leaves the others. *)
Lemma events_update_status uid a s target db :
  Store.events_update uid a (Event.mk_patch None (Some s)) target db
  = Ok (with_events
          (map (fun e => if Store.events_update_target uid target e
                         then Store.events_update_row a (Event.mk_patch None (Some s)) e
                         else e) (events db)) db).
Proof.
  unfold Store.events_update.
  replace (forallb _ _) with true; [reflexivity|].
  symmetry. apply forallb_forall. intros x Hx.
  apply in_map_iff in Hx. destruct Hx as (e & <- & He).
  apply filter_In in He. destruct He as [_ He].
  unfold Store.events_update_target in He. apply andb_true_iff in He.
  exact (proj2 He).
Qed.

Lemma find_event_after_update uid a p target db i :
  Store.find_event i
    (with_events
       (map (fun e => if Store.events_update_target uid target e
                      then Store.events_update_row a p e else e) (events db)) db)
  = option_map (fun e => if Store.events_update_target uid target e
                         then Store.events_update_row a p e else e)
      (Store.find_event i db).
Proof.
  unfold Store.find_event. simpl.
  apply (find_map_same_key Event.id).
  intros e. now destruct (Store.events_update_target uid target e).
Qed.

Lemma find_event_after_update_other uid a p target db i :
  i <> target ->
  Store.find_event i
    (with_events
       (map (fun e => if Store.events_update_target uid target e
                      then Store.events_update_row a p e else e) (events db)) db)
  = Store.find_event i db.
Proof.
  intros Hne. rewrite find_event_after_update.
  destruct (Store.find_event i db) as [e|] eqn:E; [|reflexivity].
  apply (find_key_Some Event.id) in E. destruct E as [_ E]. simpl.
  unfold Store.events_update_target.
  replace (Event.id e =?u target) with false; [reflexivity|].
  symmetry. apply uuid_eqb_neq. congruence.
Qed.

(** ** Marking an event swappable or busy *)

Lemma toggleSwappable_writes uid a ev db :
  Event.status ev <> SWAP_PENDING -> net_ok a = true ->
  Dashboard.toggleSwappable uid a ev db
  = (with_events
       (map (fun e => if Store.events_update_target uid (Event.id ev) e
                      then Store.events_update_row a
                             (Event.mk_patch None
                                (Some (if event_status_eqb (Event.status ev) BUSY
                                       then SWAPPABLE else BUSY))) e
                      else e) (events db)) db,
     toast_success
       (String.append "Event marked as "
          (Dashboard.toLowerCase
             (if event_status_eqb (Event.status ev) BUSY then SWAPPABLE else BUSY)))).
Proof.
  intros Hst Hnet. unfold Dashboard.toggleSwappable.
  destruct (event_status_eqb (Event.status ev) SWAP_PENDING) eqn:E.
  - apply event_status_eqb_eq in E. contradiction.
  - run_handler. rewrite Hnet, events_update_status. reflexivity.
Qed.

(** C6, as the code has it: [toggleSwappable] goes by the status of the
    row the page holds, not by the stored one.  For an event the acting
    user owns: when the page's row is [BUSY] the stored event is set to
    [SWAPPABLE], when it is [SWAPPABLE] the stored event is set to
    [BUSY], whatever the stored status was, and no other row is
    written; when the page's row is [SWAP_PENDING] an error is reported,
    the button is disabled and nothing is written.  On an up-to-date
    row ([stored] is the page's row) this is the transition [BUSY] to
    [SWAPPABLE], [SWAPPABLE] to [BUSY], and the refusal on
    [SWAP_PENDING]. *)
Theorem toggle_swappable_from_page_row
    (uid : uuid) (a : ambient) (ev stored : Event.t) (db : DB) :
  events_pk db -> In stored (events db) ->
  Event.id stored = Event.id ev -> Event.user_id stored = uid ->
  (Event.status ev = BUSY -> net_ok a = true ->
   exists db',
     Dashboard.toggleSwappable uid a ev db
       = (db', toast_success "Event marked as swappable")
     /\ Store.find_event (Event.id ev) db'
        = Some (Event.mk (Event.id stored) (Event.user_id stored) (Event.title stored)
                  (Event.start_time stored) (Event.end_time stored) SWAPPABLE
                  (Event.created_at stored) (now a))
     /\ (forall i, i <> Event.id ev -> Store.find_event i db' = Store.find_event i db)
     /\ swap_requests db' = swap_requests db
     /\ profiles db' = profiles db)
  /\ (Event.status ev = SWAPPABLE -> net_ok a = true ->
      exists db',
        Dashboard.toggleSwappable uid a ev db
          = (db', toast_success "Event marked as busy")
        /\ Store.find_event (Event.id ev) db'
           = Some (Event.mk (Event.id stored) (Event.user_id stored)
                     (Event.title stored) (Event.start_time stored)
                     (Event.end_time stored) BUSY
                     (Event.created_at stored) (now a))
        /\ (forall i, i <> Event.id ev -> Store.find_event i db' = Store.find_event i db)
        /\ swap_requests db' = swap_requests db
        /\ profiles db' = profiles db)
  /\ (Event.status ev = SWAP_PENDING ->
      Dashboard.toggleSwappable uid a ev db
        = (db, toast_error "Cannot modify event during pending swap")
      /\ Dashboard.toggle_button uid a ev db = (db, None)).
Proof.
  intros Hpk Hin Hid Hown.
  assert (Hhit : Store.events_update_target uid (Event.id ev) stored = true).
  { unfold Store.events_update_target, Policy.events_update.
    rewrite Hid, Hown, !uuid_eqb_refl. reflexivity. }
  assert (Hfind : Store.find_event (Event.id ev) db = Some stored).
  { rewrite <- Hid. now apply find_event_In. }
  split; [|split].
  - intros Hst Hnet. eexists. split.
    + rewrite toggleSwappable_writes by (auto; congruence).
      rewrite Hst. reflexivity.
    + split; [|split; [|split; reflexivity]].
      * rewrite find_event_after_update, Hfind.
        simpl. rewrite Hhit. reflexivity.
      * intros i Hi. now apply find_event_after_update_other.
  - intros Hst Hnet. eexists. split.
    + rewrite toggleSwappable_writes by (auto; congruence).
      rewrite Hst. reflexivity.
    + split; [|split; [|split; reflexivity]].
      * rewrite find_event_after_update, Hfind.
        simpl. rewrite Hhit. reflexivity.
      * intros i Hi. now apply find_event_after_update_other.
  - intros Hst. unfold Dashboard.toggle_button, Dashboard.disabled,
      Dashboard.toggleSwappable.
    rewrite Hst. split; reflexivity.
Qed.

Ltac distinct_keys :=
  repeat (constructor; [simpl; intuition discriminate|]); constructor.

(** Bob marks his busy slot swappable from an up-to-date row; Alice
    marks her slot busy from a row fetched before her request held it. *)
Lemma toggle_swappable_from_page_row_witness :
  (exists db',
     Dashboard.toggleSwappable "u2" (Sample.calm 0)
       (Sample.slot "e2" "u2" BUSY) Sample.db_withdrawn
     = (db', toast_success "Event marked as swappable")
     /\ Store.find_event "e2" db'
        = Some (Event.mk "e2" "u2" [83%N] 1000 2000 SWAPPABLE 10 30)
     /\ Store.find_event "e1" db' = Some (Sample.slot "e1" "u1" SWAPPABLE))
  /\ (exists db',
        Dashboard.toggleSwappable "u1" (Sample.calm 0)
          (Sample.slot "e1" "u1" SWAPPABLE) Sample.db_pending
        = (db', toast_success "Event marked as busy")
        /\ Store.find_event "e1" Sample.db_pending
           = Some (Sample.slot "e1" "u1" SWAP_PENDING)
        /\ Store.find_event "e1" db'
           = Some (Event.mk "e1" "u1" [83%N] 1000 2000 BUSY 10 30)).
Proof.
  split.
  - assert (Hpk : events_pk Sample.db_withdrawn)
      by (unfold events_pk; simpl; distinct_keys).
    assert (Hin : In (Sample.slot "e2" "u2" BUSY) (events Sample.db_withdrawn))
      by (simpl; auto).
    destruct (toggle_swappable_from_page_row "u2" (Sample.calm 0)
                (Sample.slot "e2" "u2" BUSY) (Sample.slot "e2" "u2" BUSY)
                Sample.db_withdrawn Hpk Hin eq_refl eq_refl)
      as (Hbusy & _ & _).
    destruct (Hbusy eq_refl eq_refl) as (db' & Hrun & Hrow & Hothers & _).
    exists db'. split; [exact Hrun|]. split; [exact Hrow|].
    rewrite (Hothers "e1"%string) by discriminate. reflexivity.
  - assert (Hpk : events_pk Sample.db_pending)
      by (unfold events_pk; simpl; distinct_keys).
    assert (Hin : In (Sample.slot "e1" "u1" SWAP_PENDING) (events Sample.db_pending))
      by (simpl; auto).
    destruct (toggle_swappable_from_page_row "u1" (Sample.calm 0)
                (Sample.slot "e1" "u1" SWAPPABLE) (Sample.slot "e1" "u1" SWAP_PENDING)
                Sample.db_pending Hpk Hin eq_refl eq_refl)
      as (_ & Hswappable & _).
    destruct (Hswappable eq_refl eq_refl) as (db' & Hrun & Hrow & _).
    exists db'. split; [exact Hrun|]. split; [reflexivity|exact Hrow].
Defined.

(** C6, as stated, fails: on a row fetched while the event was
    [SWAPPABLE], [toggleSwappable] marks busy an event the user owns
    whose stored status is [SWAP_PENDING], and reports success. *)
Lemma toggle_not_refused_while_pending : ~ toggle_refused_while_pending.
Proof.
  intros H.
  destruct (H "u1"%string (Sample.calm 0) (Sample.slot "e1" "u1" SWAPPABLE)
              Sample.db_pending (Sample.slot "e1" "u1" SWAP_PENDING))
    as (t & Hrun & Ht); try reflexivity.
  - simpl; auto.
  - vm_compute in Hrun. discriminate.
Qed.

(** ** Accepting a request *)

(** An update that hands a row the user owns to somebody else is
    refused by the UPDATE policy. *)
Lemma events_update_gives_away uid a u s target db ev :
  In ev (events db) -> Event.id ev = target -> Event.user_id ev = uid ->
  u <> uid ->
  Store.events_update uid a (Event.mk_patch (Some u) s) target db = Err RlsViolation.
Proof.
  intros Hin Hid Hown Hu. unfold Store.events_update.
  destruct (forallb _ _) eqn:E; [|reflexivity].
  exfalso. rewrite forallb_forall in E.
  specialize (E (Store.events_update_row a (Event.mk_patch (Some u) s) ev)).
  unfold Policy.events_update in E. simpl in E.
  apply Hu. symmetry. apply uuid_eqb_eq. apply E.
  apply in_map, filter_In. split; [exact Hin|].
  unfold Store.events_update_target, Policy.events_update.
  rewrite Hid, Hown, !uuid_eqb_refl. reflexivity.
Qed.

(** C1 (the code departs from it): when the owner of a request accepts
    it, [handleResponse] asks the store to write the id of the
    requester's event into [user_id] of the owner's event.  Unless that
    event id happens to be the accepting user's own id the statement is
    refused, the handler stops there, and nothing is exchanged: the
    store is left as it was and an error is shown. *)
Theorem accept_leaves_store_unchanged
    (uid : uuid) (w : nat -> ambient) (request : Requests.SwapRequest.t)
    (db : DB) (ev : Event.t) :
  In ev (events db) ->
  Event.id ev = Requests.EventRef.id (Requests.SwapRequest.owner_event request) ->
  Event.user_id ev = uid ->
  Requests.EventRef.id (Requests.SwapRequest.requester_event request) <> uid ->
  Requests.handleResponse uid w request true db
  = (db, toast_error_message
           (if net_ok (w 0) then RlsViolation else FetchFailed)
           "Failed to process swap request").
Proof.
  intros Hin Hid Hown Hne. unfold Requests.handleResponse. run_handler.
  destruct (net_ok (w 0)); [|reflexivity].
  rewrite (events_update_gives_away uid (w 0) _ _ _ db ev Hin Hid Hown Hne).
  reflexivity.
Qed.

(** Bob accepts Alice's pending request: both slots stay held under
    their owners and the request stays pending. *)
Lemma accept_leaves_store_unchanged_witness :
  Requests.handleResponse "u2" Sample.calm (Sample.request_view PENDING) true
    Sample.db_pending
  = (Sample.db_pending,
     toast_error_message RlsViolation "Failed to process swap request")
  /\ Store.find_event "e2" Sample.db_pending = Some (Sample.slot "e2" "u2" SWAP_PENDING)
  /\ Store.find_event "e1" Sample.db_pending = Some (Sample.slot "e1" "u1" SWAP_PENDING)
  /\ Store.find_swap_request "r1" Sample.db_pending = Some (Sample.request PENDING).
Proof.
  split; [|repeat split].
  apply (accept_leaves_store_unchanged "u2" Sample.calm (Sample.request_view PENDING)
           Sample.db_pending (Sample.slot "e2" "u2" SWAP_PENDING)).
  - simpl; auto.
  - reflexivity.
  - reflexivity.
  - discriminate.
Defined.

(** ** Rejecting a request *)

Lemma same_key_same_row {A : Type} (key : A -> uuid) (x y : A) (l : list A) :
  NoDup (map key l) -> In x l -> In y l -> key x = key y -> x = y.
Proof.
  intros Hnd Hx Hy Hk.
  pose proof (find_key_In key x l Hnd Hx) as Fx.
  pose proof (find_key_In key y l Hnd Hy) as Fy.
  rewrite Hk in Fx. congruence.
Qed.

Lemma events_update_target_foreign uid target e :
  Event.user_id e <> uid -> Store.events_update_target uid target e = false.
Proof.
  intros H. unfold Store.events_update_target, Policy.events_update.
  apply not_eq_sym, uuid_eqb_neq in H. rewrite H. apply andb_false_r.
Qed.

Lemma events_update_target_other uid target e :
  Event.id e <> target -> Store.events_update_target uid target e = false.
Proof.
  intros H. unfold Store.events_update_target.
  apply uuid_eqb_neq in H. now rewrite H.
Qed.

Lemma events_update_target_own uid e :
  Event.user_id e = uid -> Store.events_update_target uid (Event.id e) e = true.
Proof.
  intros H. unfold Store.events_update_target, Policy.events_update.
  rewrite H, !uuid_eqb_refl. reflexivity.
Qed.

Lemma find_swap_request_after_update uid a s target db i :
  Store.find_swap_request i
    (with_swap_requests
       (map (fun r => if Store.swap_requests_update_target uid target r
                      then SwapRequest.handle_updated_at (now a)
                             (SwapRequest.with_status s r)
                      else r) (swap_requests db)) db)
  = option_map (fun r => if Store.swap_requests_update_target uid target r
                         then SwapRequest.handle_updated_at (now a)
                                (SwapRequest.with_status s r)
                         else r)
      (Store.find_swap_request i db).
Proof.
  unfold Store.find_swap_request. simpl.
  apply (find_map_same_key SwapRequest.id).
  intros r. now destruct (Store.swap_requests_update_target uid target r).
Qed.

(** What the three statements of a rejection leave behind when all of
    them reach the store. *)
Lemma reject_writes uid w request db :
  (forall n, net_ok (w n) = true) ->
  Requests.handleResponse uid w request false db
  = (let p := Event.mk_patch None (Some SWAPPABLE) in
     let own := Requests.EventRef.id (Requests.SwapRequest.owner_event request) in
     let req := Requests.EventRef.id (Requests.SwapRequest.requester_event request) in
     let db1 := with_events
                  (map (fun e => if Store.events_update_target uid own e
                                 then Store.events_update_row (w 0) p e else e)
                       (events db)) db in
     let db2 := with_events
                  (map (fun e => if Store.events_update_target uid req e
                                 then Store.events_update_row (w 1) p e else e)
                       (events db1)) db1 in
     with_swap_requests
       (map (fun r => if Store.swap_requests_update_target uid
                           (Requests.SwapRequest.id request) r
                      then SwapRequest.handle_updated_at (now (w 2))
                             (SwapRequest.with_status REJECTED r)
                      else r) (swap_requests db2)) db2,
     toast_info "Swap request rejected.").
Proof.
  intros Hnet. unfold Requests.handleResponse. run_handler.
  rewrite !Hnet, events_update_status.
  rewrite events_update_status. reflexivity.
Qed.

(** C5 (the code departs from it): when the owner of a pending request
    rejects it, the owner's own event goes back to [SWAPPABLE] and the
    request becomes [REJECTED], but the requester's event is a row the
    owner may not update: the statement meant to free it reaches no row
    and reports no error, so that event is left exactly as it was. *)
Theorem reject_leaves_requester_event
    (uid : uuid) (w : nat -> ambient) (request : Requests.SwapRequest.t)
    (db : DB) (r : SwapRequest.t) (e1 e2 : Event.t) :
  events_pk db -> swap_requests_pk db ->
  In r (swap_requests db) -> views request r ->
  SwapRequest.status r = PENDING -> SwapRequest.owner_id r = uid ->
  In e1 (events db) -> Event.id e1 = SwapRequest.requester_event_id r ->
  Event.user_id e1 <> uid ->
  In e2 (events db) -> Event.id e2 = SwapRequest.owner_event_id r ->
  Event.user_id e2 = uid ->
  (forall n, net_ok (w n) = true) ->
  exists db',
    Requests.handleResponse uid w request false db
      = (db', toast_info "Swap request rejected.")
    /\ Store.find_event (Event.id e1) db' = Some e1
    /\ Store.find_event (Event.id e2) db'
       = Some (Event.mk (Event.id e2) (Event.user_id e2) (Event.title e2)
                 (Event.start_time e2) (Event.end_time e2) SWAPPABLE
                 (Event.created_at e2) (now (w 0)))
    /\ Store.find_swap_request (SwapRequest.id r) db'
       = Some (SwapRequest.mk (SwapRequest.id r) (SwapRequest.requester_id r)
                 (SwapRequest.requester_event_id r) (SwapRequest.owner_id r)
                 (SwapRequest.owner_event_id r) REJECTED
                 (SwapRequest.created_at r) (now (w 2))).
Proof.
  intros Hpk Hrpk Hr (Vid & _ & Vreq & Vown) _ Howner
    Hin1 Hid1 Hforeign Hin2 Hid2 Hown Hnet.
  eexists. split; [apply reject_writes; exact Hnet|].
  cbv zeta. rewrite Vid, Vreq, Vown, <- Hid1, <- Hid2.
  assert (Hne : Event.id e2 <> Event.id e1).
  { intros Heq. apply Hforeign. rewrite <- Hown.
    f_equal. symmetry.
    exact (same_key_same_row Event.id e2 e1 _ Hpk Hin2 Hin1 Heq). }
  split; [|split].
  - change (Store.find_event (Event.id e1) (with_swap_requests ?rs ?d))
      with (Store.find_event (Event.id e1) d).
    rewrite find_event_after_update, find_event_after_update,
      (find_event_In db e1 Hpk Hin1).
    simpl. rewrite (events_update_target_foreign uid _ e1 Hforeign).
    rewrite (events_update_target_foreign uid _ e1 Hforeign). reflexivity.
  - change (Store.find_event (Event.id e2) (with_swap_requests ?rs ?d))
      with (Store.find_event (Event.id e2) d).
    rewrite find_event_after_update, find_event_after_update,
      (find_event_In db e2 Hpk Hin2).
    simpl. rewrite (events_update_target_own uid e2 Hown).
    rewrite events_update_target_other by exact Hne. reflexivity.
  - rewrite find_swap_request_after_update.
    change (Store.find_swap_request ?i (with_events ?es ?d))
      with (Store.find_swap_request i d).
    change (Store.find_swap_request ?i (with_events ?es ?d))
      with (Store.find_swap_request i d).
    rewrite (find_swap_request_In db r Hrpk Hr).
    rewrite Hid1, Hid2.
    unfold Store.swap_requests_update_target, Policy.swap_requests_update,
      SwapRequest.handle_updated_at, SwapRequest.with_status.
    simpl. rewrite Howner, !uuid_eqb_refl. reflexivity.
Qed.

(** Bob rejects Alice's pending request: his slot is offered again,
    hers stays held although no pending request names it any more. *)
Lemma reject_leaves_requester_event_witness :
  exists db',
    Requests.handleResponse "u2" Sample.calm (Sample.request_view PENDING) false
      Sample.db_pending
    = (db', toast_info "Swap request rejected.")
    /\ Store.find_event "e1" db' = Some (Sample.slot "e1" "u1" SWAP_PENDING)
    /\ Store.find_event "e2" db' = Some (Event.mk "e2" "u2" [83%N] 1000 2000 SWAPPABLE 10 30)
    /\ Store.find_swap_request "r1" db'
       = Some (SwapRequest.mk "r1" "u1" "e1" "u2" "e2" REJECTED 20 30)
    /\ pending_refs db' "e1" = 0.
Proof.
  destruct (reject_leaves_requester_event "u2" Sample.calm
              (Sample.request_view PENDING) Sample.db_pending
              (Sample.request PENDING)
              (Sample.slot "e1" "u1" SWAP_PENDING)
              (Sample.slot "e2" "u2" SWAP_PENDING))
    as (db' & Hrun & H1 & H2 & Hr);
    try reflexivity; try (simpl; auto; fail).
  - unfold events_pk; simpl; distinct_keys.
  - unfold swap_requests_pk; simpl; distinct_keys.
  - repeat split.
  - discriminate.
  - exists db'. repeat split; try assumption.
    vm_compute in Hrun. injection Hrun as <-. reflexivity.
Defined.

(** ** Requesting a swap *)

Lemma my_swappable_slots_In uid db e :
  In e (Marketplace.my_swappable_slots uid db) <->
  In e (events db) /\ Event.status e = SWAPPABLE /\ Event.user_id e = uid.
Proof.
  unfold Marketplace.my_swappable_slots, Store.events_visible.
  rewrite order_by_start_time_In, !filter_In, andb_true_iff,
    event_status_eqb_eq, uuid_eqb_eq.
  unfold Policy.events_select, Policy.view_own_events.
  split; [tauto|].
  intros (Hin & Hst & Hu). repeat split; auto.
  rewrite Hu, uuid_eqb_refl. reflexivity.
Qed.

(** What [requestSwap] leaves behind when its insert is accepted and
    every statement reaches the store. *)
Lemma requestSwap_writes uid w slot myEventId db :
  (forall n, net_ok (w n) = true) ->
  Store.has_profile db uid = true ->
  Store.has_profile db (MarketplaceEvent.user_id slot) = true ->
  Store.has_event db myEventId = true ->
  Store.has_event db (MarketplaceEvent.id slot) = true ->
  Store.has_swap_request db (gen_random_uuid (w 0)) = false ->
  Marketplace.requestSwap uid w (Some slot) myEventId db
  = (let p := Event.mk_patch None (Some SWAP_PENDING) in
     let db1 := with_swap_requests
                  (swap_requests db ++
                   [SwapRequest.mk (gen_random_uuid (w 0)) uid myEventId
                      (MarketplaceEvent.user_id slot) (MarketplaceEvent.id slot)
                      PENDING (now (w 0)) (now (w 0))]) db in
     let db2 := with_events
                  (map (fun e => if Store.events_update_target uid myEventId e
                                 then Store.events_update_row (w 1) p e else e)
                       (events db1)) db1 in
     with_events
       (map (fun e => if Store.events_update_target uid (MarketplaceEvent.id slot) e
                      then Store.events_update_row (w 2) p e else e)
            (events db2)) db2,
     Some (toast_success "Swap request sent!")).
Proof.
  intros Hnet Hu Ho He1 He2 Hfresh.
  unfold Marketplace.requestSwap. run_handler.
  rewrite !Hnet. unfold Store.swap_requests_insert, Policy.swap_requests_insert.
  simpl. rewrite uuid_eqb_refl, Hfresh, Hu, Ho, He1, He2. simpl.
  rewrite events_update_status.
  rewrite events_update_status. reflexivity.
Qed.

(** C3, as the code has it: [requestSwap] looks neither at the stored
    status of the two events nor at whether requester and owner differ.
    The only restriction is on what the page offers: the slots listed in
    the marketplace are other profiles' events that were [SWAPPABLE]
    when fetched, the slots offered in exchange are the user's own
    [SWAPPABLE] events.  Given a selected slot and an offered event that
    exist in the store, the request row is inserted as [PENDING]
    whatever their stored status and owners. *)
Theorem request_swap_unguarded
    (uid : uuid) (w : nat -> ambient) (slot : MarketplaceEvent.t)
    (myEventId : uuid) (db : DB) :
  (forall e, In e (Marketplace.available_slots uid db) ->
     In e (events db) /\ Event.status e = SWAPPABLE /\ Event.user_id e <> uid)
  /\ (forall e, In e (Marketplace.my_swappable_slots uid db) ->
        In e (events db) /\ Event.status e = SWAPPABLE /\ Event.user_id e = uid)
  /\ ((forall n, net_ok (w n) = true) ->
      Store.has_profile db uid = true ->
      Store.has_profile db (MarketplaceEvent.user_id slot) = true ->
      Store.has_event db myEventId = true ->
      Store.has_event db (MarketplaceEvent.id slot) = true ->
      Store.has_swap_request db (gen_random_uuid (w 0)) = false ->
      exists db',
        Marketplace.requestSwap uid w (Some slot) myEventId db
          = (db', Some (toast_success "Swap request sent!"))
        /\ swap_requests db'
           = swap_requests db ++
             [SwapRequest.mk (gen_random_uuid (w 0)) uid myEventId
                (MarketplaceEvent.user_id slot) (MarketplaceEvent.id slot)
                PENDING (now (w 0)) (now (w 0))]).
Proof.
  split; [intros e; apply available_slots_In|].
  split; [intros e; apply my_swappable_slots_In|].
  intros Hnet Hu Ho He1 He2 Hfresh.
  eexists. split; [now apply requestSwap_writes|]. reflexivity.
Qed.

(** Alice asks for Bob's slot after Bob has marked it busy. *)
Lemma request_swap_unguarded_witness :
  exists db',
    Marketplace.requestSwap "u1" Sample.calm (Some Sample.bobs_slot) "e1"
      Sample.db_withdrawn
    = (db', Some (toast_success "Swap request sent!"))
    /\ swap_requests db' = [SwapRequest.mk "r1" "u1" "e1" "u2" "e2" PENDING 30 30]
    /\ Store.find_event "e2" Sample.db_withdrawn = Some (Sample.slot "e2" "u2" BUSY).
Proof.
  destruct (request_swap_unguarded "u1" Sample.calm Sample.bobs_slot "e1"
              Sample.db_withdrawn) as (_ & _ & Hrun).
  destruct Hrun as (db' & Hrun & Hreq); try reflexivity.
  exists db'. repeat split; assumption.
Defined.

(** C3, as stated, fails: a request on a slot whose stored status is
    [BUSY] goes through, and so does a request of a profile to itself;
    both write to the store and report success. *)
Lemma request_swap_not_refused :
  ~ create_refused_unless_swappable /\ ~ create_refused_on_self_swap.
Proof.
  split.
  - intros H.
    destruct (H "u1"%string Sample.calm Sample.bobs_slot "e1"%string
                Sample.db_withdrawn (Sample.slot "e2" "u2" BUSY))
      as (t & Hrun & Ht).
    + simpl; auto.
    + left; reflexivity.
    + discriminate.
    + vm_compute in Hrun. discriminate.
  - intros H.
    destruct (H "u2"%string Sample.calm Sample.bobs_slot "e2"%string
                Sample.db_offered eq_refl)
      as (t & Hrun & Ht).
    vm_compute in Hrun. discriminate.
Qed.

(** ** No transaction around the statements of an operation *)

Lemma three_statements {A : Type} (a0 a1 a2 : ambient) (s0 s1 s2 : DB -> result DB)
    (done : A) (handler : error -> A) (db db' : DB) (t : A) :
  try_catch (await a0 s0 ;; await a1 s1 ;; await a2 s2 ;; ret done) handler db
    = (db', t) ->
  (refused a0 s0 db /\ db' = db /\ exists e, t = handler e)
  \/ (exists db1,
        accepted a0 s0 db db1 /\ refused a1 s1 db1 /\ db' = db1
        /\ exists e, t = handler e)
  \/ (exists db1 db2,
        accepted a0 s0 db db1 /\ accepted a1 s1 db1 db2 /\ refused a2 s2 db2
        /\ db' = db2 /\ exists e, t = handler e)
  \/ (exists db1 db2,
        accepted a0 s0 db db1 /\ accepted a1 s1 db1 db2 /\ accepted a2 s2 db2 db'
        /\ t = done).
Proof.
  unfold refused, accepted. run_handler.
  destruct (net_ok a0) eqn:N0;
    [|intros [= <- <-]; left; eauto 6].
  destruct (s0 db) as [db1|e0] eqn:E0;
    [|intros [= <- <-]; left; eauto 7].
  destruct (net_ok a1) eqn:N1;
    [|intros [= <- <-]; right; left; exists db1; eauto 8].
  destruct (s1 db1) as [db2|e1] eqn:E1;
    [|intros [= <- <-]; right; left; exists db1; eauto 9].
  destruct (net_ok a2) eqn:N2;
    [|intros [= <- <-]; right; right; left; exists db1, db2; eauto 10].
  destruct (s2 db2) as [db3|e2] eqn:E2;
    intros [= <- <-]; right; right.
  - right. exists db1, db2. auto.
  - left. exists db1, db2. eauto 10.
Qed.

(** C4, as the code has it: none of the three operations is a
    transaction.  Each sends three statements one after the other, each
    taking effect on its own, and stops at the first one that is not
    accepted: on success all three were accepted; on failure the store
    holds what the statements accepted before the failing one wrote, so
    it is unchanged only when the first statement is the one that
    failed. *)
Theorem operations_commit_stepwise
    (uid : uuid) (w : nat -> ambient) (db db' : DB) :
  (forall slot myEventId t,
      Marketplace.requestSwap uid w (Some slot) myEventId db = (db', Some t) ->
      committed_stepwise (w 0) (w 1) (w 2)
        (Store.swap_requests_insert uid (w 0) uid myEventId
           (MarketplaceEvent.user_id slot) (MarketplaceEvent.id slot) PENDING)
        (Store.events_update uid (w 1) (Event.mk_patch None (Some SWAP_PENDING))
           myEventId)
        (Store.events_update uid (w 2) (Event.mk_patch None (Some SWAP_PENDING))
           (MarketplaceEvent.id slot))
        db db' (is_error_toast t))
  /\ (forall request t,
        Requests.handleResponse uid w request true db = (db', t) ->
        committed_stepwise (w 0) (w 1) (w 2)
          (Store.events_update uid (w 0)
             (Event.mk_patch
                (Some (Requests.EventRef.id (Requests.SwapRequest.requester_event request)))
                (Some BUSY))
             (Requests.EventRef.id (Requests.SwapRequest.owner_event request)))
          (Store.events_update uid (w 1)
             (Event.mk_patch
                (Some (Requests.EventRef.id (Requests.SwapRequest.owner_event request)))
                (Some BUSY))
             (Requests.EventRef.id (Requests.SwapRequest.requester_event request)))
          (Store.swap_requests_update uid (w 2) ACCEPTED
             (Requests.SwapRequest.id request))
          db db' (is_error_toast t))
  /\ (forall request t,
        Requests.handleResponse uid w request false db = (db', t) ->
        committed_stepwise (w 0) (w 1) (w 2)
          (Store.events_update uid (w 0) (Event.mk_patch None (Some SWAPPABLE))
             (Requests.EventRef.id (Requests.SwapRequest.owner_event request)))
          (Store.events_update uid (w 1) (Event.mk_patch None (Some SWAPPABLE))
             (Requests.EventRef.id (Requests.SwapRequest.requester_event request)))
          (Store.swap_requests_update uid (w 2) REJECTED
             (Requests.SwapRequest.id request))
          db db' (is_error_toast t)).
Proof.
  split; [|split].
  - intros slot myEventId t H. unfold Marketplace.requestSwap in H.
    apply three_statements in H. unfold committed_stepwise.
    destruct H as [(R & -> & e & Ht)|[(db1 & A0 & R & -> & e & Ht)
                  |[(db1 & db2 & A0 & A1 & R & -> & e & Ht)
                  |(db1 & db2 & A0 & A1 & A2 & Ht)]]];
      injection Ht as ->; simpl; eauto 12.
  - intros request t H. unfold Requests.handleResponse in H.
    apply three_statements in H. unfold committed_stepwise.
    destruct H as [(R & -> & e & ->)|[(db1 & A0 & R & -> & e & ->)
                  |[(db1 & db2 & A0 & A1 & R & -> & e & ->)
                  |(db1 & db2 & A0 & A1 & A2 & ->)]]];
      simpl; eauto 12.
  - intros request t H. unfold Requests.handleResponse in H.
    apply three_statements in H. unfold committed_stepwise.
    destruct H as [(R & -> & e & ->)|[(db1 & A0 & R & -> & e & ->)
                  |[(db1 & db2 & A0 & A1 & R & -> & e & ->)
                  |(db1 & db2 & A0 & A1 & A2 & ->)]]];
      simpl; eauto 12.
Qed.

(** Alice's request is inserted, then the statement that should hold
    her slot is lost: the request row stays, no event is held, and the
    page reports a failure. *)
Lemma operations_commit_stepwise_witness :
  exists db',
    Marketplace.requestSwap "u1" (Sample.lost 1) (Some Sample.bobs_slot) "e1"
      Sample.db_offered
    = (db', Some (toast_error_message FetchFailed "Failed to send swap request"))
    /\ swap_requests db' = [SwapRequest.mk "r1" "u1" "e1" "u2" "e2" PENDING 30 30]
    /\ events db' = events Sample.db_offered
    /\ committed_stepwise (Sample.lost 1 0) (Sample.lost 1 1) (Sample.lost 1 2)
         (Store.swap_requests_insert "u1" (Sample.lost 1 0) "u1" "e1" "u2" "e2" PENDING)
         (Store.events_update "u1" (Sample.lost 1 1)
            (Event.mk_patch None (Some SWAP_PENDING)) "e1")
         (Store.events_update "u1" (Sample.lost 1 2)
            (Event.mk_patch None (Some SWAP_PENDING)) "e2")
         Sample.db_offered db' true.
Proof.
  eexists. split; [reflexivity|]. split; [reflexivity|]. split; [reflexivity|].
  exact (proj1 (operations_commit_stepwise "u1" (Sample.lost 1) Sample.db_offered _)
           Sample.bobs_slot "e1"%string _ eq_refl).
Defined.

(** C4, as stated, fails: a swap request, and a rejection, whose second
    statement is lost report a failure although the first statement's
    write is in the store. *)
Lemma operations_not_atomic :
  ~ create_all_or_nothing /\ ~ respond_all_or_nothing.
Proof.
  split.
  - intros H.
    specialize (H "u1"%string (Sample.lost 1) Sample.bobs_slot "e1"%string
                  Sample.db_offered _ _ eq_refl eq_refl).
    discriminate.
  - intros H.
    specialize (H "u2"%string (Sample.lost 1) (Sample.request_view PENDING) false
                  Sample.db_pending _ _ eq_refl eq_refl).
    discriminate.
Qed.

(** The same operations can also report success with part of their
    writes missing: Alice's request leaves Bob's slot, which she may not
    update, as it was. *)
Example request_swap_holds_one_side :
  exists db',
    Marketplace.requestSwap "u1" Sample.calm (Some Sample.bobs_slot) "e1"
      Sample.db_offered
    = (db', Some (toast_success "Swap request sent!"))
    /\ Store.find_event "e1" db' = Some (Event.mk "e1" "u1" [83%N] 1000 2000 SWAP_PENDING 10 30)
    /\ Store.find_event "e2" db' = Some (Sample.slot "e2" "u2" SWAPPABLE)
    /\ pending_refs db' "e2" = 1.
Proof. eexists. repeat split. Qed.

(** ** Deleting an event *)

Lemma events_delete_target_own uid e :
  Event.user_id e = uid -> Store.events_delete_target uid (Event.id e) e = true.
Proof.
  intros H. unfold Store.events_delete_target, Policy.events_delete.
  rewrite H, !uuid_eqb_refl. reflexivity.
Qed.

Lemma events_delete_hit uid target db :
  existsb (Store.events_delete_target uid target) (events db) = true ->
  Store.events_delete uid target db
  = Ok (mkDB (profiles db)
          (filter (fun e => negb (Store.events_delete_target uid target e)) (events db))
          (filter (fun r => negb (SwapRequest.references target r)) (swap_requests db))).
Proof. intros H. unfold Store.events_delete. now rewrite H. Qed.

Lemma events_delete_miss uid target db :
  existsb (Store.events_delete_target uid target) (events db) = false ->
  Store.events_delete uid target db = Ok db.
Proof. intros H. unfold Store.events_delete. now rewrite H. Qed.

Lemma find_after_delete_other uid target i l :
  i <> target ->
  find (fun e => Event.id e =?u i)
    (filter (fun e => negb (Store.events_delete_target uid target e)) l)
  = find (fun e => Event.id e =?u i) l.
Proof.
  intros Hne. induction l as [|e l IH]; simpl; [reflexivity|].
  destruct (Store.events_delete_target uid target e) eqn:E; simpl.
  - unfold Store.events_delete_target in E. apply andb_true_iff in E.
    destruct E as [E _]. apply uuid_eqb_eq in E.
    replace (Event.id e =?u i) with false; [exact IH|].
    symmetry. apply uuid_eqb_neq. congruence.
  - now rewrite IH.
Qed.

Lemma find_after_delete_hit uid ev l :
  NoDup (map Event.id l) -> In ev l -> Event.user_id ev = uid ->
  find (fun e => Event.id e =?u Event.id ev)
    (filter (fun e => negb (Store.events_delete_target uid (Event.id ev) e)) l)
  = None.
Proof.
  intros Hnd Hin Hown.
  destruct (find _ _) as [x|] eqn:F; [exfalso|reflexivity].
  apply (find_key_Some Event.id) in F. destruct F as [Hx Hk].
  apply filter_In in Hx. destruct Hx as [Hx Hkeep].
  assert (x = ev) by (eapply (same_key_same_row Event.id); eassumption).
  subst x. rewrite events_delete_target_own in Hkeep by assumption.
  discriminate.
Qed.

(** C7, as the code has it: the delete button of an event card is
    disabled while the row the page holds is [SWAP_PENDING], so that
    nothing is sent, nothing is removed and no error is raised;
    [deleteEvent] itself looks at no status: for an event the user owns
    it removes the row, whatever its stored status, together with the
    swap requests that name it, and reports success. *)
Theorem delete_event_unguarded
    (uid : uuid) (a : ambient) (ev : Event.t) (db : DB) :
  (Event.status ev = SWAP_PENDING ->
   Dashboard.delete_button uid a ev db = (db, None))
  /\ (events_pk db -> In ev (events db) -> Event.user_id ev = uid ->
      net_ok a = true ->
      exists db',
        Dashboard.deleteEvent uid a (Event.id ev) db
          = (db', toast_success "Event deleted")
        /\ Store.find_event (Event.id ev) db' = None
        /\ (forall i, i <> Event.id ev ->
              Store.find_event i db' = Store.find_event i db)
        /\ swap_requests db'
           = filter (fun r => negb (SwapRequest.references (Event.id ev) r))
               (swap_requests db)
        /\ profiles db' = profiles db).
Proof.
  split.
  - intros Hst. unfold Dashboard.delete_button, Dashboard.disabled.
    now rewrite Hst.
  - intros Hpk Hin Hown Hnet.
    assert (Hhit : existsb (Store.events_delete_target uid (Event.id ev)) (events db)
                   = true).
    { apply existsb_exists. exists ev. split; [exact Hin|].
      now apply events_delete_target_own. }
    eexists. split.
    + unfold Dashboard.deleteEvent. run_handler.
      rewrite Hnet, (events_delete_hit _ _ _ Hhit). reflexivity.
    + split; [|split; [|split; reflexivity]].
      * now apply find_after_delete_hit.
      * intros i Hi. now apply find_after_delete_other.
Qed.

(** Alice deletes her slot while her request for Bob's is pending: the
    slot and the request are gone, Bob's slot stays held. *)
Lemma delete_event_unguarded_witness :
  exists db',
    Dashboard.deleteEvent "u1" (Sample.calm 0) "e1" Sample.db_pending
    = (db', toast_success "Event deleted")
    /\ Store.find_event "e1" db' = None
    /\ Store.find_event "e2" db' = Some (Sample.slot "e2" "u2" SWAP_PENDING)
    /\ swap_requests db' = []
    /\ Dashboard.delete_button "u1" (Sample.calm 0)
         (Sample.slot "e1" "u1" SWAP_PENDING) Sample.db_pending
       = (Sample.db_pending, None).
Proof.
  destruct (delete_event_unguarded "u1" (Sample.calm 0)
              (Sample.slot "e1" "u1" SWAP_PENDING) Sample.db_pending)
    as (Hbutton & Hdelete).
  destruct Hdelete as (db' & Hrun & Hgone & Hothers & Hreq & _);
    try reflexivity; try (simpl; auto; fail).
  - unfold events_pk; simpl; distinct_keys.
  - exists db'. split; [exact Hrun|]. split; [exact Hgone|].
    split; [rewrite (Hothers "e2"%string) by discriminate; reflexivity|].
    split; [rewrite Hreq; reflexivity|].
    apply Hbutton. reflexivity.
Defined.

(** C7, as stated, fails: [deleteEvent] on an event whose stored status
    is [SWAP_PENDING] removes it and reports success. *)
Lemma delete_not_refused_while_pending : ~ delete_refused_while_pending.
Proof.
  intros H.
  destruct (H "u1"%string (Sample.calm 0) (Sample.slot "e1" "u1" SWAP_PENDING)
              Sample.db_pending) as (t & Hrun & Ht).
  - simpl; auto.
  - reflexivity.
  - vm_compute in Hrun. discriminate.
Qed.

(** ** The coupling between held events and pending requests *)

Lemma filter_filter_implied {A : Type} (p q : A -> bool) (l : list A) :
  (forall x, In x l -> p x = true -> q x = true) ->
  filter p (filter q l) = filter p l.
Proof.
  induction l as [|x l IH]; simpl; intros H; [reflexivity|].
  destruct (q x) eqn:Q; simpl.
  - rewrite IH by auto. reflexivity.
  - destruct (p x) eqn:P.
    + rewrite (H x (or_introl eq_refl) P) in Q. discriminate.
    + apply IH. auto.
Qed.

Lemma pending_refs_zero db eid r :
  pending_refs db eid = 0 -> In r (swap_requests db) ->
  SwapRequest.references eid r = true -> SwapRequest.status r <> PENDING.
Proof.
  unfold pending_refs. intros Hz Hin Href Hst.
  apply length_zero_iff_nil in Hz.
  assert (In r (filter (pending_on eid) (swap_requests db))) as Hr.
  { apply filter_In. split; [exact Hin|]. unfold pending_on.
    rewrite Href, Hst. reflexivity. }
  rewrite Hz in Hr. exact Hr.
Qed.

(** What a click on the toggle button does to the store: nothing, or a
    rewriting of the status of the rows it reaches to one that is not
    [SWAP_PENDING]. *)
Lemma toggle_button_keeps uid a ev db db' t :
  Dashboard.toggle_button uid a ev db = (db', t) ->
  (db' = db)
  \/ (Event.status ev <> SWAP_PENDING
      /\ swap_requests db' = swap_requests db
      /\ exists s,
           s <> SWAP_PENDING
           /\ events db'
              = map (fun e => if Store.events_update_target uid (Event.id ev) e
                              then Store.events_update_row a
                                     (Event.mk_patch None (Some s)) e
                              else e) (events db)).
Proof.
  unfold Dashboard.toggle_button, Dashboard.disabled.
  destruct (event_status_eqb (Event.status ev) SWAP_PENDING) eqn:Es;
    [intros [= <- <-]; now left|].
  assert (Hst : Event.status ev <> SWAP_PENDING).
  { intros H. apply event_status_eqb_eq in H. congruence. }
  destruct (net_ok a) eqn:Hnet.
  - rewrite toggleSwappable_writes by assumption.
    intros [= <- <-]. right. split; [exact Hst|]. split; [reflexivity|].
    eexists. split; [|reflexivity].
    destruct (event_status_eqb (Event.status ev) BUSY); discriminate.
  - unfold Dashboard.toggleSwappable. rewrite Es. run_handler. rewrite Hnet.
    intros [= <- <-]. now left.
Qed.

Lemma delete_button_keeps uid a ev db db' t :
  Dashboard.delete_button uid a ev db = (db', t) ->
  (db' = db)
  \/ (Event.status ev <> SWAP_PENDING
      /\ events db' = filter (fun e => negb (Store.events_delete_target uid (Event.id ev) e))
                        (events db)
      /\ swap_requests db'
         = filter (fun r => negb (SwapRequest.references (Event.id ev) r))
             (swap_requests db)).
Proof.
  unfold Dashboard.delete_button, Dashboard.disabled.
  destruct (event_status_eqb (Event.status ev) SWAP_PENDING) eqn:Es;
    [intros [= <- <-]; now left|].
  assert (Hst : Event.status ev <> SWAP_PENDING).
  { intros H. apply event_status_eqb_eq in H. congruence. }
  unfold Dashboard.deleteEvent. run_handler.
  destruct (net_ok a); [|intros [= <- <-]; now left].
  unfold Store.events_delete.
  destruct (existsb _ _); intros [= <- <-]; [right|now left].
  simpl. auto.
Qed.

Lemma NoDup_map_filter {A : Type} (key : A -> uuid) (q : A -> bool) (l : list A) :
  NoDup (map key l) -> NoDup (map key (filter q l)).
Proof.
  induction l as [|x l IH]; simpl; intros Hnd; [constructor|].
  inversion Hnd as [|? ? Hx Hl]; subst.
  destruct (q x); simpl; [|now apply IH].
  constructor; [|now apply IH].
  intros Hin. apply Hx. apply in_map_iff in Hin.
  destruct Hin as (y & Hk & Hy). apply filter_In in Hy.
  rewrite <- Hk. apply in_map. tauto.
Qed.

(** C2, as the code has it: the store does not enforce the coupling and
    each handler works from the rows its page last fetched.  Marking an
    event swappable or busy, through its button and on an up-to-date
    row, keeps the coupling (an event is [SWAP_PENDING] exactly when one
    pending request names it); deleting an event, through its button
    and on an up-to-date row, keeps it as long as no event is named by
    two pending requests.  Both operations also keep the primary key
    and the bound of one pending request per event. *)
Theorem coupling_kept_on_fresh_rows
    (uid : uuid) (a : ambient) (ev : Event.t) (db : DB) :
  events_pk db -> In ev (events db) -> swap_pending_iff_one_request db ->
  (forall db' t,
      Dashboard.toggle_button uid a ev db = (db', t) ->
      swap_pending_iff_one_request db'
      /\ events_pk db'
      /\ (at_most_one_request db -> at_most_one_request db'))
  /\ (at_most_one_request db ->
      forall db' t,
        Dashboard.delete_button uid a ev db = (db', t) ->
        swap_pending_iff_one_request db'
        /\ events_pk db'
        /\ at_most_one_request db').
Proof.
  intros Hpk Hin Hinv. split.
  - intros db' t Hrun.
    destruct (toggle_button_keeps _ _ _ _ _ _ Hrun)
      as [->|(Hst & Hreq & s & Hs & Hev)]; [tauto|].
    assert (Hrefs : forall i, pending_refs db' i = pending_refs db i)
      by (intros i; unfold pending_refs; now rewrite Hreq).
    assert (Hrow : forall e', In e' (events db') ->
              exists e, In e (events db) /\ Event.id e' = Event.id e
                        /\ (e' = e \/ (e = ev /\ Event.status e' <> SWAP_PENDING))).
    { intros e' He'. rewrite Hev in He'. apply in_map_iff in He'.
      destruct He' as (e & <- & He). exists e. split; [exact He|].
      destruct (Store.events_update_target uid (Event.id ev) e) eqn:T; [|auto].
      split; [reflexivity|]. right.
      unfold Store.events_update_target in T. apply andb_true_iff in T.
      destruct T as [T _]. apply uuid_eqb_eq in T.
      split; [eapply (same_key_same_row Event.id); eassumption|exact Hs]. }
    split; [|split].
    + intros e' He'. destruct (Hrow e' He') as (e & He & Hid & [->|[-> Hst']]).
      * rewrite Hrefs. now apply Hinv.
      * rewrite Hrefs, Hid. specialize (Hinv ev Hin). tauto.
    + unfold events_pk. rewrite Hev, map_map.
      erewrite map_ext; [exact Hpk|].
      intros e. now destruct (Store.events_update_target uid (Event.id ev) e).
    + intros Hmost e' He'. destruct (Hrow e' He') as (e & He & Hid & _).
      rewrite Hrefs, Hid. now apply Hmost.
  - intros Hmost db' t Hrun.
    destruct (delete_button_keeps _ _ _ _ _ _ Hrun)
      as [->|(Hst & Hev & Hreq)]; [tauto|].
    assert (Hzero : pending_refs db (Event.id ev) = 0).
    { specialize (Hinv ev Hin). specialize (Hmost ev Hin).
      destruct (pending_refs db (Event.id ev)) as [|[|n]]; [reflexivity| |lia].
      elim Hst. now apply Hinv. }
    assert (Hrefs : forall i, pending_refs db' i = pending_refs db i).
    { intros i. unfold pending_refs. rewrite Hreq. f_equal.
      apply filter_filter_implied. intros r Hr Hp.
      unfold pending_on in Hp. apply andb_true_iff in Hp. destruct Hp as [Hp _].
      apply swap_status_eqb_eq in Hp.
      destruct (SwapRequest.references (Event.id ev) r) eqn:R; [|reflexivity].
      elim (pending_refs_zero db (Event.id ev) r Hzero Hr R Hp). }
    split; [|split].
    + intros e He. rewrite Hev in He. apply filter_In in He.
      destruct He as [He _]. rewrite Hrefs. auto.
    + unfold events_pk. rewrite Hev. now apply NoDup_map_filter.
    + intros e He. rewrite Hev in He. apply filter_In in He.
      destruct He as [He _]. rewrite Hrefs. auto.
Qed.

Ltac each_event :=
  let e := fresh "e" in
  let H := fresh "H" in
  intros e H; simpl in H;
  repeat (destruct H as [<-|H]; [vm_compute; try tauto; try lia; try (split; congruence)|]);
  try contradiction.

Lemma db_pending_coupled : swap_pending_iff_one_request Sample.db_pending.
Proof. each_event. Qed.

Lemma db_offered_coupled : swap_pending_iff_one_request Sample.db_offered.
Proof. each_event. Qed.

Lemma db_three_coupled :
  swap_pending_iff_one_request Sample.db_three /\ at_most_one_request Sample.db_three.
Proof. split; each_event. Qed.

(** Alice marks her busy slot swappable, or deletes it, while her
    request for Bob's slot is pending. *)
Lemma coupling_kept_on_fresh_rows_witness :
  exists db1 db2,
    Dashboard.toggle_button "u1" (Sample.calm 0) (Sample.slot "e3" "u1" BUSY)
      Sample.db_three
    = (db1, Some (toast_success "Event marked as swappable"))
    /\ swap_pending_iff_one_request db1
    /\ Dashboard.delete_button "u1" (Sample.calm 0) (Sample.slot "e3" "u1" BUSY)
         Sample.db_three
       = (db2, Some (toast_success "Event deleted"))
    /\ swap_pending_iff_one_request db2.
Proof.
  assert (Hpk : events_pk Sample.db_three) by (unfold events_pk; simpl; distinct_keys).
  assert (Hin : In (Sample.slot "e3" "u1" BUSY) (events Sample.db_three))
    by (simpl; auto).
  destruct (coupling_kept_on_fresh_rows "u1" (Sample.calm 0)
              (Sample.slot "e3" "u1" BUSY) Sample.db_three Hpk Hin
              (proj1 db_three_coupled)) as (Htoggle & Hdelete).
  eexists. eexists.
  split; [reflexivity|].
  split; [exact (proj1 (Htoggle _ _ eq_refl))|].
  split; [reflexivity|].
  exact (proj1 (Hdelete (proj2 db_three_coupled) _ _ eq_refl)).
Defined.

(** C2, as stated, fails for each kind of operation.  A swap request
    leaves the other profile's slot [SWAPPABLE] under a pending request;
    a rejection leaves the requester's slot [SWAP_PENDING] under no
    pending request; marking busy from a row fetched before the request
    releases a slot a pending request still names; deleting a held slot
    removes the request and leaves the other slot held. *)
Lemma coupling_not_kept :
  ~ create_keeps_coupling /\ ~ respond_keeps_coupling
  /\ ~ toggle_keeps_coupling /\ ~ delete_keeps_coupling.
Proof.
  split; [|split; [|split]]; intros H.
  - specialize (H "u1"%string Sample.calm Sample.bobs_slot "e1"%string
                  Sample.db_offered _ _ db_offered_coupled eq_refl
                  (Sample.slot "e2" "u2" SWAPPABLE)).
    vm_compute in H.
    assert (SWAPPABLE = SWAP_PENDING) by (apply H; auto). discriminate.
  - specialize (H "u2"%string Sample.calm (Sample.request_view PENDING) false
                  Sample.db_pending _ _ db_pending_coupled eq_refl
                  (Sample.slot "e1" "u1" SWAP_PENDING)).
    vm_compute in H.
    assert (0 = 1) by (apply H; auto). discriminate.
  - specialize (H "u1"%string (Sample.calm 0) (Sample.slot "e1" "u1" SWAPPABLE)
                  Sample.db_pending _ _ db_pending_coupled eq_refl
                  (Event.mk "e1" "u1" [83%N] 1000 2000 BUSY 10 30)).
    vm_compute in H.
    assert (BUSY = SWAP_PENDING) by (apply H; auto). discriminate.
  - specialize (H "u1"%string (Sample.calm 0) "e1"%string
                  Sample.db_pending _ _ db_pending_coupled eq_refl
                  (Sample.slot "e2" "u2" SWAP_PENDING)).
    vm_compute in H.
    assert (0 = 1) by (apply H; auto). discriminate.
Qed.

(** ** No answer to a request moves an event *)

(** An accepted update of [events] leaves every event with the owner
    it had: the rows it reaches are the user's own, and the rows it
    writes must be the user's own. *)
Lemma events_update_keeps_owners uid a p target db db' i :
  Store.events_update uid a p target db = Ok db' ->
  option_map Event.user_id (Store.find_event i db')
  = option_map Event.user_id (Store.find_event i db).
Proof.
  unfold Store.events_update.
  destruct (forallb _ _) eqn:F; [|discriminate]. simpl.
  destruct (negb _); [discriminate|]. intros [= <-].
  rewrite find_event_after_update.
  destruct (Store.find_event i db) as [e|] eqn:E; [|reflexivity]. simpl.
  destruct (Store.events_update_target uid target e) eqn:T; [|reflexivity].
  apply (find_key_Some Event.id) in E. destruct E as [He _].
  rewrite forallb_forall in F.
  specialize (F (Store.events_update_row a p e)).
  unfold Policy.events_update in F. rewrite uuid_eqb_eq in F.
  rewrite <- F by (apply in_map, filter_In; auto).
  unfold Store.events_update_target, Policy.events_update in T.
  apply andb_true_iff in T. destruct T as [_ T]. apply uuid_eqb_eq in T.
  now rewrite T.
Qed.

Lemma accepted_update_keeps_owners uid a a' p target db db' i :
  accepted a' (Store.events_update uid a p target) db db' ->
  option_map Event.user_id (Store.find_event i db')
  = option_map Event.user_id (Store.find_event i db).
Proof. intros [_ H]. eapply events_update_keeps_owners; eassumption. Qed.

Lemma accepted_request_update_keeps_events uid a a' s target db db' :
  accepted a' (Store.swap_requests_update uid a s target) db db' ->
  events db' = events db.
Proof. intros [_ H]. unfold Store.swap_requests_update in H. now injection H as <-. Qed.

(** Whatever the answer, whatever reaches the store and whatever the
    request shown on the page: after [handleResponse] every event
    belongs to the profile it belonged to before. *)
Lemma response_keeps_owners uid w request accept db db' t i :
  Requests.handleResponse uid w request accept db = (db', t) ->
  option_map Event.user_id (Store.find_event i db')
  = option_map Event.user_id (Store.find_event i db).
Proof.
  intros H. unfold Requests.handleResponse in H.
  destruct accept; apply three_statements in H;
    destruct H as [(_ & -> & _)|[(db1 & A0 & _ & -> & _)
                  |[(db1 & db2 & A0 & A1 & _ & -> & _)
                  |(db1 & db2 & A0 & A1 & A2 & _)]]];
    try reflexivity;
    try (eapply accepted_update_keeps_owners; eassumption);
    try (etransitivity;
         [eapply accepted_update_keeps_owners; eassumption
         |eapply accepted_update_keeps_owners; eassumption]).
  - unfold Store.find_event.
    rewrite (accepted_request_update_keeps_events _ _ _ _ _ _ _ A2).
    etransitivity;
      [eapply accepted_update_keeps_owners; eassumption
      |eapply accepted_update_keeps_owners; eassumption].
  - unfold Store.find_event.
    rewrite (accepted_request_update_keeps_events _ _ _ _ _ _ _ A2).
    etransitivity;
      [eapply accepted_update_keeps_owners; eassumption
      |eapply accepted_update_keeps_owners; eassumption].
Qed.

(** ** A session through the pages *)

(** After the session Alice's slot is held and Bob's is not, although
    the one pending request names both: the coupling is already lost in
    a store reached through the pages alone. *)
Example session_ends_uncoupled :
  Sample.session
  = mkDB [Sample.alice; Sample.bob]
         [Event.mk "e1" "u1" [83%N] 5 9 SWAP_PENDING 10 30;
          Event.mk "e2" "u2" [83%N] 5 9 SWAPPABLE 10 12]
         [SwapRequest.mk "r1" "u1" "e1" "u2" "e2" PENDING 30 30]
  /\ ~ swap_pending_iff_one_request Sample.session.
Proof.
  split; [reflexivity|].
  intros H.
  specialize (H (Event.mk "e2" "u2" [83%N] 5 9 SWAPPABLE 10 12)).
  vm_compute in H.
  assert (SWAPPABLE = SWAP_PENDING) by (apply H; auto). discriminate.
Qed.

(** * More of the pages and of the schema *)

(** ** Handlers, statement by statement *)

Section Relates.
Variable R : DB -> DB -> Prop.
Hypothesis R_refl : forall db, R db db.
Hypothesis R_trans : forall d1 d2 d3, R d1 d2 -> R d2 d3 -> R d1 d3.

Lemma relates_ret {A : Type} (x : A) : relates R (ret x).
Proof. intros db db' r [= <- _]. apply R_refl. Qed.

Lemma relates_throw {A : Type} (e : error) : relates R (@throw A e).
Proof. intros db db' r [= <- _]. apply R_refl. Qed.

Lemma relates_bind {A B : Type} (m : task A) (k : A -> task B) :
  relates R m -> (forall x, relates R (k x)) -> relates R (bind m k).
Proof.
  intros Hm Hk db db' r. unfold bind.
  destruct (m db) as [d [x|e]] eqn:E.
  - intros H. eapply R_trans; [eapply Hm; eassumption|eapply Hk; eassumption].
  - intros [= <- _]. eapply Hm; eassumption.
Qed.

Lemma relates_await (a : ambient) (stmt : DB -> result DB) :
  stmt_relates R stmt -> relates R (await a stmt).
Proof.
  intros Hs db db' r. unfold await.
  destruct (net_ok a); [|intros [= <- _]; apply R_refl].
  destruct (stmt db) as [d|e] eqn:E; intros [= <- _];
    [now apply Hs|apply R_refl].
Qed.

Lemma relates_try_catch {A : Type} (m : task A) (h : error -> A) db db' t :
  relates R m -> try_catch m h db = (db', t) -> R db db'.
Proof.
  intros Hm. unfold try_catch.
  destruct (m db) as [d [x|e]] eqn:E; intros [= <- _]; eapply Hm; eassumption.
Qed.

Lemma onSubmit_relates Date uid a data db db' t :
  (forall title s e, stmt_relates R (Store.events_insert uid a uid title s e BUSY)) ->
  Dashboard.onSubmit Date uid a data db = (db', t) -> R db db'.
Proof.
  intros Hi. unfold Dashboard.onSubmit. apply relates_try_catch.
  unfold Dashboard.toISOString.
  apply relates_bind;
    [destruct (Date _); [apply relates_ret|apply relates_throw]|intros s].
  apply relates_bind;
    [destruct (Date _); [apply relates_ret|apply relates_throw]|intros e].
  apply relates_bind; [apply relates_await, Hi|intros _; apply relates_ret].
Qed.

Lemma handleSubmit_relates Date uid a data db db' out :
  (forall title s e, stmt_relates R (Store.events_insert uid a uid title s e BUSY)) ->
  Dashboard.handleSubmit Date uid a data db = (db', out) -> R db db'.
Proof.
  intros Hi. unfold Dashboard.handleSubmit.
  destruct (Dashboard.eventSchema Date data) as [parsed|];
    [|intros [= <- _]; apply R_refl].
  destruct (Dashboard.onSubmit Date uid a parsed db) as [d t] eqn:E.
  intros [= <- _]. eapply onSubmit_relates; eassumption.
Qed.

Lemma toggleSwappable_relates uid a ev db db' t :
  (forall s, stmt_relates R
     (Store.events_update uid a (Event.mk_patch None (Some s)) (Event.id ev))) ->
  Dashboard.toggleSwappable uid a ev db = (db', t) -> R db db'.
Proof.
  intros Hu. unfold Dashboard.toggleSwappable.
  destruct (event_status_eqb (Event.status ev) SWAP_PENDING);
    [intros [= <- _]; apply R_refl|].
  apply relates_try_catch.
  apply relates_bind; [apply relates_await, Hu|intros _; apply relates_ret].
Qed.

Lemma deleteEvent_relates uid a eventId db db' t :
  stmt_relates R (Store.events_delete uid eventId) ->
  Dashboard.deleteEvent uid a eventId db = (db', t) -> R db db'.
Proof.
  intros Hd. unfold Dashboard.deleteEvent. apply relates_try_catch.
  apply relates_bind; [apply relates_await, Hd|intros _; apply relates_ret].
Qed.

Lemma requestSwap_relates uid w selectedSlot myEventId db db' t :
  (forall a o oe, stmt_relates R
     (Store.swap_requests_insert uid a uid myEventId o oe PENDING)) ->
  (forall a target, stmt_relates R
     (Store.events_update uid a (Event.mk_patch None (Some SWAP_PENDING)) target)) ->
  Marketplace.requestSwap uid w selectedSlot myEventId db = (db', t) -> R db db'.
Proof.
  intros Hi Hu. unfold Marketplace.requestSwap.
  destruct selectedSlot as [slot|]; [|intros [= <- _]; apply R_refl].
  apply relates_try_catch.
  repeat (apply relates_bind; [apply relates_await; auto|intros _]).
  apply relates_ret.
Qed.

Lemma handleResponse_relates uid w request accept db db' t :
  (forall a p target, stmt_relates R (Store.events_update uid a p target)) ->
  (forall a s target, stmt_relates R (Store.swap_requests_update uid a s target)) ->
  Requests.handleResponse uid w request accept db = (db', t) -> R db db'.
Proof.
  intros Hu Hr. unfold Requests.handleResponse.
  apply relates_try_catch.
  destruct accept;
    repeat (apply relates_bind; [apply relates_await; auto|intros _]);
    apply relates_ret.
Qed.
End Relates.

(** ** The declared constraints are kept *)

Lemma has_event_In db i :
  Store.has_event db i = true <-> In i (map Event.id (events db)).
Proof.
  unfold Store.has_event. rewrite existsb_exists, in_map_iff.
  split; intros (e & H1 & H2); exists e.
  - apply uuid_eqb_eq in H2. auto.
  - split; [tauto|]. apply uuid_eqb_eq. tauto.
Qed.

Lemma has_profile_In db i :
  Store.has_profile db i = true <-> In i (map Profile.id (profiles db)).
Proof.
  unfold Store.has_profile. rewrite existsb_exists, in_map_iff.
  split; intros (e & H1 & H2); exists e.
  - apply uuid_eqb_eq in H2. auto.
  - split; [tauto|]. apply uuid_eqb_eq. tauto.
Qed.

Lemma has_swap_request_In db i :
  Store.has_swap_request db i = true <-> In i (map SwapRequest.id (swap_requests db)).
Proof.
  unfold Store.has_swap_request. rewrite existsb_exists, in_map_iff.
  split; intros (e & H1 & H2); exists e.
  - apply uuid_eqb_eq in H2. auto.
  - split; [tauto|]. apply uuid_eqb_eq. tauto.
Qed.

Lemma has_event_same_ids db db' i :
  map Event.id (events db') = map Event.id (events db) ->
  Store.has_event db' i = Store.has_event db i.
Proof.
  intros H. apply eq_true_iff_eq. now rewrite !has_event_In, H.
Qed.

Lemma has_profile_same_profiles db db' i :
  profiles db' = profiles db -> Store.has_profile db' i = Store.has_profile db i.
Proof. unfold Store.has_profile. now intros ->. Qed.

Lemma NoDup_snoc {A : Type} (l : list A) (x : A) :
  NoDup l -> ~ In x l -> NoDup (l ++ [x]).
Proof.
  intros Hl Hx. induction Hl as [|y l Hy Hl IH]; simpl.
  - constructor; [intros []|constructor].
  - constructor.
    + rewrite in_app_iff. simpl. intros [H|[H|[]]]; [auto|].
      apply Hx. left. congruence.
    + apply IH. intros H. apply Hx. now right.
Qed.

Lemma events_update_ids uid a p target l :
  map Event.id
    (map (fun e => if Store.events_update_target uid target e
                   then Store.events_update_row a p e else e) l)
  = map Event.id l.
Proof.
  rewrite map_map. apply map_ext. intros e.
  now destruct (Store.events_update_target uid target e).
Qed.

Lemma events_insert_constraints uid a u title s e st :
  stmt_relates (fun db db' => constraints db -> constraints db')
    (Store.events_insert uid a u title s e st).
Proof.
  intros db db'. unfold Store.events_insert. simpl.
  destruct (negb (Policy.events_insert uid _)); [discriminate|].
  destruct (s <? e)%Z eqn:Hlt; [simpl|discriminate].
  destruct (Store.has_event db (gen_random_uuid a)) eqn:Hfresh; [discriminate|].
  destruct (Store.has_profile db u) eqn:Hu; [simpl|discriminate].
  intros [= <-] (Hp & Hm & Hpk & Hv & Hfk & Hrpk & Hrfk).
  unfold constraints, events_pk, valid_time_range, events_fk, swap_requests_fk.
  simpl. repeat split; try assumption.
  - rewrite map_app. apply NoDup_snoc; [exact Hpk|].
    intros Hin. apply has_event_In in Hin. simpl in Hin. congruence.
  - intros x Hx. apply in_app_iff in Hx. destruct Hx as [Hx|[<-|[]]].
    + now apply Hv.
    + simpl. now apply Z.ltb_lt.
  - intros x Hx. apply in_app_iff in Hx. destruct Hx as [Hx|[<-|[]]].
    + exact (Hfk x Hx).
    + exact Hu.
  - exact (proj1 (Hrfk r H)).
  - destruct (Hrfk r H) as (_ & H2 & _).
    apply has_event_In. simpl. rewrite map_app, in_app_iff. left.
    now apply has_event_In.
  - exact (proj1 (proj2 (proj2 (Hrfk r H)))).
  - destruct (Hrfk r H) as (_ & _ & _ & H4).
    apply has_event_In. simpl. rewrite map_app, in_app_iff. left.
    now apply has_event_In.
Qed.

Lemma events_update_constraints uid a p target :
  stmt_relates (fun db db' => constraints db -> constraints db')
    (Store.events_update uid a p target).
Proof.
  intros db db'. unfold Store.events_update.
  destruct (forallb _ _) eqn:F; [simpl|discriminate].
  destruct (match Event.set_user_id p with Some _ => _ | None => true end) eqn:K;
    [simpl|discriminate].
  intros [= <-] (Hp & Hm & Hpk & Hv & Hfk & Hrpk & Hrfk).
  unfold constraints, events_pk, valid_time_range, events_fk, swap_requests_fk.
  simpl. repeat split; try assumption.
  - now rewrite events_update_ids.
  - intros x Hx. apply in_map_iff in Hx. destruct Hx as (e0 & <- & He0).
    destruct (Store.events_update_target uid target e0); [simpl|]; now apply Hv.
  - intros x Hx. apply in_map_iff in Hx. destruct Hx as (e0 & <- & He0).
    destruct (Store.events_update_target uid target e0) eqn:T; [|exact (Hfk e0 He0)].
    unfold Store.has_profile. simpl.
    destruct (Event.set_user_id p) as [u|]; [|exact (Hfk e0 He0)].
    apply orb_true_iff in K. destruct K as [K|K]; [exact K|].
    assert (Hin : In e0 (filter (Store.events_update_target uid target) (events db)))
      by (apply filter_In; auto).
    destruct (filter _ _); [destruct Hin|discriminate].
  - exact (proj1 (Hrfk r H)).
  - destruct (Hrfk r H) as (_ & H2 & _).
    apply has_event_In. simpl. rewrite events_update_ids. now apply has_event_In.
  - exact (proj1 (proj2 (proj2 (Hrfk r H)))).
  - destruct (Hrfk r H) as (_ & _ & _ & H4).
    apply has_event_In. simpl. rewrite events_update_ids. now apply has_event_In.
Qed.

Lemma events_delete_constraints uid target :
  stmt_relates (fun db db' => constraints db -> constraints db')
    (Store.events_delete uid target).
Proof.
  intros db db'. unfold Store.events_delete.
  destruct (existsb _ _); intros [= <-]; [|tauto].
  intros (Hp & Hm & Hpk & Hv & Hfk & Hrpk & Hrfk).
  assert (Hstay : forall i, i <> target -> Store.has_event db i = true ->
            existsb (fun e => Event.id e =?u i)
              (filter (fun e => negb (Store.events_delete_target uid target e))
                 (events db)) = true).
  { intros i Hi H. unfold Store.has_event in H. apply existsb_exists in H.
    destruct H as (e & He & Hid). apply existsb_exists. exists e.
    split; [|exact Hid]. apply filter_In. split; [exact He|].
    apply uuid_eqb_eq in Hid. unfold Store.events_delete_target.
    replace (Event.id e =?u target) with false; [reflexivity|].
    symmetry. apply uuid_eqb_neq. congruence. }
  unfold constraints, events_pk, swap_requests_pk, valid_time_range, events_fk,
    swap_requests_fk. simpl.
  split; [exact Hp|]. split; [exact Hm|].
  split; [now apply NoDup_map_filter|].
  split; [intros e He; apply filter_In in He; apply Hv; tauto|].
  split; [intros e He; apply filter_In in He; apply (Hfk e); tauto|].
  split; [now apply NoDup_map_filter|].
  intros r Hr. apply filter_In in Hr. destruct Hr as [Hr Hkeep].
  destruct (Hrfk r Hr) as (H1 & H2 & H3 & H4).
  unfold SwapRequest.references in Hkeep.
  apply negb_true_iff, orb_false_iff in Hkeep. destruct Hkeep as [K1 K2].
  apply uuid_eqb_neq in K1, K2.
  unfold Store.has_event, Store.has_profile. simpl.
  repeat split; auto.
Qed.

Lemma swap_requests_insert_constraints uid a rq re o oe st :
  stmt_relates (fun db db' => constraints db -> constraints db')
    (Store.swap_requests_insert uid a rq re o oe st).
Proof.
  intros db db'. unfold Store.swap_requests_insert. simpl.
  destruct (negb (Policy.swap_requests_insert uid _)); [discriminate|].
  destruct (Store.has_swap_request db (gen_random_uuid a)) eqn:Hfresh; [discriminate|].
  destruct (_ && _) eqn:K; [simpl|discriminate].
  intros [= <-] (Hp & Hm & Hpk & Hv & Hfk & Hrpk & Hrfk).
  rewrite !andb_true_iff in K. destruct K as (((K1 & K2) & K3) & K4).
  unfold constraints, swap_requests_pk, swap_requests_fk. simpl.
  repeat split; try assumption.
  - rewrite map_app. apply NoDup_snoc; [exact Hrpk|].
    intros Hin. apply has_swap_request_In in Hin. simpl in Hin. congruence.
  - apply in_app_iff in H. destruct H as [H|[<-|[]]]; [exact (proj1 (Hrfk r H))|exact K1].
  - apply in_app_iff in H. destruct H as [H|[<-|[]]];
      [exact (proj1 (proj2 (Hrfk r H)))|exact K2].
  - apply in_app_iff in H. destruct H as [H|[<-|[]]];
      [exact (proj1 (proj2 (proj2 (Hrfk r H))))|exact K3].
  - apply in_app_iff in H. destruct H as [H|[<-|[]]];
      [exact (proj2 (proj2 (proj2 (Hrfk r H))))|exact K4].
Qed.

Lemma swap_requests_update_constraints uid a s target :
  stmt_relates (fun db db' => constraints db -> constraints db')
    (Store.swap_requests_update uid a s target).
Proof.
  intros db db'. unfold Store.swap_requests_update. intros [= <-].
  intros (Hp & Hm & Hpk & Hv & Hfk & Hrpk & Hrfk).
  unfold constraints, swap_requests_pk, swap_requests_fk. simpl.
  repeat split; try assumption.
  - rewrite map_map. erewrite map_ext; [exact Hrpk|].
    intros r. now destruct (Store.swap_requests_update_target uid target r).
  - apply in_map_iff in H. destruct H as (r0 & <- & Hr0).
    destruct (Store.swap_requests_update_target uid target r0);
      exact (proj1 (Hrfk r0 Hr0)).
  - apply in_map_iff in H. destruct H as (r0 & <- & Hr0).
    destruct (Store.swap_requests_update_target uid target r0);
      exact (proj1 (proj2 (Hrfk r0 Hr0))).
  - apply in_map_iff in H. destruct H as (r0 & <- & Hr0).
    destruct (Store.swap_requests_update_target uid target r0);
      exact (proj1 (proj2 (proj2 (Hrfk r0 Hr0)))).
  - apply in_map_iff in H. destruct H as (r0 & <- & Hr0).
    destruct (Store.swap_requests_update_target uid target r0);
      exact (proj2 (proj2 (proj2 (Hrfk r0 Hr0)))).
Qed.

Lemma jsstring_eqb_eq (a b : jsstring) : Signup.jsstring_eqb a b = true <-> a = b.
Proof.
  unfold Signup.jsstring_eqb. destruct (list_eq_dec N.eq_dec a b); split;
    congruence.
Qed.

Lemma handle_new_user_constraints a new :
  stmt_relates (fun db db' => constraints db -> constraints db')
    (Signup.handle_new_user a new).
Proof.
  intros db db'. unfold Signup.handle_new_user. simpl.
  destruct (Store.has_profile db (AuthUser.id new)) eqn:Hfresh; [discriminate|].
  destruct (existsb _ _) eqn:Hmail; [discriminate|].
  intros [= <-] (Hp & Hm & Hpk & Hv & Hfk & Hrpk & Hrfk).
  assert (Hmono : forall i, Store.has_profile db i = true ->
            existsb (fun p => Profile.id p =?u i)
              (profiles db ++
               [Profile.mk (AuthUser.id new)
                  (match AuthUser.name new with Some n => n | None => Signup.User end)
                  (AuthUser.email new) (now a)]) = true).
  { intros i H. rewrite existsb_app. unfold Store.has_profile in H. now rewrite H. }
  unfold constraints, profiles_pk, profiles_email_unique, events_fk, swap_requests_fk.
  unfold Store.has_profile, Store.has_event. simpl.
  split; [|split; [|repeat split; try assumption]].
  - rewrite map_app. apply NoDup_snoc; [exact Hp|].
    intros Hin. simpl in Hin. apply has_profile_In in Hin. congruence.
  - rewrite map_app. apply NoDup_snoc; [exact Hm|].
    intros Hin. apply in_map_iff in Hin. destruct Hin as (p & Hpe & Hpin).
    assert (existsb (fun p => Signup.jsstring_eqb (Profile.email p) (AuthUser.email new))
              (profiles db) = true) as Hex.
    { apply existsb_exists. exists p. split; [exact Hpin|].
      now apply jsstring_eqb_eq. }
    simpl in Hmail. congruence.
  - intros e He. apply Hmono. exact (Hfk e He).
  - apply Hmono. exact (proj1 (Hrfk r H)).
  - exact (proj1 (proj2 (Hrfk r H))).
  - apply Hmono. exact (proj1 (proj2 (proj2 (Hrfk r H)))).
  - exact (proj2 (proj2 (proj2 (Hrfk r H)))).
Qed.

Lemma constraints_refl : forall db : DB, constraints db -> constraints db.
Proof. auto. Qed.

Lemma constraints_trans (d1 d2 d3 : DB) :
  (constraints d1 -> constraints d2) -> (constraints d2 -> constraints d3) ->
  constraints d1 -> constraints d3.
Proof. auto. Qed.

(** X1: whatever a handler of the pages is given, and whichever of its
    statements fail or are lost, it leaves a store that satisfies the
    declared constraints (primary keys, unique e-mail, foreign keys,
    [valid_time_range]) if it found one; so does the profile trigger. *)
Theorem pages_keep_constraints (uid : uuid) (db db' : DB) :
  constraints db ->
  (forall Date a data out,
      Dashboard.handleSubmit Date uid a data db = (db', out) -> constraints db')
  /\ (forall a ev t,
        Dashboard.toggleSwappable uid a ev db = (db', t) -> constraints db')
  /\ (forall a eventId t,
        Dashboard.deleteEvent uid a eventId db = (db', t) -> constraints db')
  /\ (forall w selectedSlot myEventId t,
        Marketplace.requestSwap uid w selectedSlot myEventId db = (db', t) ->
        constraints db')
  /\ (forall w request accept t,
        Requests.handleResponse uid w request accept db = (db', t) ->
        constraints db')
  /\ (forall a new, Signup.handle_new_user a new db = Ok db' -> constraints db').
Proof.
  intros Hc. split; [|split; [|split; [|split; [|split]]]].
  - intros Date a data out H. revert Hc.
    eapply (handleSubmit_relates _ constraints_refl constraints_trans);
      [|exact H].
    intros; apply events_insert_constraints.
  - intros a ev t H. revert Hc.
    eapply (toggleSwappable_relates _ constraints_refl constraints_trans);
      [|exact H].
    intros; apply events_update_constraints.
  - intros a eventId t H. revert Hc.
    eapply (deleteEvent_relates _ constraints_refl constraints_trans);
      [|exact H].
    apply events_delete_constraints.
  - intros w sel my t H. revert Hc.
    eapply (requestSwap_relates _ constraints_refl constraints_trans);
      [| |exact H].
    + intros; apply swap_requests_insert_constraints.
    + intros; apply events_update_constraints.
  - intros w request accept t H. revert Hc.
    eapply (handleResponse_relates _ constraints_refl constraints_trans);
      [| |exact H].
    + intros; apply events_update_constraints.
    + intros; apply swap_requests_update_constraints.
  - intros a new H. now apply (handle_new_user_constraints a new db db' H).
Qed.

Lemma db_pending_constraints : constraints Sample.db_pending.
Proof.
  unfold constraints, profiles_pk, profiles_email_unique, events_pk,
    swap_requests_pk, valid_time_range, events_fk, swap_requests_fk.
  simpl.
  split; [distinct_keys|]. split; [distinct_keys|]. split; [distinct_keys|].
  split; [intros e [<-|[<-|[]]]; simpl; lia|].
  split; [intros e [<-|[<-|[]]]; reflexivity|].
  split; [distinct_keys|].
  intros r [<-|[]]. repeat split.
Qed.

(** Alice deletes her held slot: the request that named it goes with
    it, and the constraints still hold. *)
Lemma pages_keep_constraints_witness :
  exists db',
    Dashboard.deleteEvent "u1" (Sample.calm 0) "e1" Sample.db_pending
    = (db', toast_success "Event deleted")
    /\ swap_requests db' = []
    /\ constraints db'.
Proof.
  eexists. split; [reflexivity|]. split; [reflexivity|].
  exact (proj1 (proj2 (proj2
           (pages_keep_constraints "u1" Sample.db_pending _ db_pending_constraints)))
           (Sample.calm 0) "e1"%string _ eq_refl).
Defined.

(** ** The events of other profiles are out of reach *)

Lemma others_after_update uid a p target l :
  forallb (Policy.events_update uid)
    (map (Store.events_update_row a p)
       (filter (Store.events_update_target uid target) l)) = true ->
  filter (fun e => negb (Event.user_id e =?u uid))
    (map (fun e => if Store.events_update_target uid target e
                   then Store.events_update_row a p e else e) l)
  = filter (fun e => negb (Event.user_id e =?u uid)) l.
Proof.
  induction l as [|e l IH]; [reflexivity|].
  cbn [map filter]. destruct (Store.events_update_target uid target e) eqn:T.
  - cbn [map forallb filter]. intros F. apply andb_true_iff in F.
    destruct F as [F1 F2].
    unfold Policy.events_update in F1. rewrite uuid_eqb_sym in F1.
    unfold Store.events_update_target, Policy.events_update in T.
    apply andb_true_iff in T. destruct T as [_ T]. rewrite uuid_eqb_sym in T.
    rewrite F1, T. cbn [negb]. now apply IH.
  - intros F. cbn [filter]. now rewrite IH.
Qed.

Lemma events_update_others uid a p target :
  stmt_relates (fun db db' => others_events uid db' = others_events uid db)
    (Store.events_update uid a p target).
Proof.
  intros db db'. unfold Store.events_update.
  destruct (forallb _ _) eqn:F; [simpl|discriminate].
  destruct (negb _); [discriminate|]. intros [= <-].
  unfold others_events. simpl. now apply others_after_update.
Qed.

Lemma events_insert_others uid a title s e st :
  stmt_relates (fun db db' => others_events uid db' = others_events uid db)
    (Store.events_insert uid a uid title s e st).
Proof.
  intros db db'. unfold Store.events_insert.
  repeat match goal with
         | |- context [if ?c then _ else _] => destruct c; try discriminate
         end.
  intros [= <-]. unfold others_events. simpl.
  rewrite filter_app. simpl. rewrite uuid_eqb_refl. simpl. apply app_nil_r.
Qed.

Lemma events_delete_others uid target :
  stmt_relates (fun db db' => others_events uid db' = others_events uid db)
    (Store.events_delete uid target).
Proof.
  intros db db'. unfold Store.events_delete.
  destruct (existsb _ _); intros [= <-]; [|reflexivity].
  unfold others_events. simpl. apply filter_filter_implied.
  intros e _ H. unfold Store.events_delete_target, Policy.events_delete.
  rewrite (uuid_eqb_sym uid (Event.user_id e)). apply negb_true_iff in H.
  rewrite H. now rewrite andb_false_r.
Qed.

Lemma swap_requests_insert_events uid a rq re o oe st db db' :
  Store.swap_requests_insert uid a rq re o oe st db = Ok db' ->
  events db' = events db.
Proof.
  unfold Store.swap_requests_insert.
  repeat match goal with
         | |- context [if ?c then _ else _] => destruct c; try discriminate
         end.
  now intros [= <-].
Qed.

Lemma swap_requests_update_events uid a s target db db' :
  Store.swap_requests_update uid a s target db = Ok db' ->
  events db' = events db.
Proof. unfold Store.swap_requests_update. now intros [= <-]. Qed.

(** X2: no handler, whatever it is given and whatever fails, changes,
    adds or removes an event that belongs to a profile other than the
    user it runs for. *)
Theorem other_profiles_events_untouched (uid : uuid) (db db' : DB) :
  (forall Date a data out,
      Dashboard.handleSubmit Date uid a data db = (db', out) ->
      others_events uid db' = others_events uid db)
  /\ (forall a ev t,
        Dashboard.toggleSwappable uid a ev db = (db', t) ->
        others_events uid db' = others_events uid db)
  /\ (forall a eventId t,
        Dashboard.deleteEvent uid a eventId db = (db', t) ->
        others_events uid db' = others_events uid db)
  /\ (forall w selectedSlot myEventId t,
        Marketplace.requestSwap uid w selectedSlot myEventId db = (db', t) ->
        others_events uid db' = others_events uid db)
  /\ (forall w request accept t,
        Requests.handleResponse uid w request accept db = (db', t) ->
        others_events uid db' = others_events uid db).
Proof.
  assert (Hrefl : forall d : DB, others_events uid d = others_events uid d)
    by reflexivity.
  assert (Htrans : forall d1 d2 d3 : DB,
             others_events uid d2 = others_events uid d1 ->
             others_events uid d3 = others_events uid d2 ->
             others_events uid d3 = others_events uid d1)
    by (intros; congruence).
  split; [|split; [|split; [|split]]].
  - intros Date a data out H.
    eapply (handleSubmit_relates
              (fun d d' => others_events uid d' = others_events uid d) Hrefl Htrans);
      [|exact H].
    intros; apply events_insert_others.
  - intros a ev t H.
    eapply (toggleSwappable_relates
              (fun d d' => others_events uid d' = others_events uid d) Hrefl Htrans);
      [|exact H].
    intros; apply events_update_others.
  - intros a eventId t H.
    eapply (deleteEvent_relates
              (fun d d' => others_events uid d' = others_events uid d) Hrefl Htrans);
      [|exact H].
    apply events_delete_others.
  - intros w sel my t H.
    eapply (requestSwap_relates
              (fun d d' => others_events uid d' = others_events uid d) Hrefl Htrans);
      [| |exact H].
    + intros a o oe d d' Hs. unfold others_events.
      now rewrite (swap_requests_insert_events _ _ _ _ _ _ _ _ _ Hs).
    + intros; apply events_update_others.
  - intros w request accept t H.
    eapply (handleResponse_relates
              (fun d d' => others_events uid d' = others_events uid d) Hrefl Htrans);
      [| |exact H].
    + intros; apply events_update_others.
    + intros a s target d d' Hs. unfold others_events.
      now rewrite (swap_requests_update_events _ _ _ _ _ _ Hs).
Qed.

(** Alice's request reports success and Bob's slot is as it was. *)
Lemma other_profiles_events_untouched_witness :
  exists db',
    Marketplace.requestSwap "u1" Sample.calm (Some Sample.bobs_slot) "e1"
      Sample.db_offered
    = (db', Some (toast_success "Swap request sent!"))
    /\ others_events "u1" db' = [Sample.slot "e2" "u2" SWAPPABLE].
Proof.
  eexists. split; [reflexivity|].
  rewrite (proj1 (proj2 (proj2 (proj2
             (other_profiles_events_untouched "u1" Sample.db_offered _))))
             Sample.calm (Some Sample.bobs_slot) "e1"%string _ eq_refl).
  reflexivity.
Defined.

(** ** What an event was created with stays *)

Lemma events_update_details uid a p target :
  stmt_relates (fun db db' => map details (events db') = map details (events db))
    (Store.events_update uid a p target).
Proof.
  intros db db'. unfold Store.events_update.
  destruct (negb (forallb _ _)); [discriminate|].
  destruct (negb _); [discriminate|]. intros [= <-]. simpl.
  rewrite map_map. apply map_ext. intros e.
  now destruct (Store.events_update_target uid target e).
Qed.

Lemma details_kept_refl (d : DB) :
  Permutation (map details (events d)) (map details (events d)).
Proof. apply Permutation_refl. Qed.

Lemma details_kept_trans (d1 d2 d3 : DB) :
  Permutation (map details (events d2)) (map details (events d1)) ->
  Permutation (map details (events d3)) (map details (events d2)) ->
  Permutation (map details (events d3)) (map details (events d1)).
Proof. intros H1 H2. eapply perm_trans; eassumption. Qed.

Lemma events_update_details_kept uid a p target :
  stmt_relates
    (fun db db' => Permutation (map details (events db')) (map details (events db)))
    (Store.events_update uid a p target).
Proof.
  intros db db' H. rewrite (events_update_details uid a p target db db' H).
  apply Permutation_refl.
Qed.

(** X3: marking an event, requesting a swap and answering a request
    never add or remove an event and never change the id, the title,
    the times or the creation stamp of an event, whatever they are
    given and whatever fails: the events are, up to their order in the
    table, those that were there, with the same details.  Deleting an
    event adds none and leaves every event that remains exactly as it
    was. *)
Theorem event_details_never_change (uid : uuid) (db db' : DB) :
  (forall a ev t,
      Dashboard.toggleSwappable uid a ev db = (db', t) ->
      Permutation (map details (events db')) (map details (events db)))
  /\ (forall w selectedSlot myEventId t,
        Marketplace.requestSwap uid w selectedSlot myEventId db = (db', t) ->
        Permutation (map details (events db')) (map details (events db)))
  /\ (forall w request accept t,
        Requests.handleResponse uid w request accept db = (db', t) ->
        Permutation (map details (events db')) (map details (events db)))
  /\ (forall a eventId t,
        Dashboard.deleteEvent uid a eventId db = (db', t) ->
        forall e, In e (events db') -> In e (events db)).
Proof.
  split; [|split; [|split]].
  - intros a ev t H.
    eapply (toggleSwappable_relates
              (fun d d' => Permutation (map details (events d')) (map details (events d)))
              details_kept_refl details_kept_trans); [|exact H].
    intros; apply events_update_details_kept.
  - intros w sel my t H.
    eapply (requestSwap_relates
              (fun d d' => Permutation (map details (events d')) (map details (events d)))
              details_kept_refl details_kept_trans); [| |exact H].
    + intros a o oe d d' Hs.
      rewrite (swap_requests_insert_events _ _ _ _ _ _ _ _ _ Hs).
      apply Permutation_refl.
    + intros; apply events_update_details_kept.
  - intros w request accept t H.
    eapply (handleResponse_relates
              (fun d d' => Permutation (map details (events d')) (map details (events d)))
              details_kept_refl details_kept_trans); [| |exact H].
    + intros; apply events_update_details_kept.
    + intros a s target d d' Hs.
      rewrite (swap_requests_update_events _ _ _ _ _ _ Hs).
      apply Permutation_refl.
  - intros a eventId t. unfold Dashboard.deleteEvent. run_handler.
    destruct (net_ok a); [|intros [= <- _]; auto].
    unfold Store.events_delete. destruct (existsb _ _); intros [= <- _]; [|auto].
    simpl. intros e He. apply filter_In in He. tauto.
Qed.

(** Bob rejects: the two slots are there under the same ids, titles
    and times. *)
Lemma event_details_never_change_witness :
  exists db',
    Requests.handleResponse "u2" Sample.calm (Sample.request_view PENDING) false
      Sample.db_pending
    = (db', toast_info "Swap request rejected.")
    /\ Permutation (map details (events db'))
         [("e1"%string, [83%N], 1000%Z, 2000%Z, 10%Z);
          ("e2"%string, [83%N], 1000%Z, 2000%Z, 10%Z)].
Proof.
  eexists. split; [reflexivity|].
  exact (proj1 (proj2 (proj2
           (event_details_never_change "u2" Sample.db_pending _)))
           Sample.calm (Sample.request_view PENDING) false _ eq_refl).
Defined.

(** ** What the pages can do to a request *)

Lemma events_update_requests uid a p target db db' :
  Store.events_update uid a p target db = Ok db' ->
  swap_requests db' = swap_requests db.
Proof.
  unfold Store.events_update.
  destruct (negb (forallb _ _)); [discriminate|].
  destruct (negb _); [discriminate|]. now intros [= <-].
Qed.

Lemma swap_requests_update_filter uid a s target (q : SwapRequest.t -> bool) l :
  (forall r, Store.swap_requests_update_target uid target r = true ->
     q r = false
     /\ q (SwapRequest.handle_updated_at (now a) (SwapRequest.with_status s r)) = false) ->
  filter q
    (map (fun r => if Store.swap_requests_update_target uid target r
                   then SwapRequest.handle_updated_at (now a)
                          (SwapRequest.with_status s r)
                   else r) l)
  = filter q l.
Proof.
  intros Hq. induction l as [|r l IH]; [reflexivity|].
  cbn [map filter].
  destruct (Store.swap_requests_update_target uid target r) eqn:T.
  - destruct (Hq r T) as [-> ->]. exact IH.
  - now rewrite IH.
Qed.

(** X4: an answer to a request, whatever it is given and whatever
    fails, neither adds nor removes a request and leaves the parties,
    the two events and the creation stamp of every request as they
    were; it leaves untouched every request the user is not the owner
    of, and every request other than the one answered. *)
Theorem response_changes_one_status
    (uid : uuid) (w : nat -> ambient) (request : Requests.SwapRequest.t)
    (accept : bool) (db db' : DB) (t : toast) :
  Requests.handleResponse uid w request accept db = (db', t) ->
  map parties (swap_requests db') = map parties (swap_requests db)
  /\ others_requests uid db' = others_requests uid db
  /\ filter (fun r => negb (SwapRequest.id r =?u Requests.SwapRequest.id request))
       (swap_requests db')
     = filter (fun r => negb (SwapRequest.id r =?u Requests.SwapRequest.id request))
         (swap_requests db).
Proof.
  set (R := fun d d' : DB =>
         map parties (swap_requests d') = map parties (swap_requests d)
         /\ others_requests uid d' = others_requests uid d
         /\ filter (fun r => negb (SwapRequest.id r =?u Requests.SwapRequest.id request))
              (swap_requests d')
            = filter (fun r => negb (SwapRequest.id r =?u Requests.SwapRequest.id request))
                (swap_requests d)).
  assert (Hrefl : forall d, R d d) by (intros d; repeat split).
  assert (Htrans : forall d1 d2 d3, R d1 d2 -> R d2 d3 -> R d1 d3).
  { intros d1 d2 d3 (A1 & A2 & A3) (B1 & B2 & B3). unfold R.
    rewrite B1, B2, B3. auto. }
  intros H. unfold Requests.handleResponse in H.
  assert (Hu : forall a p target, stmt_relates R (Store.events_update uid a p target)).
  { intros a p target d d' Hs. unfold R, others_requests.
    rewrite (events_update_requests _ _ _ _ _ _ Hs). auto. }
  assert (Hr : forall a s, stmt_relates R
            (Store.swap_requests_update uid a s (Requests.SwapRequest.id request))).
  { intros a s d d'. unfold Store.swap_requests_update. intros [= <-].
    unfold R, others_requests. simpl. split; [|split].
    - rewrite map_map. apply map_ext. intros r.
      now destruct (Store.swap_requests_update_target uid _ r).
    - apply swap_requests_update_filter. intros r T.
      unfold Store.swap_requests_update_target, Policy.swap_requests_update in T.
      apply andb_true_iff in T. destruct T as [_ T].
      simpl. rewrite (uuid_eqb_sym (SwapRequest.owner_id r) uid), T. auto.
    - apply swap_requests_update_filter. intros r T.
      unfold Store.swap_requests_update_target in T.
      apply andb_true_iff in T. destruct T as [T _].
      simpl. rewrite T. auto. }
  revert H. apply (relates_try_catch R).
  destruct accept;
    repeat (apply (relates_bind R Htrans);
            [apply (relates_await R Hrefl); auto|intros _]);
    apply (relates_ret R Hrefl).
Qed.

(** Alice tries to answer the request she sent herself: the request
    stays as it is. *)
Lemma response_changes_one_status_witness :
  exists db',
    Requests.handleResponse "u1" Sample.calm (Sample.request_view PENDING) false
      Sample.db_pending
    = (db', toast_info "Swap request rejected.")
    /\ others_requests "u1" db' = [Sample.request PENDING].
Proof.
  eexists. split; [reflexivity|].
  rewrite (proj1 (proj2
             (response_changes_one_status "u1" Sample.calm
                (Sample.request_view PENDING) false Sample.db_pending _ _ eq_refl))).
  reflexivity.
Defined.

Lemma swap_requests_insert_row uid a rq re o oe st db db' :
  Store.swap_requests_insert uid a rq re o oe st db = Ok db' ->
  swap_requests db'
  = swap_requests db ++ [SwapRequest.mk (gen_random_uuid a) rq re o oe st (now a) (now a)]
  /\ uid = rq
  /\ Store.has_event db re = true /\ Store.has_event db oe = true
  /\ Store.has_profile db rq = true /\ Store.has_profile db o = true
  /\ Store.has_swap_request db (gen_random_uuid a) = false.
Proof.
  unfold Store.swap_requests_insert, Policy.swap_requests_insert. simpl.
  destruct (uid =?u rq) eqn:U; [simpl|discriminate].
  destruct (Store.has_swap_request db (gen_random_uuid a)); [discriminate|].
  destruct (_ && _) eqn:K; [simpl|discriminate].
  rewrite !andb_true_iff in K. apply uuid_eqb_eq in U.
  intros [= <-]. simpl. tauto.
Qed.

(** X5: a swap request from the marketplace, whatever it is given and
    whatever fails, changes no existing request and adds at most one:
    a [PENDING] one, in the name of the user it runs for, for the
    selected slot, between two events that are in the store. *)
Theorem request_adds_one_pending
    (uid : uuid) (w : nat -> ambient) (selectedSlot : option MarketplaceEvent.t)
    (myEventId : uuid) (db db' : DB) (t : option toast) :
  Marketplace.requestSwap uid w selectedSlot myEventId db = (db', t) ->
  swap_requests db' = swap_requests db
  \/ exists slot,
       selectedSlot = Some slot
       /\ swap_requests db'
          = swap_requests db ++
            [SwapRequest.mk (gen_random_uuid (w 0)) uid myEventId
               (MarketplaceEvent.user_id slot) (MarketplaceEvent.id slot)
               PENDING (now (w 0)) (now (w 0))]
       /\ Store.has_event db myEventId = true
       /\ Store.has_event db (MarketplaceEvent.id slot) = true.
Proof.
  unfold Marketplace.requestSwap.
  destruct selectedSlot as [slot|]; [|intros [= <- _]; now left].
  intros H. apply three_statements in H.
  destruct H as [(_ & -> & _)|[(db1 & A0 & _ & -> & _)
                |[(db1 & db2 & A0 & A1 & _ & -> & _)
                |(db1 & db2 & A0 & A1 & A2 & _)]]];
    [now left| | | ];
    right; exists slot; (split; [reflexivity|]);
    destruct A0 as [_ A0]; apply swap_requests_insert_row in A0;
    destruct A0 as (Hrow & _ & He1 & He2 & _).
  - auto.
  - destruct A1 as [_ A1]. apply events_update_requests in A1.
    rewrite A1. auto.
  - destruct A1 as [_ A1]. apply events_update_requests in A1.
    destruct A2 as [_ A2]. apply events_update_requests in A2.
    rewrite A2, A1. auto.
Qed.

(** Alice's request for Bob's slot is the one row added. *)
Lemma request_adds_one_pending_witness :
  exists db',
    Marketplace.requestSwap "u1" Sample.calm (Some Sample.bobs_slot) "e1"
      Sample.db_offered
    = (db', Some (toast_success "Swap request sent!"))
    /\ swap_requests db' = [SwapRequest.mk "r1" "u1" "e1" "u2" "e2" PENDING 30 30].
Proof.
  eexists. split; [reflexivity|].
  destruct (request_adds_one_pending "u1" Sample.calm (Some Sample.bobs_slot) "e1"
              Sample.db_offered _ _ eq_refl) as [H|(slot & Hs & H & _)].
  - vm_compute in H. discriminate H.
  - injection Hs as <-. rewrite H. reflexivity.
Defined.

(** ** Trimming *)

Lemma trimStart_head s c s' :
  Dashboard.trimStart s = c :: s' -> Dashboard.is_white_space c = false.
Proof.
  induction s as [|x s IH]; simpl; [discriminate|].
  destruct (Dashboard.is_white_space x) eqn:W; [exact IH|].
  intros [= <- _]. exact W.
Qed.

Lemma trimStart_suffix s : exists p, s = p ++ Dashboard.trimStart s.
Proof.
  induction s as [|x s [p IH]]; simpl; [now exists []|].
  destruct (Dashboard.is_white_space x).
  - exists (x :: p). simpl. now f_equal.
  - now exists [].
Qed.

Lemma trimStart_fixed s :
  (forall c s', s = c :: s' -> Dashboard.is_white_space c = false) ->
  Dashboard.trimStart s = s.
Proof.
  destruct s as [|c s]; simpl; [reflexivity|].
  intros H. now rewrite (H c s eq_refl).
Qed.

Lemma trimEnd_last s c s' :
  Dashboard.trimEnd s = s' ++ [c] -> Dashboard.is_white_space c = false.
Proof.
  unfold Dashboard.trimEnd. intros H.
  apply (f_equal (@rev N)) in H. rewrite rev_involutive, rev_app_distr in H.
  simpl in H. eapply trimStart_head. exact H.
Qed.

Lemma trimEnd_prefix s : exists q, s = Dashboard.trimEnd s ++ q.
Proof.
  unfold Dashboard.trimEnd. destruct (trimStart_suffix (rev s)) as [p H].
  exists (rev p). apply (f_equal (@rev N)) in H.
  now rewrite rev_involutive, rev_app_distr in H.
Qed.

Lemma trimEnd_fixed s :
  (forall c s', s = s' ++ [c] -> Dashboard.is_white_space c = false) ->
  Dashboard.trimEnd s = s.
Proof.
  intros H. unfold Dashboard.trimEnd. rewrite trimStart_fixed.
  - apply rev_involutive.
  - intros c s' E. apply (H c (rev s')).
    apply (f_equal (@rev N)) in E. rewrite rev_involutive in E. exact E.
Qed.

Lemma trim_trimmed s : trimmed (Dashboard.trim s).
Proof.
  unfold Dashboard.trim. split.
  - intros c s' E. destruct (trimEnd_prefix (Dashboard.trimStart s)) as [q Hq].
    rewrite E in Hq. simpl in Hq. eapply trimStart_head. exact Hq.
  - intros c s' E. eapply trimEnd_last. exact E.
Qed.

Lemma trim_fixed s : trimmed s -> Dashboard.trim s = s.
Proof.
  intros [H1 H2]. unfold Dashboard.trim.
  rewrite (trimStart_fixed s H1). now apply trimEnd_fixed.
Qed.

Lemma trim_idempotent s : Dashboard.trim (Dashboard.trim s) = Dashboard.trim s.
Proof. apply trim_fixed, trim_trimmed. Qed.

Lemma trim_length s : List.length (Dashboard.trim s) <= List.length s.
Proof.
  unfold Dashboard.trim.
  destruct (trimEnd_prefix (Dashboard.trimStart s)) as [q Hq].
  destruct (trimStart_suffix s) as [p Hp].
  apply (f_equal (@List.length N)) in Hq, Hp.
  rewrite length_app in Hq, Hp. lia.
Qed.

(** ** The event form, end to end *)

(** X6: the title the form hands over is trimmed, and parsing what the
    schema returned gives it back unchanged: validated data stays
    valid and is not altered a second time. *)
Theorem eventSchema_idempotent
    (Date : jsstring -> option instant) (data parsed : Dashboard.EventFormData) :
  Dashboard.eventSchema Date data = Some parsed ->
  trimmed (Dashboard.title parsed)
  /\ List.length (Dashboard.title parsed) <= List.length (Dashboard.title data)
  /\ Dashboard.startTime parsed = Dashboard.startTime data
  /\ Dashboard.endTime parsed = Dashboard.endTime data
  /\ Dashboard.eventSchema Date parsed = Some parsed.
Proof.
  unfold Dashboard.eventSchema.
  destruct (_ && _) eqn:K; [|discriminate]. intros [= <-].
  cbn [Dashboard.title Dashboard.startTime Dashboard.endTime].
  split; [apply trim_trimmed|]. split; [apply trim_length|].
  split; [reflexivity|]. split; [reflexivity|].
  rewrite trim_idempotent, K. reflexivity.
Qed.

Lemma eventSchema_idempotent_witness :
  Dashboard.eventSchema Sample.Date (Dashboard.mkForm [32; 72; 105; 32]%N [5%N] [9%N])
  = Some (Dashboard.mkForm [72; 105]%N [5%N] [9%N])
  /\ Dashboard.eventSchema Sample.Date (Dashboard.mkForm [72; 105]%N [5%N] [9%N])
     = Some (Dashboard.mkForm [72; 105]%N [5%N] [9%N]).
Proof.
  split; [reflexivity|].
  exact (proj2 (proj2 (proj2 (proj2
           (eventSchema_idempotent Sample.Date
              (Dashboard.mkForm [32; 72; 105; 32]%N [5%N] [9%N])
              (Dashboard.mkForm [72; 105]%N [5%N] [9%N]) eq_refl))))).
Defined.

(** X7: what a reported creation implies.  The form reports success
    only if the schema accepted the data, the insert reached the
    store, the user has a profile and the generated id was not yet an
    event's; the store then holds, besides the events it had, exactly
    one more: under that id, owned by the user, titled with the
    trimmed title, at the two instants read from the form, [BUSY],
    created and updated at the time of the insert. *)
Theorem creation_success_implies
    (Date : jsstring -> option instant) (uid : uuid) (a : ambient)
    (data : Dashboard.EventFormData) (db db' : DB) :
  Dashboard.handleSubmit Date uid a data db
  = (db', Dashboard.Submitted (toast_success "Event created successfully")) ->
  (exists parsed, Dashboard.eventSchema Date data = Some parsed)
  /\ net_ok a = true
  /\ Store.has_profile db uid = true
  /\ Store.has_event db (gen_random_uuid a) = false
  /\ exists s e,
       Date (Dashboard.startTime data) = Some s
       /\ Date (Dashboard.endTime data) = Some e
       /\ (s < e)%Z
       /\ Permutation (events db')
            (Event.mk (gen_random_uuid a) uid (Dashboard.trim (Dashboard.title data))
               s e BUSY (now a) (now a) :: events db)
       /\ profiles db' = profiles db
       /\ swap_requests db' = swap_requests db.
Proof.
  unfold Dashboard.handleSubmit.
  destruct (Dashboard.eventSchema Date data) as [parsed|] eqn:Es; [|discriminate].
  destruct (eventSchema_Some Date data parsed Es) as (_ & s & e & Ds & De & Hlt).
  assert (Hp : parsed = Dashboard.mkForm (Dashboard.trim (Dashboard.title data))
                          (Dashboard.startTime data) (Dashboard.endTime data)).
  { unfold Dashboard.eventSchema in Es. destruct (_ && _) in Es; congruence. }
  subst parsed.
  unfold Dashboard.onSubmit, Dashboard.toISOString. run_handler.
  cbn [Dashboard.title Dashboard.startTime Dashboard.endTime].
  rewrite Ds, De.
  destruct (net_ok a); [|discriminate].
  unfold Store.events_insert.
  destruct (negb (Policy.events_insert uid _)); [discriminate|].
  destruct (negb _); [discriminate|].
  destruct (Store.has_event db _) eqn:Hf; [discriminate|].
  destruct (Store.has_profile db uid) eqn:Hprof; [|discriminate].
  simpl. intros [= <-]. simpl in Hf.
  split; [eauto|]. repeat split; try assumption.
  exists s, e. repeat split; try assumption.
  simpl. apply Permutation_sym, Permutation_cons_append.
Qed.

Lemma creation_success_implies_witness :
  exists db',
    Dashboard.handleSubmit Sample.Date "u1" (mkAmbient true 30 "e3")
      (Dashboard.mkForm [32; 72; 105; 32]%N [5%N] [9%N]) Sample.db_offered
    = (db', Dashboard.Submitted (toast_success "Event created successfully"))
    /\ Permutation (events db')
         (Event.mk "e3" "u1" [72; 105]%N 5 9 BUSY 30 30 :: events Sample.db_offered).
Proof.
  eexists. split; [reflexivity|].
  destruct (creation_success_implies Sample.Date "u1" (mkAmbient true 30 "e3")
              (Dashboard.mkForm [32; 72; 105; 32]%N [5%N] [9%N])
              Sample.db_offered _ eq_refl)
    as (_ & _ & _ & _ & s & e & Hs & He & _ & Hperm & _).
  injection Hs as <-. injection He as <-. exact Hperm.
Defined.

(** ** The lists the pages load *)

Lemma own_events_In uid db e :
  In e (DashboardList.own_events uid db) <->
  In e (events db) /\ Event.user_id e = uid.
Proof.
  unfold DashboardList.own_events, Store.events_visible.
  rewrite order_by_start_time_In, !filter_In, uuid_eqb_eq.
  unfold Policy.events_select, Policy.view_own_events.
  split; [tauto|]. intros [Hin Hu]. repeat split; auto.
  rewrite Hu, uuid_eqb_refl. reflexivity.
Qed.

Lemma filter_visible_own uid l :
  filter (fun e => Event.user_id e =?u uid) (filter (Policy.events_select uid) l)
  = filter (fun e => Event.user_id e =?u uid) l.
Proof.
  apply filter_filter_implied. intros e _ H.
  unfold Policy.events_select, Policy.view_own_events.
  rewrite uuid_eqb_sym, H. reflexivity.
Qed.

(** X8: the dashboard loads exactly the user's own events, whatever
    their status, each once, in ascending order of start time; it
    shows the empty-calendar card exactly when the user has none. *)
Theorem dashboard_lists_own_events (uid : uuid) (a : ambient) (db : DB) :
  net_ok a = true ->
  exists rows,
    DashboardList.fetchEvents uid a db = Ok rows
    /\ Permutation rows (filter (fun e => Event.user_id e =?u uid) (events db))
    /\ ascending rows
    /\ (forall e, In e rows <-> In e (events db) /\ Event.user_id e = uid)
    /\ (DashboardList.render false rows = DashboardList.NoEventsYet <->
        forall e, In e (events db) -> Event.user_id e <> uid).
Proof.
  intros Hnet. exists (DashboardList.own_events uid db).
  split; [unfold DashboardList.fetchEvents; now rewrite Hnet|].
  split.
  { unfold DashboardList.own_events, Store.events_visible.
    rewrite filter_visible_own. apply order_by_start_time_perm. }
  split; [apply order_by_start_time_ascending|].
  split; [intros e; apply own_events_In|].
  unfold DashboardList.render.
  destruct (DashboardList.own_events uid db) as [|x l] eqn:E.
  - split; [intros _ e He Hu|reflexivity].
    assert (In e (DashboardList.own_events uid db)) as Hin
      by (apply own_events_In; auto).
    rewrite E in Hin. exact Hin.
  - split; [discriminate|]. intros H. exfalso.
    assert (In x (DashboardList.own_events uid db)) as Hin
      by (rewrite E; now left).
    apply own_events_In in Hin. destruct Hin as [Hin Hu]. exact (H x Hin Hu).
Qed.

Lemma dashboard_lists_own_events_witness :
  DashboardList.fetchEvents "u1" (Sample.calm 0) Sample.db_three
  = Ok [Sample.slot "e1" "u1" SWAP_PENDING; Sample.slot "e3" "u1" BUSY].
Proof.
  destruct (dashboard_lists_own_events "u1" (Sample.calm 0) Sample.db_three eq_refl)
    as (rows & Hrun & _).
  rewrite Hrun. vm_compute in Hrun. injection Hrun as <-. reflexivity.
Defined.

Lemma filter_split {A : Type} (p q : A -> bool) (l : list A) :
  Permutation
    (filter (fun x => p x && negb (q x)) l ++ filter (fun x => q x && p x) l)
    (filter p l).
Proof.
  induction l as [|x l IH]; simpl; [constructor|].
  destruct (p x), (q x); simpl; auto.
  eapply perm_trans; [apply Permutation_sym, Permutation_middle|].
  now apply perm_skip.
Qed.

(** X9: for every user, the slots the marketplace offers and the slots
    the user can give in exchange are, together, exactly the
    [SWAPPABLE] events of the store, each once: every swappable event
    is in one of the two lists and none is in both. *)
Theorem swappable_events_split (uid : uuid) (db : DB) :
  Permutation
    (Marketplace.available_slots uid db ++ Marketplace.my_swappable_slots uid db)
    (filter (fun e => event_status_eqb (Event.status e) SWAPPABLE) (events db))
  /\ (forall e, In e (Marketplace.available_slots uid db) ->
        ~ In e (Marketplace.my_swappable_slots uid db)).
Proof.
  split.
  - eapply perm_trans;
      [|apply (filter_split
                 (fun e => event_status_eqb (Event.status e) SWAPPABLE)
                 (fun e => Event.user_id e =?u uid))].
    apply Permutation_app.
    + apply available_slots_filter.
    + unfold Marketplace.my_swappable_slots, Store.events_visible.
      eapply perm_trans; [apply order_by_start_time_perm|].
      rewrite filter_filter_implied; [apply Permutation_refl|].
      intros e _ H. apply andb_true_iff in H. destruct H as [H _].
      unfold Policy.events_select, Policy.view_own_events.
      rewrite uuid_eqb_sym, H. reflexivity.
  - intros e H1 H2. apply available_slots_In in H1.
    apply my_swappable_slots_In in H2. tauto.
Qed.

Lemma swappable_events_split_witness :
  In (Sample.slot "e2" "u2" SWAPPABLE) (Marketplace.available_slots "u1" Sample.db_offered)
  /\ ~ In (Sample.slot "e2" "u2" SWAPPABLE)
         (Marketplace.my_swappable_slots "u1" Sample.db_offered).
Proof.
  assert (H : In (Sample.slot "e2" "u2" SWAPPABLE)
                (Marketplace.available_slots "u1" Sample.db_offered))
    by (vm_compute; auto).
  split; [exact H|].
  exact (proj2 (swappable_events_split "u1" Sample.db_offered) _ H).
Defined.

(** ** Marking an event, and what the lists show afterwards *)

Lemma toggle_button_writes uid a ev db :
  Event.status ev <> SWAP_PENDING -> net_ok a = true ->
  Dashboard.toggle_button uid a ev db
  = (with_events
       (map (fun e => if Store.events_update_target uid (Event.id ev) e
                      then Store.events_update_row a
                             (Event.mk_patch None
                                (Some (if event_status_eqb (Event.status ev) BUSY
                                       then SWAPPABLE else BUSY))) e
                      else e) (events db)) db,
     Some (toast_success
             (String.append "Event marked as "
                (Dashboard.toLowerCase
                   (if event_status_eqb (Event.status ev) BUSY
                    then SWAPPABLE else BUSY))))).
Proof.
  intros Hst Hnet. unfold Dashboard.toggle_button, Dashboard.disabled.
  destruct (event_status_eqb (Event.status ev) SWAP_PENDING) eqn:E.
  - apply event_status_eqb_eq in E. contradiction.
  - now rewrite toggleSwappable_writes.
Qed.

(** X10: two clicks on the toggle button of an event the user owns,
    the second on the row as it is after the first, give the event its
    first status back; only its update stamp has moved, and no other
    event has changed. *)
Theorem toggle_twice_restores
    (uid : uuid) (a1 a2 : ambient) (ev : Event.t) (db : DB) :
  events_pk db -> In ev (events db) -> Event.user_id ev = uid ->
  Event.status ev <> SWAP_PENDING ->
  net_ok a1 = true -> net_ok a2 = true ->
  exists db1 ev1 db2 t1 t2,
    Dashboard.toggle_button uid a1 ev db = (db1, Some t1)
    /\ Store.find_event (Event.id ev) db1 = Some ev1
    /\ Event.status ev1 <> Event.status ev
    /\ Dashboard.toggle_button uid a2 ev1 db1 = (db2, Some t2)
    /\ Store.find_event (Event.id ev) db2
       = Some (Event.mk (Event.id ev) (Event.user_id ev) (Event.title ev)
                 (Event.start_time ev) (Event.end_time ev) (Event.status ev)
                 (Event.created_at ev) (now a2))
    /\ (forall i, i <> Event.id ev -> Store.find_event i db2 = Store.find_event i db)
    /\ swap_requests db2 = swap_requests db.
Proof.
  intros Hpk Hin Hown Hst Hn1 Hn2.
  set (s1 := if event_status_eqb (Event.status ev) BUSY then SWAPPABLE else BUSY).
  set (ev1 := Store.events_update_row a1 (Event.mk_patch None (Some s1)) ev).
  assert (Hst1 : Event.status ev1 <> SWAP_PENDING).
  { subst ev1 s1. simpl. destruct (event_status_eqb (Event.status ev) BUSY); discriminate. }
  assert (Hhit : Store.events_update_target uid (Event.id ev) ev = true)
    by now apply events_update_target_own.
  assert (Hhit1 : Store.events_update_target uid (Event.id ev) ev1 = true)
    by (apply (events_update_target_own uid ev1); exact Hown).
  eexists. exists ev1. eexists. eexists. eexists.
  split; [apply toggle_button_writes; assumption|].
  split.
  { rewrite find_event_after_update, find_event_In by assumption.
    simpl. now rewrite Hhit. }
  split.
  { subst ev1 s1. simpl.
    destruct (Event.status ev); simpl; discriminate. }
  split; [apply toggle_button_writes; assumption|].
  split; [|split; [|reflexivity]].
  - change (Event.id ev1) with (Event.id ev).
    rewrite find_event_after_update, find_event_after_update,
      find_event_In by assumption.
    simpl. rewrite Hhit.
    change (Store.events_update_target uid (Event.id ev)
              (Store.events_update_row a1
                 {| Event.set_user_id := None;
                    Event.set_status :=
                      Some (if event_status_eqb (Event.status ev) BUSY
                            then SWAPPABLE else BUSY) |} ev))
      with (Store.events_update_target uid (Event.id ev) ev1).
    rewrite Hhit1. unfold Store.events_update_row. simpl.
    destruct (Event.status ev); simpl; try reflexivity. now elim Hst.
  - intros i Hi. change (Event.id ev1) with (Event.id ev).
    rewrite find_event_after_update_other by assumption.
    now apply find_event_after_update_other.
Qed.

Lemma toggle_twice_restores_witness :
  exists db1 ev1 db2 t1 t2,
    Dashboard.toggle_button "u2" (mkAmbient true 40 "") (Sample.slot "e2" "u2" BUSY)
      Sample.db_withdrawn = (db1, Some t1)
    /\ Store.find_event "e2" db1 = Some ev1
    /\ Dashboard.toggle_button "u2" (mkAmbient true 50 "") ev1 db1 = (db2, Some t2)
    /\ Store.find_event "e2" db2 = Some (Event.mk "e2" "u2" [83%N] 1000 2000 BUSY 10 50).
Proof.
  assert (Hpk : events_pk Sample.db_withdrawn) by (unfold events_pk; simpl; distinct_keys).
  assert (Hin : In (Sample.slot "e2" "u2" BUSY) (events Sample.db_withdrawn))
    by (simpl; auto).
  destruct (toggle_twice_restores "u2" (mkAmbient true 40 "") (mkAmbient true 50 "")
              (Sample.slot "e2" "u2" BUSY) Sample.db_withdrawn Hpk Hin eq_refl)
    as (db1 & ev1 & db2 & t1 & t2 & H1 & H2 & _ & H3 & H4 & _);
    try reflexivity; try discriminate.
  exists db1, ev1, db2, t1, t2. auto.
Defined.

Lemma updated_row_of uid a p ev db e :
  events_pk db -> In ev (events db) -> Event.user_id ev = uid ->
  In e (map (fun e => if Store.events_update_target uid (Event.id ev) e
                      then Store.events_update_row a p e else e) (events db)) ->
  Event.id e = Event.id ev -> e = Store.events_update_row a p ev.
Proof.
  intros Hpk Hin Hown He Hid. apply in_map_iff in He.
  destruct He as (e0 & <- & He0).
  assert (e0 = ev).
  { apply (same_key_same_row Event.id e0 ev _ Hpk He0 Hin).
    destruct (Store.events_update_target uid (Event.id ev) e0); exact Hid. }
  subst e0. now rewrite events_update_target_own.
Qed.

(** X11: once its owner has marked a busy event swappable, the event
    is among the slots the owner can give in exchange and in the
    marketplace of every other user; once the owner has marked a
    swappable event busy, it is in none of these lists. *)
Theorem marked_slot_is_listed (uid : uuid) (a : ambient) (ev : Event.t) (db : DB) :
  events_pk db -> In ev (events db) -> Event.user_id ev = uid ->
  net_ok a = true ->
  (Event.status ev = BUSY ->
   exists db1 row,
     Dashboard.toggle_button uid a ev db
       = (db1, Some (toast_success "Event marked as swappable"))
     /\ Store.find_event (Event.id ev) db1 = Some row
     /\ In row (Marketplace.my_swappable_slots uid db1)
     /\ forall uid', uid' <> uid -> In row (Marketplace.available_slots uid' db1))
  /\ (Event.status ev = SWAPPABLE ->
      exists db1,
        Dashboard.toggle_button uid a ev db
          = (db1, Some (toast_success "Event marked as busy"))
        /\ (forall e, In e (Marketplace.my_swappable_slots uid db1) ->
              Event.id e <> Event.id ev)
        /\ (forall uid' e, In e (Marketplace.available_slots uid' db1) ->
              Event.id e <> Event.id ev)).
Proof.
  intros Hpk Hin Hown Hnet. split; intros Hst.
  - eexists. eexists. split.
    { rewrite toggle_button_writes by (auto; congruence). rewrite Hst. reflexivity. }
    assert (Hrow : In (Store.events_update_row a (Event.mk_patch None (Some SWAPPABLE)) ev)
                     (map (fun e => if Store.events_update_target uid (Event.id ev) e
                                    then Store.events_update_row a
                                           (Event.mk_patch None (Some SWAPPABLE)) e
                                    else e) (events db))).
    { apply in_map_iff. exists ev. split; [|exact Hin].
      now rewrite events_update_target_own. }
    split; [|split].
    + rewrite find_event_after_update, find_event_In by assumption.
      simpl. rewrite events_update_target_own by assumption. reflexivity.
    + apply my_swappable_slots_In. simpl. auto.
    + intros uid' Hne. apply available_slots_In. simpl.
      repeat split; [exact Hrow|congruence].
  - eexists. split.
    { rewrite toggle_button_writes by (auto; congruence). rewrite Hst. reflexivity. }
    split.
    + intros e He Hid. apply my_swappable_slots_In in He.
      destruct He as (He & Hs & _). simpl in He.
      rewrite (updated_row_of _ _ _ _ _ _ Hpk Hin Hown He Hid) in Hs.
      discriminate Hs.
    + intros uid' e He Hid. apply available_slots_In in He.
      destruct He as (He & Hs & _). simpl in He.
      rewrite (updated_row_of _ _ _ _ _ _ Hpk Hin Hown He Hid) in Hs.
      discriminate Hs.
Qed.

Lemma marked_slot_is_listed_witness :
  exists db1 row,
    Dashboard.toggle_button "u2" (Sample.calm 0) (Sample.slot "e2" "u2" BUSY)
      Sample.db_withdrawn
    = (db1, Some (toast_success "Event marked as swappable"))
    /\ Store.find_event "e2" db1 = Some row
    /\ In row (Marketplace.available_slots "u1" db1).
Proof.
  assert (Hpk : events_pk Sample.db_withdrawn) by (unfold events_pk; simpl; distinct_keys).
  assert (Hin : In (Sample.slot "e2" "u2" BUSY) (events Sample.db_withdrawn))
    by (simpl; auto).
  destruct (proj1 (marked_slot_is_listed "u2" (Sample.calm 0)
                     (Sample.slot "e2" "u2" BUSY) Sample.db_withdrawn
                     Hpk Hin eq_refl eq_refl) eq_refl)
    as (db1 & row & H1 & H2 & _ & H3).
  exists db1, row. split; [exact H1|]. split; [exact H2|].
  apply H3. discriminate.
Defined.

(** ** The two lists of requests *)

Lemma insert_by_created_at_perm r l :
  Permutation (RequestsList.insert_by_created_at r l) (r :: l).
Proof.
  induction l as [|x l IH]; simpl.
  - apply Permutation_refl.
  - destruct (SwapRequest.created_at x <=? SwapRequest.created_at r)%Z.
    + apply Permutation_refl.
    + eapply perm_trans; [apply perm_skip, IH | apply perm_swap].
Qed.

Lemma order_by_created_at_perm l :
  Permutation (RequestsList.order_by_created_at l) l.
Proof.
  induction l as [|r l IH]; simpl.
  - constructor.
  - eapply perm_trans; [apply insert_by_created_at_perm | now apply perm_skip].
Qed.

Lemma insert_by_created_at_descending r l :
  descending l -> descending (RequestsList.insert_by_created_at r l).
Proof.
  induction 1 as [|x l Hx Hl IH]; simpl.
  - constructor; [intros ? [] | constructor].
  - destruct (SwapRequest.created_at x <=? SwapRequest.created_at r)%Z eqn:E.
    + apply Z.leb_le in E. constructor.
      * intros y [<-|Hy]; [exact E|]. specialize (Hx y Hy). lia.
      * now constructor.
    + apply Z.leb_gt in E. constructor; [|exact IH].
      intros y Hy.
      apply (Permutation_in _ (insert_by_created_at_perm r l)) in Hy.
      destruct Hy as [<-|Hy]; [lia | now apply Hx].
Qed.

Lemma order_by_created_at_descending l :
  descending (RequestsList.order_by_created_at l).
Proof.
  induction l; simpl; [constructor | now apply insert_by_created_at_descending].
Qed.

Lemma incoming_In uid db r :
  In r (RequestsList.incoming uid db) <->
  In r (swap_requests db) /\ SwapRequest.owner_id r = uid.
Proof.
  unfold RequestsList.incoming, RequestsList.swap_requests_visible.
  split.
  - intros H. apply (Permutation_in _ (order_by_created_at_perm _)) in H.
    rewrite !filter_In, uuid_eqb_eq in H. tauto.
  - intros [Hin Hu].
    apply (Permutation_in _ (Permutation_sym (order_by_created_at_perm _))).
    rewrite !filter_In, uuid_eqb_eq. repeat split; auto.
    unfold Policy.swap_requests_select. rewrite Hu, uuid_eqb_refl.
    apply orb_true_r.
Qed.

Lemma outgoing_In uid db r :
  In r (RequestsList.outgoing uid db) <->
  In r (swap_requests db) /\ SwapRequest.requester_id r = uid.
Proof.
  unfold RequestsList.outgoing, RequestsList.swap_requests_visible.
  split.
  - intros H. apply (Permutation_in _ (order_by_created_at_perm _)) in H.
    rewrite !filter_In, uuid_eqb_eq in H. tauto.
  - intros [Hin Hu].
    apply (Permutation_in _ (Permutation_sym (order_by_created_at_perm _))).
    rewrite !filter_In, uuid_eqb_eq. repeat split; auto.
    unfold Policy.swap_requests_select. rewrite Hu, uuid_eqb_refl.
    reflexivity.
Qed.

Lemma find_found {A : Type} (f : A -> bool) (l : list A) :
  match find f l with
  | Some x => In x l /\ f x = true
  | None => forall x, In x l -> f x = false
  end.
Proof.
  destruct (find f l) as [x|] eqn:F.
  - now apply find_some in F.
  - intros x Hx. eapply find_none in F; eassumption.
Qed.

Lemma embed_event_found uid db i :
  match RequestsList.embed_event uid db i with
  | Some x =>
      exists e, In e (events db) /\ Policy.events_select uid e = true
                /\ Event.id e = i
                /\ x = Requests.EventRef.mk (Event.id e) (Event.title e)
                         (Event.start_time e) (Event.end_time e)
  | None =>
      forall e, In e (events db) -> Policy.events_select uid e = true ->
                Event.id e <> i
  end.
Proof.
  unfold RequestsList.embed_event, Store.events_visible.
  pose proof (find_found (fun e => Event.id e =?u i)
                (filter (Policy.events_select uid) (events db))) as H.
  destruct (find _ _) as [e|].
  - destruct H as [He Hid]. apply filter_In in He. apply uuid_eqb_eq in Hid.
    exists e. tauto.
  - intros e He Hs Hid. specialize (H e).
    rewrite filter_In in H. rewrite Hid, uuid_eqb_refl in H.
    assert (true = false) by (apply H; auto). discriminate.
Qed.

Lemma embed_name_found db i :
  match RequestsList.embed_name db i with
  | Some n => exists p, In p (profiles db) /\ Profile.id p = i /\ Profile.name p = n
  | None => forall p, In p (profiles db) -> Profile.id p <> i
  end.
Proof.
  unfold RequestsList.embed_name, Store.find_profile.
  pose proof (find_found (fun p => Profile.id p =?u i) (profiles db)) as H.
  destruct (find _ _) as [p|]; simpl.
  - destruct H as [Hp Hid]. apply uuid_eqb_eq in Hid. exists p. auto.
  - intros p Hp Hid. specialize (H p Hp). rewrite Hid, uuid_eqb_refl in H.
    discriminate.
Qed.

(** X12: the requests page loads, newest first, as incoming exactly the
    stored requests the user is the owner of and as outgoing exactly
    those the user sent; together they are all the requests the SELECT
    policy shows the user, and the incoming ones are exactly those the
    UPDATE policy lets the user answer.  Each comes as the stored row,
    with the event on either side if the user may see an event with
    that id (its id, title and times) and nothing otherwise, and with
    the names of the two profiles.  If either query is lost the page
    gets neither list. *)
Theorem requests_lists_exact (uid : uuid) (w : nat -> ambient) (db : DB) :
  (net_ok (w 0) = true -> net_ok (w 1) = true ->
   exists inc out,
     RequestsList.fetchRequests uid w db
       = Ok (map (RequestsList.embed uid db) inc, map (RequestsList.embed uid db) out)
     /\ descending inc /\ descending out
     /\ (forall r, In r inc <-> In r (swap_requests db) /\ SwapRequest.owner_id r = uid)
     /\ (forall r, In r out <->
           In r (swap_requests db) /\ SwapRequest.requester_id r = uid)
     /\ (forall r, In r (swap_requests db) ->
           (Policy.swap_requests_select uid r = true <-> In r inc \/ In r out))
     /\ (forall r, In r (swap_requests db) ->
           (Policy.swap_requests_update uid r = true <-> In r inc)))
  /\ (net_ok (w 0) = false \/ net_ok (w 1) = false ->
      RequestsList.fetchRequests uid w db = Err FetchFailed)
  /\ (forall r,
        Fetched.row (RequestsList.embed uid db r) = r
        /\ match Fetched.requester_event (RequestsList.embed uid db r) with
           | Some x =>
               exists e, In e (events db) /\ Policy.events_select uid e = true
                         /\ Event.id e = SwapRequest.requester_event_id r
                         /\ x = Requests.EventRef.mk (Event.id e) (Event.title e)
                                  (Event.start_time e) (Event.end_time e)
           | None =>
               forall e, In e (events db) -> Policy.events_select uid e = true ->
                         Event.id e <> SwapRequest.requester_event_id r
           end
        /\ match Fetched.owner_event (RequestsList.embed uid db r) with
           | Some x =>
               exists e, In e (events db) /\ Policy.events_select uid e = true
                         /\ Event.id e = SwapRequest.owner_event_id r
                         /\ x = Requests.EventRef.mk (Event.id e) (Event.title e)
                                  (Event.start_time e) (Event.end_time e)
           | None =>
               forall e, In e (events db) -> Policy.events_select uid e = true ->
                         Event.id e <> SwapRequest.owner_event_id r
           end
        /\ match Fetched.requester (RequestsList.embed uid db r) with
           | Some n =>
               exists p, In p (profiles db)
                         /\ Profile.id p = SwapRequest.requester_id r
                         /\ Profile.name p = n
           | None =>
               forall p, In p (profiles db) ->
                         Profile.id p <> SwapRequest.requester_id r
           end
        /\ match Fetched.owner (RequestsList.embed uid db r) with
           | Some n =>
               exists p, In p (profiles db)
                         /\ Profile.id p = SwapRequest.owner_id r
                         /\ Profile.name p = n
           | None =>
               forall p, In p (profiles db) ->
                         Profile.id p <> SwapRequest.owner_id r
           end).
Proof.
  split; [|split].
  - intros H0 H1.
    exists (RequestsList.incoming uid db), (RequestsList.outgoing uid db).
    split; [unfold RequestsList.fetchRequests; now rewrite H0, H1|].
    split; [apply order_by_created_at_descending|].
    split; [apply order_by_created_at_descending|].
    split; [intros r; apply incoming_In|].
    split; [intros r; apply outgoing_In|].
    split; intros r Hr.
    + rewrite incoming_In, outgoing_In.
      unfold Policy.swap_requests_select.
      rewrite orb_true_iff, !uuid_eqb_eq. intuition congruence.
    + rewrite incoming_In. unfold Policy.swap_requests_update.
      rewrite uuid_eqb_eq. intuition congruence.
  - unfold RequestsList.fetchRequests. intros [->| ->]; [reflexivity|].
    now destruct (net_ok (w 0)).
  - intros r. unfold RequestsList.embed. cbn [Fetched.row Fetched.requester_event
      Fetched.owner_event Fetched.requester Fetched.owner].
    split; [reflexivity|].
    split; [apply embed_event_found|].
    split; [apply embed_event_found|].
    split; apply embed_name_found.
Qed.

(** Bob loads his requests: Alice's is incoming, as stored, with his
    own slot and both names, and without her held slot. *)
Lemma requests_lists_exact_witness :
  RequestsList.fetchRequests "u2" Sample.calm Sample.db_pending
  = Ok ([Fetched.mk (Sample.request PENDING) None
           (Some (Requests.EventRef.mk "e2" [83%N] 1000 2000))
           (Some [65%N]) (Some [66%N])], [])
  /\ exists inc out,
       RequestsList.fetchRequests "u2" Sample.calm Sample.db_pending
       = Ok (map (RequestsList.embed "u2" Sample.db_pending) inc,
             map (RequestsList.embed "u2" Sample.db_pending) out)
       /\ In (Sample.request PENDING) inc
       /\ ~ In (Sample.request PENDING) out.
Proof.
  split; [reflexivity|].
  destruct (proj1 (requests_lists_exact "u2" Sample.calm Sample.db_pending)
              eq_refl eq_refl)
    as (inc & out & Hrun & _ & _ & Hinc & Hout & _).
  exists inc, out. split; [exact Hrun|]. split.
  - apply Hinc. simpl. auto.
  - intros H. apply Hout in H. destruct H as [_ H]. discriminate H.
Defined.

(** ** The events embedded in a request *)

Lemma find_key_filter {A : Type} (key : A -> uuid) (q : A -> bool) (x : A) (l : list A) :
  NoDup (map key l) -> In x l ->
  find (fun y => key y =?u key x) (filter q l) = if q x then Some x else None.
Proof.
  intros Hnd Hin. destruct (q x) eqn:Q.
  - apply find_key_In; [now apply NoDup_map_filter|].
    apply filter_In. auto.
  - destruct (find _ _) as [y|] eqn:F; [exfalso|reflexivity].
    apply (find_key_Some key) in F. destruct F as [Hy Hk].
    apply filter_In in Hy. destruct Hy as [Hy Qy].
    assert (y = x) by (eapply (same_key_same_row key); eassumption).
    congruence.
Qed.

(** X13: a request comes to the page with the event it offers only if
    the user may see that event.  An incoming request whose offered
    event belongs to somebody else and is not [SWAPPABLE] (held or
    busy) comes without it, and [renderRequest], which reads the
    event's title, cannot show it; there is then no request to hand to
    [handleResponse] either. *)
Theorem hidden_offer_cannot_be_shown
    (uid : uuid) (db : DB) (r : SwapRequest.t) (e : Event.t) :
  events_pk db -> In e (events db) ->
  Event.id e = SwapRequest.requester_event_id r ->
  (Policy.events_select uid e = true ->
   Fetched.requester_event (RequestsList.embed uid db r)
   = Some (Requests.EventRef.mk (Event.id e) (Event.title e)
             (Event.start_time e) (Event.end_time e)))
  /\ (Event.user_id e <> uid -> Event.status e <> SWAPPABLE ->
      Fetched.requester_event (RequestsList.embed uid db r) = None
      /\ (forall isIncoming,
            RequestsList.renderRequest (RequestsList.embed uid db r) isIncoming = None)
      /\ RequestsList.as_request (RequestsList.embed uid db r) = None).
Proof.
  intros Hpk Hin Hid.
  assert (Hfind : RequestsList.embed_event uid db (SwapRequest.requester_event_id r)
                  = if Policy.events_select uid e
                    then Some (Requests.EventRef.mk (Event.id e) (Event.title e)
                                 (Event.start_time e) (Event.end_time e))
                    else None).
  { unfold RequestsList.embed_event, Store.events_visible. rewrite <- Hid.
    rewrite (find_key_filter Event.id _ e _ Hpk Hin).
    now destruct (Policy.events_select uid e). }
  split.
  - intros Hsee. simpl. now rewrite Hfind, Hsee.
  - intros Hu Hs.
    assert (Hhid : Policy.events_select uid e = false).
    { unfold Policy.events_select, Policy.view_own_events,
        Policy.view_swappable_events_from_others.
      apply not_eq_sym, uuid_eqb_neq in Hu. rewrite Hu. simpl.
      destruct (event_status_eqb (Event.status e) SWAPPABLE) eqn:E; [|reflexivity].
      apply event_status_eqb_eq in E. contradiction. }
    rewrite Hhid in Hfind.
    split; [simpl; exact Hfind|]. split.
    + intros isIncoming. unfold RequestsList.renderRequest. simpl.
      rewrite Hfind. now destruct (if isIncoming then _ else _).
    + unfold RequestsList.as_request. simpl. now rewrite Hfind.
Qed.

(** Bob loads Alice's pending request: her held slot is hidden from
    him, and the card cannot be drawn. *)
Lemma hidden_offer_cannot_be_shown_witness :
  RequestsList.fetchRequests "u2" Sample.calm Sample.db_pending
  = Ok ([Fetched.mk (Sample.request PENDING) None
           (Some (Requests.EventRef.mk "e2" [83%N] 1000 2000))
           (Some [65%N]) (Some [66%N])], [])
  /\ RequestsList.renderRequest
       (RequestsList.embed "u2" Sample.db_pending (Sample.request PENDING)) true
     = None.
Proof.
  split; [reflexivity|].
  assert (Hpk : events_pk Sample.db_pending) by (unfold events_pk; simpl; distinct_keys).
  assert (Hin : In (Sample.slot "e1" "u1" SWAP_PENDING) (events Sample.db_pending))
    by (simpl; auto).
  destruct (proj2 (hidden_offer_cannot_be_shown "u2" Sample.db_pending
                     (Sample.request PENDING) (Sample.slot "e1" "u1" SWAP_PENDING)
                     Hpk Hin eq_refl))
    as (_ & Hrender & _); try discriminate.
  apply Hrender.
Defined.

(** ** Signing up *)

Lemma find_app_first {A : Type} (p : A -> bool) (l l' : list A) (y : A) :
  find p l = Some y -> find p (l ++ l') = Some y.
Proof.
  induction l as [|x l IH]; simpl; [discriminate|].
  now destruct (p x).
Qed.

Lemma find_app_last {A : Type} (p : A -> bool) (l : list A) (x : A) :
  existsb p l = false -> find p (l ++ [x]) = if p x then Some x else None.
Proof.
  induction l as [|y l IH]; simpl; [reflexivity|].
  destruct (p y); simpl; [discriminate|exact IH].
Qed.

(** X14: the profile trigger gives a new user a profile under the
    user's id, named as the sign-up metadata says or ['User'] when it
    says nothing, and leaves every other row alone; it refuses, with
    nothing written, a user whose id already has a profile or whose
    e-mail another profile has. *)
Theorem new_user_gets_profile (a : ambient) (new : AuthUser.t) (db : DB) :
  (Store.has_profile db (AuthUser.id new) = false ->
   (forall p, In p (profiles db) -> Profile.email p <> AuthUser.email new) ->
   exists db',
     Signup.handle_new_user a new db = Ok db'
     /\ Store.find_profile (AuthUser.id new) db'
        = Some (Profile.mk (AuthUser.id new)
                  (match AuthUser.name new with Some n => n | None => Signup.User end)
                  (AuthUser.email new) (now a))
     /\ (forall i, i <> AuthUser.id new ->
           Store.find_profile i db' = Store.find_profile i db)
     /\ events db' = events db /\ swap_requests db' = swap_requests db)
  /\ (Store.has_profile db (AuthUser.id new) = true
      \/ (exists p, In p (profiles db) /\ Profile.email p = AuthUser.email new) ->
      Signup.handle_new_user a new db = Err UniqueViolation).
Proof.
  split.
  - intros Hfresh Hmail. unfold Signup.handle_new_user. simpl. rewrite Hfresh.
    replace (existsb _ (profiles db)) with false.
    2:{ symmetry. apply not_true_is_false. intros H. apply existsb_exists in H.
        destruct H as (p & Hp & He). apply jsstring_eqb_eq in He.
        exact (Hmail p Hp He). }
    eexists. split; [reflexivity|]. unfold Store.find_profile. simpl.
    split; [|split; [|split; reflexivity]].
    + rewrite find_app_last by exact Hfresh. simpl. now rewrite uuid_eqb_refl.
    + intros i Hi.
      destruct (find (fun p => Profile.id p =?u i) (profiles db)) as [p|] eqn:F.
      * now rewrite (find_app_first _ _ _ _ F).
      * rewrite find_app_last.
        -- simpl. apply not_eq_sym, uuid_eqb_neq in Hi. now rewrite Hi.
        -- apply not_true_is_false. intros H. apply existsb_exists in H.
           destruct H as (p & Hp & Hq). eapply find_none in F; [|exact Hp].
           simpl in F. congruence.
  - unfold Signup.handle_new_user. simpl. intros [->|(p & Hp & He)]; [reflexivity|].
    destruct (Store.has_profile db (AuthUser.id new)); [reflexivity|].
    replace (existsb _ (profiles db)) with true; [reflexivity|].
    symmetry. apply existsb_exists. exists p. split; [exact Hp|].
    now apply jsstring_eqb_eq.
Qed.

(** A third user signs up without a name; a second sign-up under
    Alice's e-mail is refused. *)
Lemma new_user_gets_profile_witness :
  (exists db',
     Signup.handle_new_user (Sample.calm 0) (AuthUser.mk "u3" [99%N] None)
       Sample.db_offered = Ok db'
     /\ Store.find_profile "u3" db' = Some (Profile.mk "u3" Signup.User [99%N] 30)
     /\ Store.find_profile "u1" db' = Some Sample.alice)
  /\ Signup.handle_new_user (Sample.calm 0) (AuthUser.mk "u4" [97%N] None)
       Sample.db_offered = Err UniqueViolation.
Proof.
  split.
  - destruct (proj1 (new_user_gets_profile (Sample.calm 0)
                       (AuthUser.mk "u3" [99%N] None) Sample.db_offered))
      as (db' & Hrun & Hnew & Hold & _).
    + reflexivity.
    + intros p [<-|[<-|[]]]; discriminate.
    + exists db'. split; [exact Hrun|]. split; [exact Hnew|].
      rewrite (Hold "u1"%string) by discriminate. reflexivity.
  - apply (proj2 (new_user_gets_profile (Sample.calm 0)
                    (AuthUser.mk "u4" [97%N] None) Sample.db_offered)).
    right. exists Sample.alice. split; [simpl; auto|reflexivity].
Defined.

(** X15: what the sign-up form lets through.  The parsed name is
    absent (nothing, or only white space, was typed) or is the typed
    name trimmed, of 2 to 100 code units; the e-mail is trimmed, at
    most 255 code units long and passes the e-mail test; the password
    is taken as typed and has 8 to 100 code units.  The name sent with
    the sign-up is therefore never empty, and parsing the parsed data
    again returns it unchanged. *)
Theorem sign_up_form_output
    (is_email : jsstring -> bool) (data parsed : Signup.AuthFormData) :
  Signup.authSchema is_email data = Some parsed ->
  match Signup.name parsed with
  | None => Signup.name data = None
            \/ exists s, Signup.name data = Some s /\ Dashboard.trim s = []
  | Some n => exists s, Signup.name data = Some s /\ n = Dashboard.trim s
                        /\ 2 <= List.length n <= 100
  end
  /\ Signup.email parsed = Dashboard.trim (Signup.email data)
  /\ is_email (Signup.email parsed) = true
  /\ List.length (Signup.email parsed) <= 255
  /\ Signup.password parsed = Signup.password data
  /\ 8 <= List.length (Signup.password parsed) <= 100
  /\ (Signup.metadata_name parsed = Signup.User
      \/ (Signup.name parsed = Some (Signup.metadata_name parsed)
          /\ trimmed (Signup.metadata_name parsed)
          /\ 2 <= List.length (Signup.metadata_name parsed) <= 100))
  /\ Signup.authSchema is_email parsed = Some parsed.
Proof.
  unfold Signup.authSchema, Signup.preprocess_name.
  destruct (Signup.name data) as [s|] eqn:En.
  - destruct (Dashboard.trim s) as [|c t] eqn:Et.
    + destruct (is_email _ && _ && _ && _) eqn:K; [|discriminate]. intros [= <-].
      cbn [Signup.name Signup.email Signup.password].
      rewrite !andb_true_iff, !Nat.leb_le in K.
      destruct K as (((K1 & K2) & K3) & K4).
      split; [right; eauto|]. repeat split; try assumption; try lia.
      * now left.
      * rewrite trim_idempotent.
        rewrite K1. apply Nat.leb_le in K2, K3, K4. now rewrite K2, K3, K4.
    + destruct ((2 <=? _) && _) eqn:L; [|discriminate].
      destruct (is_email _ && _ && _ && _) eqn:K; [|discriminate]. intros [= <-].
      cbn [Signup.name Signup.email Signup.password].
      rewrite !andb_true_iff, !Nat.leb_le in K.
      destruct K as (((K1 & K2) & K3) & K4).
      pose proof L as L'. rewrite andb_true_iff, !Nat.leb_le in L'.
      split; [exists s; repeat split; auto; lia|].
      repeat split; try assumption; try lia.
      * right. unfold Signup.metadata_name. cbn [Signup.name].
        assert (Hm : match Dashboard.trim s with
                     | [] => Signup.User
                     | c0 :: s0 => c0 :: s0
                     end = Dashboard.trim s) by now rewrite Et.
        rewrite Hm. split; [reflexivity|].
        split; [apply trim_trimmed|exact L'].
      * assert (Hfix : Dashboard.trim (c :: t) = c :: t)
          by (rewrite <- Et; apply trim_idempotent).
        rewrite !trim_idempotent, Et. cbn iota. rewrite Hfix.
        rewrite Et in L. rewrite L, K1.
        apply Nat.leb_le in K2, K3, K4. rewrite K2, K3, K4. reflexivity.
  - destruct (is_email _ && _ && _ && _) eqn:K; [|discriminate]. intros [= <-].
    cbn [Signup.name Signup.email Signup.password].
    rewrite !andb_true_iff, !Nat.leb_le in K.
    destruct K as (((K1 & K2) & K3) & K4).
    split; [now left|]. repeat split; try assumption; try lia.
    + now left.
    + rewrite trim_idempotent.
      rewrite K1. apply Nat.leb_le in K2, K3, K4. now rewrite K2, K3, K4.
Qed.

Lemma sign_up_form_output_witness :
  Signup.authSchema (fun _ => true)
    (Signup.mkForm (Some [32; 65; 110; 110; 32]%N) [32; 97]%N [1; 2; 3; 4; 5; 6; 7; 8]%N)
  = Some (Signup.mkForm (Some [65; 110; 110]%N) [97%N] [1; 2; 3; 4; 5; 6; 7; 8]%N)
  /\ Signup.metadata_name
       (Signup.mkForm (Some [65; 110; 110]%N) [97%N] [1; 2; 3; 4; 5; 6; 7; 8]%N)
     = [65; 110; 110]%N
  /\ Signup.authSchema (fun _ => true)
       (Signup.mkForm (Some [65; 110; 110]%N) [97%N] [1; 2; 3; 4; 5; 6; 7; 8]%N)
     = Some (Signup.mkForm (Some [65; 110; 110]%N) [97%N] [1; 2; 3; 4; 5; 6; 7; 8]%N).
Proof.
  split; [reflexivity|]. split; [reflexivity|].
  exact (proj2 (proj2 (proj2 (proj2 (proj2 (proj2 (proj2
           (sign_up_form_output (fun _ => true)
              (Signup.mkForm (Some [32; 65; 110; 110; 32]%N) [32; 97]%N
                 [1; 2; 3; 4; 5; 6; 7; 8]%N)
              (Signup.mkForm (Some [65; 110; 110]%N) [97%N]
                 [1; 2; 3; 4; 5; 6; 7; 8]%N) eq_refl)))))))).
Defined.

(** ** Nothing to offer *)

(** X16: a user none of whose events is [SWAPPABLE] loads an empty
    list of slots to offer; the swap dialog then does not open, no slot
    is selected, and [requestSwap] sends nothing.  A user who has a
    swappable event finds it in the list, and the dialog opens on the
    slot that was clicked. *)
Theorem nothing_to_offer_nothing_sent
    (uid : uuid) (a : ambient) (w : nat -> ambient)
    (slot : MarketplaceEvent.t) (db : DB) :
  net_ok a = true ->
  ((forall e, In e (events db) -> Event.user_id e = uid ->
      Event.status e <> SWAPPABLE) ->
   Marketplace.fetchMySwappableSlots uid a db = Ok []
   /\ Marketplace.openSwapDialog [] slot
      = (None, Some (toast_error
                       "You need at least one swappable slot to request a swap"))
   /\ forall myEventId,
        Marketplace.requestSwap uid w (fst (Marketplace.openSwapDialog [] slot))
          myEventId db = (db, None))
  /\ (forall e, In e (events db) -> Event.user_id e = uid ->
        Event.status e = SWAPPABLE ->
        exists l,
          Marketplace.fetchMySwappableSlots uid a db = Ok l
          /\ In (Marketplace.project e) l
          /\ Marketplace.openSwapDialog l slot = (Some slot, None)).
Proof.
  intros Hnet. unfold Marketplace.fetchMySwappableSlots. rewrite Hnet. split.
  - intros Hnone.
    destruct (Marketplace.my_swappable_slots uid db) as [|x l] eqn:E.
    + repeat split.
    + exfalso.
      assert (In x (Marketplace.my_swappable_slots uid db)) as Hx
        by (rewrite E; now left).
      apply my_swappable_slots_In in Hx. destruct Hx as (Hin & Hs & Hu).
      exact (Hnone x Hin Hu Hs).
  - intros e Hin Hu Hs. eexists. split; [reflexivity|].
    assert (In e (Marketplace.my_swappable_slots uid db)) as He
      by (apply my_swappable_slots_In; auto).
    split; [now apply in_map|].
    destruct (Marketplace.my_swappable_slots uid db); [destruct He|reflexivity].
Qed.

Lemma nothing_to_offer_nothing_sent_witness :
  Marketplace.fetchMySwappableSlots "u2" (Sample.calm 0) Sample.db_withdrawn = Ok []
  /\ Marketplace.requestSwap "u2" Sample.calm
       (fst (Marketplace.openSwapDialog [] Sample.bobs_slot)) "e2" Sample.db_withdrawn
     = (Sample.db_withdrawn, None).
Proof.
  destruct (proj1 (nothing_to_offer_nothing_sent "u2" (Sample.calm 0) Sample.calm
                     Sample.bobs_slot Sample.db_withdrawn eq_refl))
    as (Hfetch & _ & Hsend).
  - intros e [<-|[<-|[]]]; simpl; intros; discriminate.
  - split; [exact Hfetch|apply Hsend].
Defined.

(** ** Events never change hands *)




(** X19: the slots a user can offer in exchange are loaded as exactly
    the user's own [SWAPPABLE] events, each once, in ascending order of
    start time, each reduced to its id, title, start and end time. *)
Theorem my_swappable_slots_exact (uid : uuid) (a : ambient) (db : DB) :
  net_ok a = true ->
  exists rows,
    Marketplace.fetchMySwappableSlots uid a db = Ok (map Marketplace.project rows)
    /\ Marketplace.fetchMySwappableSlots uid a db
       = Ok (map (fun e => MyEvent.mk (Event.id e) (Event.title e)
                             (Event.start_time e) (Event.end_time e)) rows)
    /\ Permutation rows
         (filter (fun e => (Event.user_id e =?u uid)
                           && event_status_eqb (Event.status e) SWAPPABLE) (events db))
    /\ ascending rows
    /\ (forall e, In e rows <->
          In e (events db) /\ Event.status e = SWAPPABLE /\ Event.user_id e = uid)
    /\ (forall e, In e rows -> MyEvent.id (Marketplace.project e) = Event.id e)
    /\ (forall e,
          MyEvent.id (Marketplace.project e) = Event.id e
          /\ MyEvent.title (Marketplace.project e) = Event.title e
          /\ MyEvent.start_time (Marketplace.project e) = Event.start_time e
          /\ MyEvent.end_time (Marketplace.project e) = Event.end_time e).
Proof.
  intros Hnet. exists (Marketplace.my_swappable_slots uid db).
  split; [unfold Marketplace.fetchMySwappableSlots; now rewrite Hnet|].
  split; [unfold Marketplace.fetchMySwappableSlots; now rewrite Hnet|].
  split.
  { unfold Marketplace.my_swappable_slots, Store.events_visible.
    eapply perm_trans; [apply order_by_start_time_perm|].
    rewrite filter_filter_implied; [apply Permutation_refl|].
    intros e _ H. apply andb_true_iff in H. destruct H as [H _].
    unfold Policy.events_select, Policy.view_own_events.
    rewrite uuid_eqb_sym, H. reflexivity. }
  split; [apply order_by_start_time_ascending|].
  split; [intros e; apply my_swappable_slots_In|].
  split; [reflexivity|].
  intros e. repeat split.
Qed.

(** Alice can offer her own swappable slot, and only that. *)
Lemma my_swappable_slots_exact_witness :
  Marketplace.fetchMySwappableSlots "u1" (Sample.calm 0) Sample.db_offered
  = Ok [MyEvent.mk "e1" [83%N] 1000 2000]
  /\ exists rows,
       Marketplace.fetchMySwappableSlots "u1" (Sample.calm 0) Sample.db_offered
       = Ok (map Marketplace.project rows)
       /\ In (Sample.slot "e1" "u1" SWAPPABLE) rows
       /\ ~ In (Sample.slot "e2" "u2" SWAPPABLE) rows.
Proof.
  split; [reflexivity|].
  destruct (my_swappable_slots_exact "u1" (Sample.calm 0) Sample.db_offered eq_refl)
    as (rows & Hrun & _ & _ & _ & Hin & _).
  exists rows. split; [exact Hrun|]. split.
  - apply Hin. simpl. auto.
  - intros H. apply Hin in H. destruct H as (_ & _ & H). discriminate H.
Defined.
